(** * Job tracking and state reconciliation of the legal-AI front end

    A shallow embedding of the asynchronous core of the React client:
    [App] (document selection, chat, upload/poll orchestration),
    [ProcessingStatus] (interval poller with cancellation),
    [ClauseVisualizer] (per-clause enrichment) and [ChatInterface]
    (persist / undo of clause analyses).

    JavaScript runs these components on one event loop.  An [async] function
    is therefore a chain of synchronous segments separated by [await]; each
    segment is embedded as a function that returns the continuation it
    suspends in together with the ordered list of effects it performs
    (state setters, network requests, timers, callbacks).  The environment
    (network, timers, user) drives a component by feeding events to its
    [step] function. *)

From Stdlib Require Import ZArith Lia Ascii.
From stdpp Require Import base strings list gmap pretty.


(** ** JavaScript values and HTTP responses *)

(** JSON values as the client sees them after [response.json()]. *)
#[local] Set Warnings "-register-all".
Inductive Json :=
| JUndefined
| JNull
| JBool (b : bool)
| JNum (z : Z)
| JStr (s : string)
| JArr (items : list Json)
| JObj (fields : list (string * Json)).
#[local] Set Warnings "register-all".

(** JavaScript truthiness, as used by [&&], [||], [?:] and [if]. *)
Definition truthy (j : Json) : bool :=
  match j with
  | JUndefined | JNull => false
  | JBool b => b
  | JNum z => negb (z =? 0)%Z
  | JStr s => negb (String.eqb s "")
  | JArr _ | JObj _ => true
  end.

Fixpoint assoc (k : string) (fs : list (string * Json)) : Json :=
  match fs with
  | [] => JUndefined
  | (k', v) :: fs' => if String.eqb k k' then v else assoc k fs'
  end.

(** Property read [j.k].  [None] stands for the [TypeError] JavaScript
    throws when [j] is [null] or [undefined]. *)
Definition prop (j : Json) (k : string) : option Json :=
  match j with
  | JUndefined | JNull => None
  | JObj fs => Some (assoc k fs)
  | _ => Some JUndefined
  end.

(** Truthiness of an optional string field ([undefined] and the empty string
    are falsy). *)
Definition truthy_str (s : option string) : bool :=
  match s with
  | Some s => negb (String.eqb s "")
  | None => false
  end.

(** The outcome of [await fetch(...)] followed by [await response.json()].
    [Rejected msg]: the fetch promise rejects (transport failure) with an
    [Error] whose message is [msg].  [Resolved status body]: an HTTP response
    arrived; [body] is [inl msg] when decoding it as JSON rejects. *)
Inductive Response (A : Type) :=
| Rejected (msg : string)
| Resolved (status : nat) (body : string + A).
Arguments Rejected {A} msg.
Arguments Resolved {A} status body.

(** [response.ok]: the status is in the range 200-299. *)
Definition ok (status : nat) : bool := (200 <=? status) && (status <=? 299).

(** Readings of the wall clock: [Date.now()] and [new Date().toISOString()]. *)
Record Clock := { now : Z; iso : string }.

(** ** The [App] component *)

Module Document.
Record t := {
  id : string;
  file_name : string;
  created_at : string;
  processed_at : string;
  (* ocr_metadata?.document_type; [statistics] is never read by the core *)
  ocr_document_type : option string
}.
End Document.

Inductive Role := user | assistant | system.

Module ChatMessage.
Record t := {
  id : string;
  role : Role;
  message : string;
  created_at : string
  (* metadata?: any -- never read or written by the core *)
}.
End ChatMessage.

Module App.

Record State := {
  documents : list Document.t;
  selectedDocument : option Document.t;
  chatHistory : list ChatMessage.t;
  isLoading : bool;
  error : option string
}.

Inductive Request :=
| GetDocuments
| GetChatHistory (documentId : string)
| PostProcess (file_id : string)
| GetProcessStatus (file_id : string)
| PostChat (documentId : string) (message : string)
| DeleteChats (documentId : string).

(** What a synchronous segment can do, in program order. *)
Inductive Effect :=
| SetDocuments (ds : list Document.t)
| SetSelectedDocument (d : option Document.t)
| SetChatHistory (h : list ChatMessage.t)
| AppendChatHistory (m : ChatMessage.t)   (* setChatHistory(prev => [...prev, m]) *)
| SetIsLoading (b : bool)
| SetError (e : option string)
| Fetch (rq : Request)
| SetTimeout (ms : nat)
| ConsoleWarn (what : string).

Definition apply (e : Effect) (st : State) : State :=
  match e with
  | SetDocuments ds =>
      Build_State ds (selectedDocument st) (chatHistory st) (isLoading st) (error st)
  | SetSelectedDocument d =>
      Build_State (documents st) d (chatHistory st) (isLoading st) (error st)
  | SetChatHistory h =>
      Build_State (documents st) (selectedDocument st) h (isLoading st) (error st)
  | AppendChatHistory m =>
      Build_State (documents st) (selectedDocument st) (chatHistory st ++ [m])
                  (isLoading st) (error st)
  | SetIsLoading b =>
      Build_State (documents st) (selectedDocument st) (chatHistory st) b (error st)
  | SetError e =>
      Build_State (documents st) (selectedDocument st) (chatHistory st) (isLoading st) e
  | Fetch _ | SetTimeout _ | ConsoleWarn _ => st
  end.

(** The state after a segment's effects, applied in order. *)
Definition run (es : list Effect) (st : State) : State :=
  fold_left (fun s e => apply e s) es st.

(** Bodies of the responses the component decodes. *)
Record DocumentsData := { data_documents : option (list Document.t) }.
Record HistoryData := { data_chats : option (list ChatMessage.t) }.
Record ChatData := { data_message : string }.
Record StatusData := { status : option string; document_id : option string }.
Record ProcessData := { result : Json }.

(** [x || []] *)
Definition or_nil {A} (x : option (list A)) : list A :=
  match x with Some l => l | None => [] end.

(** *** loadDocuments (lines 45-57) *)

Definition loadDocuments_start : list Effect := [Fetch GetDocuments].

Definition loadDocuments_resume (r : Response DocumentsData) : list Effect :=
  match r with
  | Resolved s body =>
      if ok s then
        match body with
        | inr data => [SetDocuments (or_nil (data_documents data))]
        | inl _ => [ConsoleWarn "Failed to load documents:"]
        end
      else [ConsoleWarn "Failed to load documents:"]
  | Rejected _ => [ConsoleWarn "Failed to load documents:"]
  end.

(** *** loadChatHistory (lines 59-76) *)


Definition loadChatHistory_resume (r : Response HistoryData) : list Effect :=
  match r with
  | Resolved s body =>
      if ok s then
        match body with
        | inr data => [SetChatHistory (or_nil (data_chats data)); SetIsLoading false]
        | inl _ =>
            [ConsoleWarn "Failed to load chat history:"; SetChatHistory [];
             SetIsLoading false]
        end
      else
        [ConsoleWarn "Failed to load chat history:"; SetChatHistory [];
         SetIsLoading false]
  | Rejected _ =>
      [ConsoleWarn "Failed to load chat history:"; SetChatHistory [];
       SetIsLoading false]
  end.

(** *** handleSendMessage (lines 183-226) *)

Definition userMessage (message : string) (c : Clock) : ChatMessage.t :=
  {| ChatMessage.id := pretty (now c);
     ChatMessage.role := user;
     ChatMessage.message := message;
     ChatMessage.created_at := iso c |}.

Definition assistantMessage (data : ChatData) (c : Clock) : ChatMessage.t :=
  {| ChatMessage.id := pretty (now c + 1)%Z;
     ChatMessage.role := assistant;
     ChatMessage.message := data_message data;
     ChatMessage.created_at := iso c |}.

(** First segment, up to [await fetch].  [sel] is the [selectedDocument]
    the handler closes over.  The result says whether the function is
    suspended on the chat request ([true]) or has returned ([false]). *)
Definition handleSendMessage_start (sel : option Document.t) (message : string)
    (c : Clock) : bool * list Effect :=
  match sel with
  | None => (false, [])
  | Some d =>
      (true,
       [SetIsLoading true;
        AppendChatHistory (userMessage message c);
        Fetch (PostChat (Document.id d) message)])
  end.

(** Second segment: the chat request settles. *)
Definition handleSendMessage_resume (r : Response ChatData) (c : Clock) : list Effect :=
  match r with
  | Resolved s body =>
      if ok s then
        match body with
        | inr data => [AppendChatHistory (assistantMessage data c); SetIsLoading false]
        | inl msg =>
            [SetError (Some ("Failed to send message: " +:+ msg)); SetIsLoading false]
        end
      else [SetError (Some "Failed to send message"); SetIsLoading false]
  | Rejected msg =>
      [SetError (Some ("Failed to send message: " +:+ msg)); SetIsLoading false]
  end.

(** The whole call when nothing else touches the state in between. *)
Definition handleSendMessage (message : string) (c1 c2 : Clock)
    (r : Response ChatData) (st : State) : list Effect :=
  let '(suspended, es) := handleSendMessage_start (selectedDocument st) message c1 in
  if suspended then es ++ handleSendMessage_resume r c2 else es.

(** The request succeeded from the handler's point of view. *)
Definition succeeded {A} (r : Response A) : bool :=
  match r with
  | Resolved s (inr _) => ok s
  | _ => false
  end.

(** The request failed in transport or came back with a non-OK status. *)
Definition failed {A} (r : Response A) : bool :=
  match r with
  | Rejected _ => true
  | Resolved s _ => negb (ok s)
  end.

(** *** handleDeleteChat (lines 228-245) *)

Definition handleDeleteChat_start (documentId : string) : list Effect :=
  [SetIsLoading true; Fetch (DeleteChats documentId)].

(** *** handleFileUploaded and pollForCompletion (lines 78-181) *)

Record RawResponse := { raw_result : Json; raw_document_id : option string }.
Record FileData := {
  file_id : string;
  filename : string;
  rawResponse : option RawResponse
}.

Definition maxAttempts : nat := 60.

(** Where the upload handler is suspended.  The poll states carry the local
    variable [attempts]; once the status is [done] they also carry
    [statusData.document_id]. *)
Inductive Proc :=
| ImmLoadDocs                       (* line 85: await loadDocuments() *)
| ImmUpdatedDocs                    (* line 86: await fetch(documents) *)
| AwaitProcess                      (* line 105: await fetch(process) *)
| PollSleep (attempts : nat)        (* line 116: await setTimeout *)
| PollStatus (attempts : nat)       (* line 118: await fetch(status) *)
| PollLoadDocs (attempts : nat) (document_id : option string)     (* line 129 *)
| PollUpdatedDocs (attempts : nat) (document_id : option string)  (* line 132 *)
| ProcLoadDocs                      (* line 167: await loadDocuments() *)
| Finished                          (* the function has returned *)
| Unhandled (msg : string).         (* pollForCompletion's promise rejected;
                                       nobody awaits or catches it *)

Inductive Event :=
| TimerFired
| DocumentsResponse (r : Response DocumentsData)
| ProcessResponse (r : Response ProcessData)
| StatusResponse (r : Response StatusData).

Definition timeoutMessage : string :=
  "Document processing timed out. Please check and try again.".
Definition notFoundMessage : string :=
  "Processing file not found on server. Please re-upload and try again.".
Definition failedMessage : string :=
  "Document processing failed. Please try again.".

(** The [catch] of handleFileUploaded (lines 177-180). *)
Definition upload_catch (msg : string) : Proc * list Effect :=
  (Finished, [SetError (Some ("Upload failed: " +:+ msg)); SetIsLoading false]).

(** Lines 156-159: what runs once the [while] loop is left. *)
Definition after_loop (attempts : nat) : Proc * list Effect :=
  (Finished,
   (if maxAttempts <=? attempts then [SetError (Some timeoutMessage)] else [])
     ++ [SetIsLoading false]).

(** Line 115: the loop test, then either the next sleep or the loop exit. *)
Definition loop_head (attempts : nat) : Proc * list Effect :=
  if attempts <? maxAttempts then (PollSleep attempts, [SetTimeout 1000])
  else after_loop attempts.

(** Predicate of the [find] at lines 89-92 (synchronous upload result). *)
Definition matches_immediate (fd : FileData) (raw : RawResponse)
    (d : Document.t) : bool :=
  String.eqb (Document.file_name d) (filename fd)
  || match raw_document_id raw with
     | Some i => String.eqb (Document.id d) i
     | None => false
     end.

(** Predicate of the [find] at lines 135-138 (poll reported [done]). *)
Definition matches_polled (fd : FileData) (document_id : option string)
    (d : Document.t) : bool :=
  String.eqb (Document.file_name d) (filename fd)
  || (truthy_str document_id
      && match document_id with
         | Some i => String.eqb (Document.id d) i
         | None => false
         end).

(** First segment of handleFileUploaded. *)
Definition handleFileUploaded_start (fd : FileData) : Proc * list Effect :=
  let pre := [SetIsLoading true; SetError None] in
  match rawResponse fd with
  | Some raw =>
      if truthy (raw_result raw) then (ImmLoadDocs, pre ++ loadDocuments_start)
      else (AwaitProcess, pre ++ [Fetch (PostProcess (file_id fd))])
  | None => (AwaitProcess, pre ++ [Fetch (PostProcess (file_id fd))])
  end.

(** One resumption of the handler.  [docs0] is the [documents] value the
    handler closed over when it was called.  An event the current
    suspension point does not wait for leaves everything as it is. *)
Definition step (fd : FileData) (docs0 : list Document.t) (p : Proc) (ev : Event)
    : Proc * list Effect :=
  match p, ev with
  | ImmLoadDocs, DocumentsResponse r =>
      (ImmUpdatedDocs, loadDocuments_resume r ++ [Fetch GetDocuments])
  | ImmUpdatedDocs, DocumentsResponse r =>
      match r with
      | Rejected msg => upload_catch msg
      | Resolved s body =>
          if ok s then
            match body with
            | inl msg => upload_catch msg
            | inr data =>
                let docs := or_nil (data_documents data) in
                let raw := default (Build_RawResponse JUndefined None) (rawResponse fd) in
                match List.find (matches_immediate fd raw) docs with
                | Some newDoc =>
                    (Finished,
                     [SetDocuments docs; SetSelectedDocument (Some newDoc);
                      SetIsLoading false])
                | None => (Finished, [SetIsLoading false])
                end
            end
          else (Finished, [SetIsLoading false])
      end
  | AwaitProcess, ProcessResponse r =>
      match r with
      | Rejected msg => upload_catch msg
      | Resolved s body =>
          if s =? 202 then loop_head 0
          else if ok s then
            match body with
            | inl msg => upload_catch msg
            | inr processData =>
                if truthy (result processData)
                then (ProcLoadDocs, loadDocuments_start)
                else (Finished, [SetIsLoading false])
            end
          else
            (Finished,
             [SetError (Some "Failed to process document. Please try again.");
              SetIsLoading false])
      end
  | ProcLoadDocs, DocumentsResponse r =>
      (Finished,
       loadDocuments_resume r
         ++ match List.find (fun d => String.eqb (Document.file_name d) (filename fd))
                            docs0 with
            | Some newDoc => [SetSelectedDocument (Some newDoc)]
            | None => []
            end
         ++ [SetIsLoading false])
  | PollSleep attempts, TimerFired =>
      (PollStatus attempts, [Fetch (GetProcessStatus (file_id fd))])
  | PollStatus attempts, StatusResponse r =>
      match r with
      | Rejected msg => (Unhandled msg, [])
      | Resolved s body =>
          if s =? 404 then
            let '(p', es) := after_loop attempts in
            (p', SetError (Some notFoundMessage) :: es)
          else if ok s then
            match body with
            | inl msg => (Unhandled msg, [])
            | inr statusData =>
                if bool_decide (status statusData = Some "done") then
                  (PollLoadDocs attempts (document_id statusData), loadDocuments_start)
                else if bool_decide (status statusData = Some "error") then
                  let '(p', es) := after_loop attempts in
                  (p', SetError (Some failedMessage) :: es)
                else loop_head (S attempts)
            end
          else loop_head (S attempts)
      end
  | PollLoadDocs attempts document_id, DocumentsResponse r =>
      (PollUpdatedDocs attempts document_id,
       loadDocuments_resume r ++ [Fetch GetDocuments])
  | PollUpdatedDocs attempts document_id, DocumentsResponse r =>
      match r with
      | Rejected msg => (Unhandled msg, [])
      | Resolved s body =>
          if ok s then
            match body with
            | inl msg => (Unhandled msg, [])
            | inr data =>
                let docs := or_nil (data_documents data) in
                match List.find (matches_polled fd document_id) docs with
                | Some newDoc =>
                    (Finished,
                     [SetDocuments docs; SetSelectedDocument (Some newDoc);
                      SetIsLoading false])
                | None => after_loop attempts
                end
            end
          else after_loop attempts
      end
  | _, _ => (p, [])
  end.

(** A run: the events in order, with the whole effect trace. *)
Fixpoint steps (fd : FileData) (docs0 : list Document.t) (p : Proc)
    (evs : list Event) : Proc * list Effect :=
  match evs with
  | [] => (p, [])
  | ev :: evs' =>
      let '(p1, es1) := step fd docs0 p ev in
      let '(p2, es2) := steps fd docs0 p1 evs' in
      (p2, es1 ++ es2)
  end.

(** The sidebar hands [setSelectedDocument] to the user (line 260), so the
    selection can change between any two resumptions of the handler. *)
Inductive SystemEvent :=
| Upload (ev : Event)
| SelectDocument (d : option Document.t).

Definition system_step (fd : FileData) (docs0 : list Document.t)
    (c : State * Proc) (ev : SystemEvent) : State * Proc :=
  match ev with
  | Upload e =>
      let '(p', es) := step fd docs0 (snd c) e in (run es (fst c), p')
  | SelectDocument d => (apply (SetSelectedDocument d) (fst c), snd c)
  end.

Definition system_run (fd : FileData) (docs0 : list Document.t)
    (c : State * Proc) (evs : list SystemEvent) : State * Proc :=
  fold_left (system_step fd docs0) evs c.


(** A status response after which the loop goes round again: not a 404,
    and either not OK or decoded with a status other than done / error. *)
Definition pending (r : Response StatusData) : bool :=
  match r with
  | Rejected _ => false
  | Resolved s body =>
      negb (s =? 404)
      && (negb (ok s)
          || match body with
             | inl _ => false
             | inr statusData =>
                 negb (bool_decide (status statusData = Some "done"))
                 && negb (bool_decide (status statusData = Some "error"))
             end)
  end.

(** Counters over an effect trace. *)
Definition is_status_check (e : Effect) : bool :=
  match e with Fetch (GetProcessStatus _) => true | _ => false end.

Definition is_documents_fetch (e : Effect) : bool :=
  match e with Fetch GetDocuments => true | _ => false end.

(** Terminal outcomes of a poll: an error is reported or a document is
    selected. *)
Definition is_terminal (e : Effect) : bool :=
  match e with
  | SetError (Some _) => true
  | SetSelectedDocument (Some _) => true
  | _ => false
  end.

Definition count (f : Effect -> bool) (es : list Effect) : nat :=
  length (List.filter f es).

(** [n] rounds of the poll loop: the timer fires, then the status request
    settles with the next response. *)
Definition rounds (rs : list (Response StatusData)) : list Event :=
  flat_map (fun r => [TimerFired; StatusResponse r]) rs.

(** What the trace of a poll looks like at each suspension point. *)
Definition poll_inv (p : Proc) (es : list Effect) : Prop :=
  match p with
  | PollSleep a =>
      a < maxAttempts /\ count is_status_check es = a
      /\ count is_terminal es = 0 /\ count is_documents_fetch es = 0
  | PollStatus a =>
      a < maxAttempts /\ count is_status_check es = S a
      /\ count is_terminal es = 0 /\ count is_documents_fetch es = 0
  | PollLoadDocs a _ =>
      a < maxAttempts /\ count is_status_check es = S a
      /\ count is_terminal es = 0 /\ count is_documents_fetch es = 1
  | PollUpdatedDocs a _ =>
      a < maxAttempts /\ count is_status_check es = S a
      /\ count is_terminal es = 0 /\ count is_documents_fetch es = 2
  | Finished =>
      count is_status_check es <= maxAttempts
      /\ count is_terminal es <= 1
      /\ (count is_documents_fetch es = 0 -> count is_terminal es = 1)
  | Unhandled _ =>
      count is_status_check es <= maxAttempts /\ count is_terminal es = 0
  | _ => False
  end.

(** *** The history effect (lines 39-43) together with loadChatHistory

    Selecting a document runs the effect, which calls loadChatHistory for
    it.  Several history requests can be outstanding at once; each one,
    when it settles, resumes its own call of loadChatHistory.  The
    configuration pairs the component state with the document ids whose
    history request is still outstanding. *)

    (* the request made for [documentId] settles *)




(** *** handleDeleteChat, after its request is out (lines 231-244) *)

Inductive DeleteProc :=
| DeleteAwaitResponse     (* line 231: await fetch(DELETE) *)
| DeleteAwaitDocuments    (* line 234: await loadDocuments() *)
| DeleteReturned.

Inductive DeleteEvent :=
| DeleteSettled (r : Response unit)
    (* the body is only read as text, and only when the status is not OK;
       [inl] stands for that read failing *)
| DeleteDocuments (r : Response DocumentsData).

Definition handleDeleteChat_step (p : DeleteProc) (ev : DeleteEvent)
    : DeleteProc * list Effect :=
  match p, ev with
  | DeleteAwaitResponse, DeleteSettled r =>
      match r with
      | Rejected _ => (DeleteReturned, [ConsoleWarn "Delete chat error"; SetIsLoading false])
      | Resolved s body =>
          if ok s then (DeleteAwaitDocuments, loadDocuments_start)
          else
            match body with
            | inr _ =>
                (DeleteReturned, [ConsoleWarn "Failed to delete chat"; SetIsLoading false])
            | inl _ =>
                (DeleteReturned, [ConsoleWarn "Delete chat error"; SetIsLoading false])
            end
      end
  | DeleteAwaitDocuments, DeleteDocuments r =>
      (DeleteReturned,
       loadDocuments_resume r
         ++ [SetSelectedDocument None; SetChatHistory []; SetIsLoading false])
  | _, _ => (p, [])
  end.

(** Effects that leave the component state alone. *)
Definition is_inert (e : Effect) : bool :=
  match e with
  | Fetch _ | SetTimeout _ | ConsoleWarn _ => true
  | _ => false
  end.

(** Requests to the processing endpoints. *)
Definition is_process_call (e : Effect) : bool :=
  match e with
  | Fetch (PostProcess _) | Fetch (GetProcessStatus _) => true
  | _ => false
  end.

End App.

(** ** The [ProcessingStatus] component *)

Module ProcessingStatus.

Definition POLL_INTERVAL_MS : nat := 2000.

(** How an axios call settles: it resolves with a status and decoded data,
    or rejects with an error that carries [err.response] when the server
    answered at all. *)
Inductive AxiosResult :=
| AxResolved (status : nat) (data : Json)
| AxRejected (response : option (nat * Json)) (message : string).

Inductive Effect :=
| OnComplete (result : Json)
| OnError (error : Json)
| SetStatusMessage (m : string)
| AxiosPost
| AxiosGet
| SetInterval (id : nat) (ms : nat)
| ClearInterval (id : nat)
| ConsoleWarn.

(** One run of the effect at lines 469-549 together with the part of the
    browser it talks to. *)
Record State := {
  cancelled : bool;          (* the effect's local flag *)
  pollingRef : option nat;   (* pollingRef.current *)
  timers : list nat;         (* interval ids the browser still fires *)
  next_timer : nat;          (* the id the next setInterval returns *)
  post_pending : bool;       (* startProcessing is suspended on axios.post *)
  inflight : nat             (* status requests that have not settled yet *)
}.

Inductive Event :=
| PostSettled (r : AxiosResult)
| Tick (id : nat)
| StatusSettled (r : AxiosResult)
| Cleanup.

(** [if (pollingRef.current)]: interval ids are numbers, 0 is falsy. *)
Definition ref_truthy (r : option nat) : bool :=
  match r with
  | Some n => negb (n =? 0)
  | None => false
  end.

Definition clearInterval (id : nat) (ts : list nat) : list nat :=
  List.filter (fun t => negb (t =? id)) ts.

(** [payload && payload.result ? payload.result : payload] *)
Definition unwrap_result (payload : Json) : Json :=
  if truthy payload then
    match prop payload "result" with
    | Some r => if truthy r then r else payload
    | None => payload
    end
  else payload.

(** [err.response?.data?.error || 'Processing failed. Please try again.'] *)
Definition errorMessage (response : option (nat * Json)) : Json :=
  let fallback := JStr "Processing failed. Please try again." in
  match response with
  | Some (_, data) =>
      match prop data "error" with
      | Some e => if truthy e then e else fallback
      | None => fallback
      end
  | None => fallback
  end.

(** Effect start: [cancelled = false], then [startProcessing()] runs up to
    its [await axios.post]. *)
Definition mount (ref : option nat) (ts : list nat) (next : nat)
    : State * list Effect :=
  (Build_State false ref ts next true 0, [AxiosPost]).

(** pollStatus (lines 510-538): drop the interval the ref points to, then
    install a new one and store its id in the ref. *)
Definition pollStatus (st : State) : State * list Effect :=
  let id := next_timer st in
  let '(ts, es) :=
    match pollingRef st with
    | Some old =>
        if ref_truthy (pollingRef st)
        then (clearInterval old (timers st), [ClearInterval old])
        else (timers st, [])
    | None => (timers st, [])
    end in
  (Build_State (cancelled st) (Some id) (ts ++ [id]) (S id)
               (post_pending st) (inflight st),
   es ++ [SetInterval id POLL_INTERVAL_MS]).

(** The body of the [if] at lines 525-528 and of the cleanup at 544-547. *)
Definition stop_polling (st : State) : State * list Effect :=
  match pollingRef st with
  | Some old =>
      if ref_truthy (pollingRef st)
      then (Build_State (cancelled st) None (clearInterval old (timers st))
                        (next_timer st) (post_pending st) (inflight st),
            [ClearInterval old])
      else (st, [])
  | None => (st, [])
  end.

Definition is_done (j : Json) : bool :=
  match j with JStr s => String.eqb s "done" | _ => false end.

Definition is_zero (j : Json) : bool :=
  match j with JNum z => (z =? 0)%Z | _ => false end.

Definition set_post_pending (b : bool) (st : State) : State :=
  Build_State (cancelled st) (pollingRef st) (timers st) (next_timer st) b (inflight st).

Definition set_inflight (n : nat) (st : State) : State :=
  Build_State (cancelled st) (pollingRef st) (timers st) (next_timer st)
              (post_pending st) n.

(** The status line shown once polling starts (the source separates the two
    halves with a dash). *)
Definition startedMessage : string := "Processing started - checking status...".

(** startProcessing resumes after [await axios.post] (lines 475-507). *)
Definition startProcessing_resume (r : AxiosResult) (st : State)
    : State * list Effect :=
  match r with
  | AxResolved s payload =>
      if s =? 200 then
        (st, if cancelled st then [] else [OnComplete (unwrap_result payload)])
      else if s =? 202 then
        let '(st', es) := pollStatus st in
        (st', SetStatusMessage startedMessage :: es)
      else
        (st, if cancelled st then [] else [OnComplete (unwrap_result payload)])
  | AxRejected response _ =>
      match response with
      | Some (202, _) =>
          let '(st', es) := pollStatus st in
          (st', SetStatusMessage startedMessage :: es)
      | _ => (st, if cancelled st then [] else [OnError (errorMessage response)])
      end
  end.

(** The interval callback resumes after [await axios.get] (lines 519-536). *)
Definition tick_resume (r : AxiosResult) (st : State) : State * list Effect :=
  match r with
  | AxResolved _ data =>
      match prop data "status", prop data "result" with
      | Some status, Some res =>
          if is_done status && (truthy res || is_zero res) then
            let result := if truthy res then res else data in
            let '(st', es) := stop_polling st in
            (st', es ++ [OnComplete result])
          else (st, [])
      | _, _ => (st, [ConsoleWarn])
      end
  | AxRejected _ _ => (st, [ConsoleWarn])
  end.

(** The settled status request makes the callback report completion. *)
Definition completes (r : AxiosResult) : bool :=
  match r with
  | AxResolved _ data =>
      match prop data "status", prop data "result" with
      | Some status, Some res => is_done status && (truthy res || is_zero res)
      | _, _ => false
      end
  | AxRejected _ _ => false
  end.

(** The cleanup returned by the effect (lines 542-548). *)
Definition cleanup (st : State) : State * list Effect :=
  stop_polling
    (Build_State true (pollingRef st) (timers st) (next_timer st)
                 (post_pending st) (inflight st)).

(** An event that cannot occur in the current state (a tick of a cleared
    interval, a settlement nobody waits for) changes nothing. *)
Definition step (st : State) (ev : Event) : State * list Effect :=
  match ev with
  | PostSettled r =>
      if post_pending st then startProcessing_resume r (set_post_pending false st)
      else (st, [])
  | Tick id =>
      if bool_decide (id ∈ timers st)
      then (set_inflight (S (inflight st)) st, [AxiosGet])
      else (st, [])
  | StatusSettled r =>
      match inflight st with
      | S n => tick_resume r (set_inflight n st)
      | O => (st, [])
      end
  | Cleanup => cleanup st
  end.

Fixpoint steps (st : State) (evs : list Event) : State * list Effect :=
  match evs with
  | [] => (st, [])
  | ev :: evs' =>
      let '(st1, es1) := step st ev in
      let '(st2, es2) := steps st1 evs' in
      (st2, es1 ++ es2)
  end.

(** The component once the server has accepted the job with a 202: first
    mount, ref empty, the interval with id 1 installed. *)
Definition polling : State :=
  fst (steps (fst (mount None [] 1)) [PostSettled (AxResolved 202 JNull)]).

(** Rounds of the interval: it ticks, then that tick's request settles. *)
Definition rounds (id : nat) (rs : list AxiosResult) : list Event :=
  flat_map (fun r => [Tick id; StatusSettled r]) rs.

Definition is_status_check (e : Effect) : bool :=
  match e with AxiosGet => true | _ => false end.

Definition is_callback (e : Effect) : bool :=
  match e with OnComplete _ | OnError _ => true | _ => false end.

Definition count (f : Effect -> bool) (es : list Effect) : nat :=
  length (List.filter f es).

(** The POST outcome that starts polling: a 202, resolved or carried by a
    rejection. *)
Definition accepted_202 (r : AxiosResult) : bool :=
  match r with
  | AxResolved s _ => negb (s =? 200) && (s =? 202)
  | AxRejected (Some (202, _)) _ => true
  | AxRejected _ _ => false
  end.

(** The ref and the browser agree: the only live interval is the one the
    ref points to, and ids handed out so far are positive and below the
    next one. *)
Definition consistent (st : State) : Prop :=
  1 <= next_timer st
  /\ match pollingRef st with
     | Some id => timers st = [id] /\ 1 <= id < next_timer st
     | None => timers st = []
     end.

(** *** The component across runs of its effect

    [pollingRef] and the browser's intervals outlive a run of the effect:
    when [fileId], [onComplete] or [onError] change, the latest run is
    cleaned up and the effect runs again, with its own [cancelled] flag but
    the same ref.  Requests of an earlier run can still settle afterwards. *)

Record Run := {
  run_cancelled : bool;
  run_post_pending : bool;
  run_inflight : nat
}.

Record Component := {
  ref : option nat;          (* pollingRef.current *)
  live : list nat;           (* interval ids the browser still fires *)
  next_id : nat;
  effect_runs : list Run     (* every run of the effect so far, newest last *)
}.

(** The component as one of its runs sees it. *)
Definition view (k : Component) (x : Run) : State :=
  Build_State (run_cancelled x) (ref k) (live k) (next_id k)
              (run_post_pending x) (run_inflight x).

(** Writing back what the [j]-th run did. *)
Definition store (k : Component) (j : nat) (st : State) : Component :=
  Build_Component (pollingRef st) (timers st) (next_timer st)
    (<[j := Build_Run (cancelled st) (post_pending st) (inflight st)]> (effect_runs k)).

Inductive ComponentEvent :=
| Of (j : nat) (ev : Event)
    (* something happens to the [j]-th run: its POST or one of its status
       requests settles, an interval fires one of its callbacks, or it is
       cleaned up.  Which run an event belongs to is not restricted, so the
       model admits every behaviour of the component, and some more. *)
| Rerun.
    (* a dependency changed: cleanup of the latest run, then a new run *)

Definition component_step (k : Component) (ev : ComponentEvent)
    : Component * list Effect :=
  match ev with
  | Of j e =>
      match effect_runs k !! j with
      | Some x => let '(st, es) := step (view k x) e in (store k j st, es)
      | None => (k, [])
      end
  | Rerun =>
      let j := pred (length (effect_runs k)) in
      let '(k1, es1) :=
        match effect_runs k !! j with
        | Some x => let '(st, es) := cleanup (view k x) in (store k j st, es)
        | None => (k, [])
        end in
      let '(st, es2) := mount (ref k1) (live k1) (next_id k1) in
      (Build_Component (ref k1) (live k1) (next_id k1)
         (effect_runs k1
            ++ [Build_Run (cancelled st) (post_pending st) (inflight st)]),
       es1 ++ es2)
  end.

Fixpoint component_steps (k : Component) (evs : list ComponentEvent)
    : Component * list Effect :=
  match evs with
  | [] => (k, [])
  | ev :: evs' =>
      let '(k1, es1) := component_step k ev in
      let '(k2, es2) := component_steps k1 evs' in
      (k2, es1 ++ es2)
  end.

(** The component right after its first mount. *)
Definition first_mount : Component :=
  Build_Component None [] 1 [Build_Run false true 0].


End ProcessingStatus.

(** ** The [ClauseVisualizer] component *)

Inductive Risk := low | medium | high.

Module Clause.
Record t := {
  id : string;
  clause_text : string;
  risk : Risk;
  highlights : option (list string);
  clause_headline : option string;
  start_pos : option Z;
  end_pos : option Z;
  scenarios : option (list Json);
  legal_references : option (list Json)
}.
End Clause.

Module ClauseVisualizer.

(** [!x || x.length === 0] *)
Definition lacks {A} (x : option (list A)) : bool :=
  match x with
  | None | Some [] => true
  | Some (_ :: _) => false
  end.

(** [x && x.length] *)
Definition present {A} (x : option (list A)) : bool := negb (lacks x).

Definition nonempty (s : string) : bool := negb (String.eqb s "").

Inductive Endpoint := WhatIfScenarios | LegalKnowledgeGraph.

(** The JSON body both enrichment endpoints receive. *)
Record Body := { clauseText : string; documentType : string; clauseType : Risk }.

Inductive Effect :=
| Fetch (ep : Endpoint) (for_clause : string) (body : Body)
    (* [for_clause] records which clause id the call was made for; it is
       not part of the request *)
| SetScenariosById (id : string) (v : Json)
| SetReferencesById (id : string) (v : Json)
| ConsoleWarn.

Record EnrichData := { data_scenarios : Json; data_references : Json }.

(** Where one call of fetchForClause is suspended. *)
Inductive Phase := AwaitScenarios | AwaitReferences | Returned.

Definition body_of (docType : string) (c : Clause.t) : Body :=
  Build_Body (Clause.clause_text c) docType (Clause.risk c).

(** Lines 60-72: the legal-reference half of fetchForClause. *)
Definition references_block (mounted : bool) (docType : string) (c : Clause.t)
    : Phase * list Effect :=
  if lacks (Clause.legal_references c) && nonempty (Clause.clause_text c) then
    (AwaitReferences, [Fetch LegalKnowledgeGraph (Clause.id c) (body_of docType c)])
  else if present (Clause.legal_references c) then
    (Returned,
     if mounted
     then [SetReferencesById (Clause.id c) (JArr (default [] (Clause.legal_references c)))]
     else [])
  else (Returned, []).

(** Lines 45-58 up to the first [await]; when no scenario request is made
    the call runs on into the legal-reference half without suspending. *)
Definition fetchForClause_start (mounted : bool) (docType : string) (c : Clause.t)
    : Phase * list Effect :=
  if lacks (Clause.scenarios c) && nonempty (Clause.clause_text c) then
    (AwaitScenarios, [Fetch WhatIfScenarios (Clause.id c) (body_of docType c)])
  else
    let es :=
      if present (Clause.scenarios c) && mounted
      then [SetScenariosById (Clause.id c) (JArr (default [] (Clause.scenarios c)))]
      else [] in
    let '(ph, es') := references_block mounted docType c in
    (ph, es ++ es').

(** A pending request of the call settles.  [mounted] is the value of the
    effect's flag at that moment. *)
Definition fetchForClause_resume (mounted : bool) (docType : string) (c : Clause.t)
    (ph : Phase) (r : Response EnrichData) : Phase * list Effect :=
  match ph with
  | AwaitScenarios =>
      match r with
      | Rejected _ => (Returned, [ConsoleWarn])
      | Resolved s body =>
          if ok s then
            match body with
            | inl _ => (Returned, [ConsoleWarn])
            | inr data =>
                let es :=
                  if mounted && truthy (data_scenarios data)
                  then [SetScenariosById (Clause.id c) (data_scenarios data)]
                  else [] in
                let '(ph', es') := references_block mounted docType c in
                (ph', es ++ es')
            end
          else references_block mounted docType c
      end
  | AwaitReferences =>
      match r with
      | Rejected _ => (Returned, [ConsoleWarn])
      | Resolved s body =>
          if ok s then
            match body with
            | inl _ => (Returned, [ConsoleWarn])
            | inr data =>
                (Returned,
                 if mounted && truthy (data_references data)
                 then [SetReferencesById (Clause.id c) (data_references data)]
                 else [])
            end
          else (Returned, [])
      end
  | Returned => (Returned, [])
  end.

(** One run of the effect at lines 41-84: its [mounted] flag, the
    [documentType] it closed over, and the calls it started. *)
Record EffectRun := {
  mounted : bool;
  run_documentType : string;
  calls : list (Clause.t * Phase)
}.

(** [clauses.forEach(c => { fetchForClause(c); })] *)
Fixpoint start_all (docType : string) (clauses : list Clause.t)
    : list (Clause.t * Phase) * list Effect :=
  match clauses with
  | [] => ([], [])
  | c :: cs =>
      let '(ph, es) := fetchForClause_start true docType c in
      let '(calls, es') := start_all docType cs in
      ((c, ph) :: calls, es ++ es')
  end.

Definition effect_run (docType : string) (clauses : list Clause.t)
    : EffectRun * list Effect :=
  let '(cs, es) := start_all docType clauses in
  (Build_EffectRun true docType cs, es).

(** The cleanup of a run: [mounted = false]. *)
Definition unmount (r : EffectRun) : EffectRun :=
  Build_EffectRun false (run_documentType r) (calls r).

(** The request the [j]-th call of the run waits for settles. *)
Definition settle (r : EffectRun) (j : nat) (resp : Response EnrichData)
    : EffectRun * list Effect :=
  match calls r !! j with
  | Some (c, ph) =>
      let '(ph', es) :=
        fetchForClause_resume (mounted r) (run_documentType r) c ph resp in
      (Build_EffectRun (mounted r) (run_documentType r) (<[j := (c, ph')]> (calls r)), es)
  | None => (r, [])
  end.

(** A mounted visualizer: the two caches and every effect run so far, the
    newest last.  Only the newest run can still have [mounted = true]. *)
Record Component := {
  scenariosById : gmap string Json;
  referencesById : gmap string Json;
  runs : list EffectRun
}.

Inductive Event :=
| Render (docType : string) (clauses : list Clause.t)
    (* first render, or a render in which [clauses] or [documentType] changed *)
| Settle (run : nat) (call : nat) (resp : Response EnrichData).

Definition apply (e : Effect) (k : Component) : Component :=
  match e with
  | SetScenariosById i v =>
      Build_Component (<[i := v]> (scenariosById k)) (referencesById k) (runs k)
  | SetReferencesById i v =>
      Build_Component (scenariosById k) (<[i := v]> (referencesById k)) (runs k)
  | Fetch _ _ _ | ConsoleWarn => k
  end.

Definition set_runs (rs : list EffectRun) (k : Component) : Component :=
  Build_Component (scenariosById k) (referencesById k) rs.

Definition step (k : Component) (ev : Event) : Component * list Effect :=
  match ev with
  | Render docType clauses =>
      let '(r, es) := effect_run docType clauses in
      (fold_left (fun k e => apply e k) es
         (set_runs (map unmount (runs k) ++ [r]) k), es)
  | Settle i j resp =>
      match runs k !! i with
      | Some r =>
          let '(r', es) := settle r j resp in
          (fold_left (fun k e => apply e k) es (set_runs (<[i := r']> (runs k)) k), es)
      | None => (k, [])
      end
  end.

Fixpoint steps (k : Component) (evs : list Event) : Component * list Effect :=
  match evs with
  | [] => (k, [])
  | ev :: evs' =>
      let '(k1, es1) := step k ev in
      let '(k2, es2) := steps k1 evs' in
      (k2, es1 ++ es2)
  end.

(** The visualizer right after mounting, before its first effect. *)
Definition initial : Component := Build_Component ∅ ∅ [].

(** Requests to endpoint [ep] made for clause id [i]. *)
Definition is_request (ep : Endpoint) (i : string) (e : Effect) : bool :=
  match e with
  | Fetch ep' i' _ =>
      match ep, ep' with
      | WhatIfScenarios, WhatIfScenarios
      | LegalKnowledgeGraph, LegalKnowledgeGraph => String.eqb i i'
      | _, _ => false
      end
  | _ => false
  end.

Definition requests (ep : Endpoint) (i : string) (es : list Effect) : nat :=
  length (List.filter (is_request ep i) es).

(** Entries of a clause list that carry id [i]. *)
Definition occurrences (i : string) (clauses : list Clause.t) : nat :=
  length (List.filter (fun c => String.eqb i (Clause.id c)) clauses).

(** Requests a suspended call can still make to [ep] for clause id [i]: a
    call waiting for its scenarios has the legal-reference request ahead. *)
Definition may_request (ep : Endpoint) (i : string) (call : Clause.t * Phase) : nat :=
  match ep, snd call with
  | LegalKnowledgeGraph, AwaitScenarios =>
      if String.eqb i (Clause.id (fst call)) then 1 else 0
  | _, _ => 0
  end.

Definition outstanding (ep : Endpoint) (i : string) (k : Component) : nat :=
  sum_list_with (fun r => sum_list_with (may_request ep i) (calls r)) (runs k).

(** Entries with id [i] summed over every run of the effect in [evs]. *)
Fixpoint rendered (i : string) (evs : list Event) : nat :=
  match evs with
  | [] => 0
  | Render _ clauses :: evs' => occurrences i clauses + rendered i evs'
  | Settle _ _ _ :: evs' => rendered i evs'
  end.

(** The clause id an effect is about, if any. *)
Definition effect_key (e : Effect) : option string :=
  match e with
  | Fetch _ i _ | SetScenariosById i _ | SetReferencesById i _ => Some i
  | ConsoleWarn => None
  end.

Definition is_cache_write (e : Effect) : bool :=
  match e with
  | SetScenariosById _ _ | SetReferencesById _ _ => true
  | _ => false
  end.

(** *** handlePersist (lines 86-133) *)

(** One entry of the request body built at lines 91-100. *)
Record Payload := {
  p_clause_text : string;
  p_clause_headline : string;
  p_start_pos : option Z;
  p_end_pos : option Z;
  p_risk : Risk;
  p_highlights : option (list string);
  p_scenarios : option Json;
  p_legal_references : option Json
}.

(** [cache[id] || undefined] *)
Definition cached (cache : gmap string Json) (i : string) : option Json :=
  match cache !! i with
  | Some v => if truthy v then Some v else None
  | None => None
  end.

(** [c.clause_headline || (c.clause_text || '').slice(0, 200)], a string
    being the sequence of its code units. *)
Definition headline (c : Clause.t) : string :=
  match Clause.clause_headline c with
  | Some h => if nonempty h then h else String.substring 0 200 (Clause.clause_text c)
  | None => String.substring 0 200 (Clause.clause_text c)
  end.

Definition payloadClauses (k : Component) (clauses : list Clause.t) : list Payload :=
  map (fun c =>
         {| p_clause_text := Clause.clause_text c;
            p_clause_headline := headline c;
            p_start_pos := Clause.start_pos c;
            p_end_pos := Clause.end_pos c;
            p_risk := Clause.risk c;
            p_highlights := Clause.highlights c;
            p_scenarios := cached (scenariosById k) (Clause.id c);
            p_legal_references := cached (referencesById k) (Clause.id c) |})
      clauses.

Inductive PersistEffect :=
| SetSaving (b : bool)
| SetSavedCount (n : Z)
| FetchPersist (documentId : string) (body : list Payload)
| OnPersist (inserted : list Clause.t)
| OnClose
| PersistWarn.

Record PersistData := {
  data_count : option Z;
  data_inserted : option (list Clause.t)
}.

(** Up to [await fetch].  [documentId] is the optional prop; the result says
    whether the function is suspended on the request. *)
Definition handlePersist_start (documentId : option string) (k : Component)
    (clauses : list Clause.t) : bool * list PersistEffect :=
  match documentId with
  | Some d =>
      if nonempty d
      then (true, [SetSaving true; FetchPersist d (payloadClauses k clauses)])
      else (false, [])
  | None => (false, [])
  end.

(** After the request settles.  [has_onPersist] / [has_onClose] say whether
    the parent passed the callbacks. *)
Definition handlePersist_resume (has_onPersist has_onClose : bool)
    (r : Response PersistData) : list PersistEffect :=
  match r with
  | Rejected _ => [PersistWarn; SetSaving false]
  | Resolved s body =>
      if ok s then
        match body with
        | inl _ => [PersistWarn; SetSaving false]
        | inr data =>
            [SetSavedCount (default 0%Z (data_count data))]
              ++ (if has_onPersist
                  then [OnPersist (default [] (data_inserted data))] else [])
              ++ (if has_onClose then [OnClose] else [])
              ++ [SetSaving false]
        end
      else [SetSaving false]
  end.

(** What the parent gets to hear. *)
Definition is_parent_call (e : PersistEffect) : bool :=
  match e with
  | OnPersist _ | OnClose => true
  | _ => false
  end.

End ClauseVisualizer.

(** ** The [ChatInterface] component: persist and undo *)

Module ChatInterface.

(** The part of the component state that persist and undo touch. *)
Record State := {
  clauses : list Clause.t;
  persistedByDocument : gmap string bool;
  toast : option (string * list string)
    (* the Undo toast: its message and the clause ids its action closes over *)
}.

Inductive Effect :=
| SetClauses (f : list Clause.t -> list Clause.t)   (* setClauses(prev => f prev) *)
| SetPersisted (documentId : string) (b : bool)
    (* setPersistedByDocument(prev => ({ ...prev, [documentId]: b })) *)
| SetToast (t : option (string * list string))
| FetchUndo (documentId : string) (clause_ids : list string)
| ConsoleWarn.

Definition apply (e : Effect) (st : State) : State :=
  match e with
  | SetClauses f => Build_State (f (clauses st)) (persistedByDocument st) (toast st)
  | SetPersisted d b =>
      Build_State (clauses st) (<[d := b]> (persistedByDocument st)) (toast st)
  | SetToast t => Build_State (clauses st) (persistedByDocument st) t
  | FetchUndo _ _ | ConsoleWarn => st
  end.

Definition run (es : list Effect) (st : State) : State :=
  fold_left (fun s e => apply e s) es st.

(** [prev.filter(c => !ids.includes(c.id))] *)
Definition without (ids : list string) (prev : list Clause.t) : list Clause.t :=
  List.filter (fun c => negb (bool_decide (Clause.id c ∈ ids))) prev.

(** [(inserted || []).map(x => x.id).filter(Boolean)] *)
Definition inserted_ids (inserted : list Clause.t) : list string :=
  List.filter (fun i => negb (String.eqb i "")) (map Clause.id inserted).

(** onPersist (lines 321-367), as far as the persisted flag and the Undo
    toast are concerned; the highlight map it also rebuilds is not
    tracked here. *)
Definition onPersist (documentId : string) (inserted : list Clause.t) : list Effect :=
  let ids := inserted_ids inserted in
  SetPersisted documentId true
    :: match ids with
       | [] => []
       | _ :: _ =>
           [SetToast (Some (pretty (length ids) +:+ " clause(s) saved", ids))]
       end.

(** The Undo action (lines 344-362), up to its [await fetch]. *)
Definition onAction_start (documentId : string) (ids : list string) : list Effect :=
  [FetchUndo documentId ids].

(** The Undo action after the request settles. *)
Definition onAction_resume (documentId : string) (ids : list string)
    (r : Response unit) : list Effect :=
  match r with
  | Resolved s _ =>
      if ok s then [SetClauses (without ids); SetPersisted documentId false]
      else [ConsoleWarn]
  | Rejected _ => [ConsoleWarn]
  end.

(** The undo request succeeded as far as the handler can tell: [resp.ok]. *)
Definition undone (r : Response unit) : bool :=
  match r with
  | Resolved s _ => ok s
  | Rejected _ => false
  end.

(** *** checkPersisted (lines 65-85) *)

Record PersistedData := { data_clauses : Json }.

(** [Array.isArray(data.clauses) && data.clauses.length > 0] *)
Definition present (data : PersistedData) : bool :=
  match data_clauses data with
  | JArr (_ :: _) => true
  | _ => false
  end.

(** The check after its request settles.  [mounted] is the effect's flag at
    that moment. *)
Definition checkPersisted_resume (mounted : bool) (documentId : string)
    (r : Response PersistedData) : list Effect :=
  let set b := if mounted then [SetPersisted documentId b] else [] in
  match r with
  | Resolved s body =>
      if ok s then
        match body with
        | inr data => set (present data)
        | inl _ => set false
        end
      else set false
  | Rejected _ => set false
  end.

(** The answer says that analyses are stored for the document. *)
Definition stored (r : Response PersistedData) : bool :=
  match r with
  | Resolved s (inr data) => ok s && present data
  | _ => false
  end.

End ChatInterface.

(** ** The [ChatInterface] component: the visualize button and its retry poll *)

Module Visualize.

Inductive Request :=
| GetPersisted (documentId : string)      (* /api/analysis/clauses/{id}/persisted *)
| GetAnalysis (documentId : string)       (* /api/analysis/clauses/{id} *)
| PostProcess (file_name : string)        (* /api/process/{file_name} *)
| GetStatus (file_name : string).         (* /api/process/status/{file_name} *)

Inductive Effect :=
| SetVisualizerLoading (b : bool)
| SetClauses (cs : list Clause.t)
| SetShowVisualizer (b : bool)
| SetPersisted (documentId : string) (b : bool)
| SetToast (message : option string)
| Fetch (rq : Request)
| SetTimeout (ms : nat).

(** [persistedByDocument[document.id]] used as a condition: a missing entry
    is falsy. *)
Definition flagged (m : gmap string bool) (documentId : string) : bool :=
  default false (m !! documentId).

(** The click handler up to its first [await] (lines 195-200 and 217-219). *)
Definition click_start (m : gmap string bool) (documentId : string) : list Effect :=
  [SetVisualizerLoading true;
   Fetch (if flagged m documentId then GetPersisted documentId
          else GetAnalysis documentId)].

Record AnalysisData := { analysis_clauses : option (list Clause.t) }.
Record StatusBody := { body_status : option string }.

Definition maxPolls : nat := 60.

(** Where the "Start processing" action (lines 243-287) is suspended.  The
    poll states carry the loop counter [i]. *)
Inductive Proc :=
| AwaitStart                 (* line 247 *)
| Sleep (i : nat)            (* line 252 *)
| AwaitStatus (i : nat)      (* line 253 *)
| AwaitAnalysis (i : nat)    (* line 263 *)
| Returned
| Unhandled (msg : string).  (* poll() is not awaited: its rejection is lost *)

Inductive Event :=
| StartResponse (r : Response string)     (* the body is read as text *)
| TimerFired
| StatusResponse (r : Response StatusBody)
| AnalysisResponse (r : Response AnalysisData).

Definition notFoundToast : string :=
  "Processing file not found on server. Please re-upload the original file and try again.".
Definition failedToast : string :=
  "Processing failed on server. Please try again later.".
Definition timeoutToast : string :=
  "Processing did not complete in time. Please try again later.".

Definition action_start (file_name : string) : Proc * list Effect :=
  (AwaitStart, [SetToast None; Fetch (PostProcess file_name)]).

(** [i++], the loop test, and either the next sleep or the code after the
    loop (line 277). *)
Definition next (i : nat) : Proc * list Effect :=
  if S i <? maxPolls then (Sleep (S i), [SetTimeout 2000])
  else (Returned, [SetToast (Some timeoutToast)]).

Definition step (documentId file_name : string) (p : Proc) (ev : Event)
    : Proc * list Effect :=
  match p, ev with
  | AwaitStart, StartResponse r =>
      match r with
      | Rejected msg =>
          (* here [msg] is the rendering [String(err)] of the caught error *)
          (Returned, [SetToast (Some ("Failed to start processing: " +:+ msg))])
      | Resolved s body =>
          if ok s || (s =? 202) then (Sleep 0, [SetTimeout 2000])
          else
            let txt := match body with inr t => t | inl _ => EmptyString end in
            (Returned,
             [SetToast (Some ("Failed to start processing: "
                              +:+ (if String.eqb txt EmptyString then pretty s else txt)))])
      end
  | Sleep i, TimerFired => (AwaitStatus i, [Fetch (GetStatus file_name)])
  | AwaitStatus i, StatusResponse r =>
      match r with
      | Rejected msg => (Unhandled msg, [])
      | Resolved s body =>
          if s =? 404 then (Returned, [SetToast (Some notFoundToast)])
          else if ok s then
            match body with
            | inl msg => (Unhandled msg, [])
            | inr b =>
                if bool_decide (body_status b = Some "done"%string)
                then (AwaitAnalysis i, [Fetch (GetAnalysis documentId)])
                else if bool_decide (body_status b = Some "error"%string)
                then (Returned, [SetToast (Some failedToast)])
                else next i
            end
          else next i
      end
  | AwaitAnalysis i, AnalysisResponse r =>
      match r with
      | Rejected msg => (Unhandled msg, [])
      | Resolved s body =>
          if ok s then
            match body with
            | inl msg => (Unhandled msg, [])
            | inr data =>
                (Returned,
                 [SetClauses (default [] (analysis_clauses data));
                  SetShowVisualizer true; SetPersisted documentId true])
            end
          else next i
      end
  | _, _ => (p, [])
  end.

Fixpoint steps (documentId file_name : string) (p : Proc) (evs : list Event)
    : Proc * list Effect :=
  match evs with
  | [] => (p, [])
  | ev :: evs' =>
      let '(p1, es1) := step documentId file_name p ev in
      let '(p2, es2) := steps documentId file_name p1 evs' in
      (p2, es1 ++ es2)
  end.

Definition is_status_check (e : Effect) : bool :=
  match e with Fetch (GetStatus _) => true | _ => false end.

Definition is_analysis (e : Effect) : bool :=
  match e with Fetch (GetAnalysis _) => true | _ => false end.

(** What ends the poll for the user: a toast, or the visualizer opening. *)
Definition is_outcome (e : Effect) : bool :=
  match e with
  | SetToast (Some _) | SetShowVisualizer true => true
  | _ => false
  end.

Definition count (f : Effect -> bool) (es : list Effect) : nat :=
  length (List.filter f es).

(** What the trace looks like at each suspension point of the poll. *)
Definition poll_inv (p : Proc) (es : list Effect) : Prop :=
  match p with
  | AwaitStart => False
  | Sleep i =>
      i < maxPolls /\ count is_status_check es = i
      /\ count is_analysis es <= i /\ count is_outcome es = 0
  | AwaitStatus i =>
      i < maxPolls /\ count is_status_check es = S i
      /\ count is_analysis es <= i /\ count is_outcome es = 0
  | AwaitAnalysis i =>
      i < maxPolls /\ count is_status_check es = S i
      /\ count is_analysis es <= S i /\ count is_outcome es = 0
  | Returned =>
      count is_status_check es <= maxPolls
      /\ count is_analysis es <= maxPolls /\ count is_outcome es = 1
  | Unhandled _ =>
      count is_status_check es <= maxPolls
      /\ count is_analysis es <= maxPolls /\ count is_outcome es = 0
  end.

(** A status answer after which the loop goes round again. *)
Definition pending (r : Response StatusBody) : bool :=
  match r with
  | Rejected _ => false
  | Resolved s body =>
      negb (s =? 404)
      && (negb (ok s)
          || match body with
             | inl _ => false
             | inr b =>
                 negb (bool_decide (body_status b = Some "done"%string))
                 && negb (bool_decide (body_status b = Some "error"%string))
             end)
  end.

Definition rounds (rs : list (Response StatusBody)) : list Event :=
  flat_map (fun r => [TimerFired; StatusResponse r]) rs.

End Visualize.

(** ** Text helpers: [TypingAnimation], [ResultsDisplay], [ChatSidebar]

    In these components a string is the sequence of its code units;
    [String.length], [String.get] and [String.substring] stand for
    [.length], indexing and [.substring(start, start + n)]. *)

Module TypingAnimation.

Record State := {
  displayedText : string;
  currentIndex : nat;
  timer : option nat   (* the pending timeout and the index it closed over *)
}.

Inductive Effect := OnComplete.

(** The effect at lines 19-31, run after a render in which one of its
    dependencies changed: the previous run's timeout is cleared, then
    either the next one is scheduled or completion is reported. *)
Definition effect (text : string) (has_onComplete : bool) (st : State)
    : State * list Effect :=
  if currentIndex st <? String.length text then
    (Build_State (displayedText st) (currentIndex st) (Some (currentIndex st)), [])
  else
    (Build_State (displayedText st) (currentIndex st) None,
     if has_onComplete then [OnComplete] else []).

(** [text[k]] appended to a string; out of range it is [undefined]. *)
Definition append_unit (prev : string) (text : string) (k : nat) : string :=
  match String.get k text with
  | Some c => prev +:+ String c EmptyString
  | None => prev +:+ "undefined"
  end.

(** Mount: empty display, index 0, then the effect. *)
Definition mount (text : string) (has_onComplete : bool) : State * list Effect :=
  effect text has_onComplete (Build_State EmptyString 0 None).

(** The pending timeout fires (lines 21-24), the component re-renders with
    the new index and the effect runs again. *)
Definition tick (text : string) (has_onComplete : bool) (st : State)
    : State * list Effect :=
  match timer st with
  | Some k =>
      effect text has_onComplete
        (Build_State (append_unit (displayedText st) text k) (S (currentIndex st)) None)
  | None => (st, [])
  end.

Fixpoint ticks (text : string) (has_onComplete : bool) (n : nat) (st : State)
    : State * list Effect :=
  match n with
  | 0 => (st, [])
  | S n' =>
      let '(st1, es1) := tick text has_onComplete st in
      let '(st2, es2) := ticks text has_onComplete n' st1 in
      (st2, es1 ++ es2)
  end.

(** Mount followed by [n] timeouts. *)
Definition animate (text : string) (has_onComplete : bool) (n : nat)
    : State * list Effect :=
  let '(st0, es0) := mount text has_onComplete in
  let '(st, es) := ticks text has_onComplete n st0 in
  (st, es0 ++ es).

(** The state the animation is in once [k] units are shown. *)
Definition shown (text : string) (k : nat) : State :=
  Build_State (String.substring 0 k text) k
              (if k <? String.length text then Some k else None).

End TypingAnimation.

Module ResultsDisplay.

(** truncateText (lines 45-49 of the results view); [maxLength] defaults to
    2000. *)
Definition truncateText (text : string) (maxLength : nat) : string :=
  if String.eqb text EmptyString then EmptyString
  else if String.length text <=? maxLength then text
  else String.substring 0 maxLength text +:+ "...".

End ResultsDisplay.

Module ChatSidebar.

Definition dot : Ascii.ascii := "."%char.

(** [s.split('.')]: never empty. *)
Fixpoint split_dot (s : string) : list string :=
  match s with
  | EmptyString => [EmptyString]
  | String c s' =>
      if Ascii.eqb c dot then EmptyString :: split_dot s'
      else match split_dot s' with
           | seg :: segs => String c seg :: segs
           | [] => [String c EmptyString]
           end
  end.

(** [s.lastIndexOf('.')], -1 when there is none. *)
Fixpoint lastIndexOf_dot (s : string) : Z :=
  match s with
  | EmptyString => (-1)%Z
  | String c s' =>
      let r := lastIndexOf_dot s' in
      if (0 <=? r)%Z then (r + 1)%Z
      else if Ascii.eqb c dot then 0%Z else (-1)%Z
  end.

(** An index argument of [substring]: negative becomes 0, too large becomes
    the length. *)
Definition clamp (len : nat) (z : Z) : nat :=
  Z.to_nat (Z.max 0 (Z.min z (Z.of_nat len))).

(** [s.substring(a, b)]: both ends clamped, swapped when [a > b]. *)
Definition js_substring (s : string) (a b : Z) : string :=
  let x := clamp (String.length s) a in
  let y := clamp (String.length s) b in
  String.substring (Nat.min x y) (Nat.max x y - Nat.min x y) s.

(** truncateFileName (lines 45-51); [maxLength] defaults to 25. *)
Definition truncateFileName (fileName : string) (maxLength : nat) : string :=
  if String.length fileName <=? maxLength then fileName
  else
    let extension := last (split_dot fileName) in
    let nameWithoutExt := js_substring fileName 0 (lastIndexOf_dot fileName) in
    let extLength := match extension with
                     | Some e => String.length e
                     | None => 0
                     end in
    let truncated :=
      js_substring nameWithoutExt 0
        (Z.of_nat maxLength - 3 - Z.of_nat extLength) in
    truncated +:+ "..."
      +:+ match extension with
          | Some e => if String.eqb e EmptyString then EmptyString
                      else "." +:+ e
          | None => EmptyString
          end.

Fixpoint has_dot (s : string) : bool :=
  match s with
  | EmptyString => false
  | String c s' => Ascii.eqb c dot || has_dot s'
  end.

(** *** The delete button (lines 98-119) *)

Inductive Effect :=
| SetDeletingId (i : option string)
| FetchDelete (documentId : string)
| OnSelectDocument (d : option Document.t)
| OnDocumentsChange
| ConsoleWarn.

(** Up to [await fetch]; [confirmed] is the answer of [window.confirm]. *)
Definition delete_start (confirmed : bool) (doc : Document.t) : list Effect :=
  if confirmed then [SetDeletingId (Some (Document.id doc)); FetchDelete (Document.id doc)]
  else [].

(** After the request settles.  [selected] is the [selectedDocument] prop the
    handler closed over, [has_onDocumentsChange] whether the parent passed
    the callback. *)
Definition delete_resume (selected : option Document.t) (has_onDocumentsChange : bool)
    (doc : Document.t) (r : Response unit) : list Effect :=
  match r with
  | Rejected _ => [ConsoleWarn; SetDeletingId None]
  | Resolved s _ =>
      if ok s then
        (match selected with
         | Some sel =>
             if String.eqb (Document.id sel) (Document.id doc)
             then [OnSelectDocument None] else []
         | None => []
         end)
          ++ (if has_onDocumentsChange then [OnDocumentsChange] else [])
          ++ [SetDeletingId None]
      else [ConsoleWarn; SetDeletingId None]
  end.

(** What the callbacks do in [App] (lines 257-263): [onSelectDocument] is
    [setSelectedDocument], [onDocumentsChange] is [loadDocuments], which
    sends its request at once and replaces the document list when the
    request is answered; [rd] is that answer.  The sidebar's own effects do
    not reach [App]. *)
Definition in_app (rd : Response App.DocumentsData) (e : Effect) : list App.Effect :=
  match e with
  | OnSelectDocument d => [App.SetSelectedDocument d]
  | OnDocumentsChange => App.loadDocuments_start ++ App.loadDocuments_resume rd
  | _ => []
  end.

(** The DELETE was answered with an OK status. *)
Definition deleted (r : Response unit) : bool :=
  match r with
  | Resolved s _ => ok s
  | Rejected _ => false
  end.

(** [selectedDocument?.id === doc.id] *)
Definition is_selected (selected : option Document.t) (doc : Document.t) : bool :=
  match selected with
  | Some sel => String.eqb (Document.id sel) (Document.id doc)
  | None => false
  end.

End ChatSidebar.

(** ** The [FileUpload] component *)

Module FileUpload.

Inductive Effect :=
| SetUploading (b : bool)
| SetUploadError (e : option Json)
| AxiosPostUpload
| OnFileUploaded (file_id filename rawResponse : Json).

Definition fallback : Json := JStr "Upload failed. Please try again.".

(** [error.response?.data?.error || 'Upload failed. Please try again.'] *)
Definition errorMessage (response : option (nat * Json)) : Json :=
  match response with
  | Some (_, data) =>
      match prop data "error" with
      | Some e => if truthy e then e else fallback
      | None => fallback
      end
  | None => fallback
  end.

(** uploadFile up to [await axios.post] (lines 16-24). *)
Definition uploadFile_start : list Effect :=
  [SetUploading true; SetUploadError None; AxiosPostUpload].

(** uploadFile after the request settles (lines 30-46).  Reading a property
    of a [null] body throws; the [catch] then finds no [error.response]. *)
Definition uploadFile_resume (r : ProcessingStatus.AxiosResult) : list Effect :=
  match r with
  | ProcessingStatus.AxResolved _ data =>
      match prop data "file_id", prop data "filename" with
      | Some fid, Some fname =>
          if truthy fid
          then [OnFileUploaded fid fname data; SetUploading false]
          else [SetUploading false]
      | _, _ => [SetUploadError (Some fallback); SetUploading false]
      end
  | ProcessingStatus.AxRejected response _ =>
      [SetUploadError (Some (errorMessage response)); SetUploading false]
  end.

(** onDrop (lines 48-52): [acceptedFiles] is the number of accepted files. *)
Definition onDrop (acceptedFiles : nat) (isProcessing uploading : bool) : list Effect :=
  if (0 <? acceptedFiles) && negb isProcessing && negb uploading
  then uploadFile_start else [].

Definition is_callback (e : Effect) : bool :=
  match e with OnFileUploaded _ _ _ => true | _ => false end.

Definition is_error (e : Effect) : bool :=
  match e with SetUploadError (Some _) => true | _ => false end.

(** The response carries a truthy [file_id]. *)
Definition has_file_id (r : ProcessingStatus.AxiosResult) : bool :=
  match r with
  | ProcessingStatus.AxResolved _ data =>
      match prop data "file_id" with
      | Some fid => truthy fid
      | None => false
      end
  | ProcessingStatus.AxRejected _ _ => false
  end.

End FileUpload.

(** ** The [WhatIfScenarios] panel of a clause *)

Module WhatIf.

Inductive Effect :=
| SetScenarios (v : Json)
| SetLoading (b : bool)
| FetchScenarios
| OnScenariosGenerated (clauseId : option string) (v : Json).

(** [initialScenarios && initialScenarios.length] *)
Definition usable (initial : option Json) : bool :=
  match initial with
  | Some (JArr (_ :: _)) => true
  | Some (JStr s) => negb (String.eqb s EmptyString)
  | _ => false
  end.

Definition notify (has_callback : bool) (clauseId : option string) (v : Json)
    : list Effect :=
  if has_callback then [OnScenariosGenerated clauseId v] else [].

(** fetchScenarios up to its [await] (lines 39-53); the result says whether
    it is suspended on the request. *)
Definition fetchScenarios_start (initial : option Json) (clauseText : string)
    (expanded has_callback : bool) (clauseId : option string)
    : bool * list Effect :=
  match initial with
  | Some v =>
      if usable initial then (false, SetScenarios v :: notify has_callback clauseId v)
      else if negb (String.eqb clauseText EmptyString) && expanded
      then (true, [SetLoading true; FetchScenarios])
      else (false, [])
  | None =>
      if negb (String.eqb clauseText EmptyString) && expanded
      then (true, [SetLoading true; FetchScenarios])
      else (false, [])
  end.

Record ScenarioData := { response_scenarios : Json }.

(** After the request settles (lines 65-91).  [mock] is what
    getMockScenarios returns for the panel's document and clause type. *)
Definition fetchScenarios_resume (mock : Json) (has_callback : bool)
    (clauseId : option string) (r : Response ScenarioData) : list Effect :=
  let shown :=
    match r with
    | Resolved s (inr data) =>
        if ok s
        then (if truthy (response_scenarios data) then response_scenarios data
              else JArr [])
        else mock
    | _ => mock
    end in
  SetScenarios shown :: notify has_callback clauseId shown ++ [SetLoading false].

(** The prop the visualizer passes down (line 205 of ClauseVisualizer):
    [c.scenarios || scenariosById[c.id] || null].  An array is truthy even
    when it is empty. *)
Definition initialScenarios (c : Clause.t) (cache : gmap string Json) : option Json :=
  match Clause.scenarios c with
  | Some l => Some (JArr l)
  | None => ClauseVisualizer.cached cache (Clause.id c)
  end.

Definition is_fetch (e : Effect) : bool :=
  match e with FetchScenarios => true | _ => false end.

End WhatIf.

(** ** Concrete uploads, documents and responses used in the scenarios *)

Module Scenario.
Import App.

Definition doc (i name : string) : Document.t :=
  {| Document.id := i; Document.file_name := name;
     Document.created_at := "2025-01-01T00:00:00Z";
     Document.processed_at := "2025-01-01T00:00:05Z";
     Document.ocr_document_type := None |}.

Definition d1 : Document.t := doc "d1" "a.pdf".
Definition d2 : Document.t := doc "d2" "b.pdf".

(** Upload of a.pdf with no synchronous result. *)
Definition f1 : FileData :=
  {| file_id := "f1"; filename := "a.pdf"; rawResponse := None |}.

Definition docs_ok (l : list Document.t) : Response DocumentsData :=
  Resolved 200 (inr {| data_documents := Some l |}).

Definition status_ok (st : string) (i : option string) : Response StatusData :=
  Resolved 200 (inr {| status := Some st; document_id := i |}).

(** The upload screen while a job is being processed. *)
Definition waiting : State :=
  {| documents := [d2]; selectedDocument := None; chatHistory := [];
     isLoading := true; error := None |}.

(** Status payloads of the processing endpoint as axios delivers them. *)
Definition summary : Json := JObj [("summary", JStr "ok")].

Definition done_response : ProcessingStatus.AxiosResult :=
  ProcessingStatus.AxResolved 200 (JObj [("status", JStr "done"); ("result", summary)]).

Definition pending_response : ProcessingStatus.AxiosResult :=
  ProcessingStatus.AxResolved 200 (JObj [("status", JStr "pending")]).

Definition accepted : ProcessingStatus.AxiosResult :=
  ProcessingStatus.AxResolved 202 (JObj [("status", JStr "accepted")]).

(** A transport failure: axios rejects without [err.response]. *)
Definition network_error : ProcessingStatus.AxiosResult :=
  ProcessingStatus.AxRejected None "Network Error".

(** A clause fresh from analysis: text, no scenarios, no references. *)
Definition c1 : Clause.t :=
  {| Clause.id := "c1"; Clause.clause_text := "The tenant shall pay rent monthly.";
     Clause.risk := medium; Clause.highlights := None;
     Clause.clause_headline := None; Clause.start_pos := None;
     Clause.end_pos := None; Clause.scenarios := None;
     Clause.legal_references := None |}.

Definition c2 : Clause.t :=
  {| Clause.id := "c2"; Clause.clause_text := "Either party may terminate.";
     Clause.risk := high; Clause.highlights := None;
     Clause.clause_headline := None; Clause.start_pos := None;
     Clause.end_pos := None; Clause.scenarios := None;
     Clause.legal_references := None |}.

(** Document d1 with two clauses just persisted. *)
Definition persisted : ChatInterface.State :=
  {| ChatInterface.clauses := [c1; c2];
     ChatInterface.persistedByDocument := {["d1" := true]};
     ChatInterface.toast := None |}.

Definition noon : Clock := {| now := 1735732800000; iso := "2025-01-01T12:00:00.000Z" |}.

(** d1 is open with an empty chat. *)
Definition chatting : State :=
  {| documents := [d1]; selectedDocument := Some d1; chatHistory := [];
     isLoading := false; error := None |}.

(** A clause that arrives with one scenario, and one with an empty array. *)
Definition c3 : Clause.t :=
  {| Clause.id := "c3"; Clause.clause_text := "Late payment bears interest.";
     Clause.risk := low; Clause.highlights := None;
     Clause.clause_headline := None; Clause.start_pos := None;
     Clause.end_pos := None; Clause.scenarios := Some [JStr "breach"];
     Clause.legal_references := None |}.

Definition c4 : Clause.t :=
  {| Clause.id := "c4"; Clause.clause_text := "Governing law is Indian law.";
     Clause.risk := low; Clause.highlights := None;
     Clause.clause_headline := None; Clause.start_pos := None;
     Clause.end_pos := None; Clause.scenarios := Some [];
     Clause.legal_references := None |}.

(** Upload of a.pdf that was processed synchronously. *)
Definition f2 : FileData :=
  {| file_id := "f2"; filename := "a.pdf";
     rawResponse := Some {| raw_result := JObj [("summary", JStr "ok")];
                            raw_document_id := Some "d1" |} |}.

(** A stored message of the chat about a.pdf (document d1). *)
Definition m1 : ChatMessage.t :=
  {| ChatMessage.id := "m1"; ChatMessage.role := assistant;
     ChatMessage.message := "a.pdf is a lease agreement.";
     ChatMessage.created_at := "2025-01-01T00:01:00Z" |}.

(** d1 is open and its stored chat is on screen. *)
Definition reading : State :=
  {| documents := [d1; d2]; selectedDocument := Some d1; chatHistory := [m1];
     isLoading := false; error := None |}.

(** A freshly mounted ProcessingStatus. *)
Definition mounted : ProcessingStatus.State :=
  fst (ProcessingStatus.mount None [] 1).

End Scenario.

(** * Properties *)

(** ** Chat session *)

Section ChatSession.
Import App.

Lemma run_app (es1 es2 : list Effect) (st : State) :
  run (es1 ++ es2) st = run es2 (run es1 st).
Proof. unfold run. apply fold_left_app. Qed.

(** C9: with no document selected, sending a message does nothing: the call
    returns at once with an empty effect trace (no append, no request), so
    the chat history, the loading flag and the error are what they were. *)
Theorem sendMessage_without_document (st : State) (text : string)
    (c1 c2 : Clock) (r : Response ChatData) :
  selectedDocument st = None ->
  handleSendMessage_start (selectedDocument st) text c1 = (false, [])
  /\ handleSendMessage text c1 c2 r st = []
  /\ run (handleSendMessage text c1 c2 r st) st = st.
Proof.
  intros Hsel. unfold handleSendMessage. rewrite Hsel. simpl. auto.
Qed.



(** A response whose body cannot be decoded empties the history as well. *)
Lemma loadChatHistory_undecodable_clears (st : State) (s : nat) (msg : string) :
  chatHistory (run (loadChatHistory_resume (Resolved s (inl msg))) st) = [].
Proof. simpl. destruct (ok s); reflexivity. Qed.


End ChatSession.

(** ** Upload orchestration *)

Section Orchestrator.
Import App.






(** C2 (amended): a poll result is applied without looking at the current
    selection.  Whatever document is selected when the refreshed
    collection arrives, a matching entry becomes the selected document and
    the collection and the loading flag are overwritten; chat history and
    error are left as they are. *)
Theorem poll_result_applied_unconditionally (fd : FileData)
    (docs0 : list Document.t) (st : State) (a : nat)
    (document_id : option string) (s : nat) (data : DocumentsData)
    (newDoc : Document.t) :
  ok s = true ->
  List.find (matches_polled fd document_id) (or_nil (data_documents data))
  = Some newDoc ->
  system_step fd docs0 (st, PollUpdatedDocs a document_id)
              (Upload (DocumentsResponse (Resolved s (inr data))))
  = ({| documents := or_nil (data_documents data);
        selectedDocument := Some newDoc;
        chatHistory := chatHistory st;
        isLoading := false;
        error := error st |}, Finished).
Proof.
  intros Hok Hfind. unfold system_step. simpl. rewrite Hok, Hfind. reflexivity.
Qed.

(** C2 (as stated, refuted): the user selects b.pdf (d2) while the job for
    a.pdf is being polled; when the job's last response arrives the
    selection is d2, and the response replaces it by d1. *)
Lemma switch_mid_poll_is_overridden :
  let c :=
    system_run Scenario.f1 [] (Scenario.waiting, PollSleep 0)
      [Upload TimerFired;
       SelectDocument (Some Scenario.d2);
       Upload (StatusResponse (Scenario.status_ok "done" (Some "d1")));
       Upload (DocumentsResponse (Scenario.docs_ok [Scenario.d2; Scenario.d1]))] in
  selectedDocument (fst c) = Some Scenario.d2
  /\ selectedDocument
       (fst (system_step Scenario.f1 [] c
               (Upload (DocumentsResponse
                          (Scenario.docs_ok [Scenario.d2; Scenario.d1])))))
     = Some Scenario.d1
  /\ Scenario.d1 <> Scenario.d2.
Proof.
  split; [reflexivity | split; [reflexivity | discriminate]].
Qed.

End Orchestrator.

(** ** The bounded poll of the upload handler *)

Section PollForCompletion.
Import App.

Variables (fd : FileData) (docs0 : list Document.t).

#[local] Arguments after_loop : simpl never.
#[local] Arguments loop_head : simpl never.

Lemma count_app (f : Effect -> bool) (es1 es2 : list Effect) :
  count f (es1 ++ es2) = count f es1 + count f es2.
Proof. unfold count. rewrite List.filter_app, length_app. reflexivity. Qed.

Lemma loadDocuments_resume_silent (r : Response DocumentsData) :
  count is_status_check (loadDocuments_resume r) = 0
  /\ count is_terminal (loadDocuments_resume r) = 0
  /\ count is_documents_fetch (loadDocuments_resume r) = 0.
Proof.
  destruct r as [msg | s [msg | data]]; simpl; try destruct (ok s); auto.
Qed.

Lemma after_loop_eq (a : nat) :
  a < maxAttempts -> after_loop a = (Finished, [SetIsLoading false]).
Proof.
  intros Ha. unfold after_loop.
  destruct (Nat.leb_spec maxAttempts a); [lia | reflexivity].
Qed.

Lemma loop_head_cases (a : nat) :
  a < maxAttempts ->
  loop_head (S a) = (PollSleep (S a), [SetTimeout 1000]) /\ S a < maxAttempts
  \/ loop_head (S a)
     = (Finished, [SetError (Some timeoutMessage); SetIsLoading false])
     /\ S a = maxAttempts.
Proof.
  intros Ha. unfold loop_head, after_loop.
  destruct (Nat.ltb_spec (S a) maxAttempts) as [Hlt | Hge].
  - left; auto.
  - right. destruct (Nat.leb_spec maxAttempts (S a)); [split; [reflexivity | lia] | lia].
Qed.

Ltac counts :=
  unfold poll_inv; rewrite ?count_app; unfold count, maxAttempts in *;
  simpl; lia.

Lemma loop_head_inv (a : nat) (es : list Effect) :
  a < maxAttempts -> count is_status_check es = S a ->
  count is_terminal es = 0 -> count is_documents_fetch es = 0 ->
  poll_inv (fst (loop_head (S a))) (es ++ snd (loop_head (S a))).
Proof.
  intros Ha Hc Ht Hd.
  destruct (loop_head_cases a Ha) as [[-> Hlt] | [-> Heq]]; simpl fst; simpl snd;
    counts.
Qed.

Lemma step_inv (p : Proc) (ev : Event) (es : list Effect) :
  poll_inv p es ->
  poll_inv (fst (step fd docs0 p ev)) (es ++ snd (step fd docs0 p ev)).
Proof.
  intros Hinv.
  destruct p as [| | | a | a | a i | a i | | | msg]; try contradiction;
    destruct ev as [| r | r | r]; cbn [step];
    try (simpl; rewrite app_nil_r; exact Hinv).
  - (* PollSleep, timer *)
    destruct Hinv as (Ha & Hc & Ht & Hd). simpl fst; simpl snd. counts.
  - (* PollStatus, status response *)
    destruct Hinv as (Ha & Hc & Ht & Hd).
    destruct r as [msg | s [msg | statusData]].
    + simpl fst; simpl snd. counts.
    + destruct (s =? 404).
      * rewrite (after_loop_eq _ Ha). simpl fst; simpl snd. counts.
      * destruct (ok s).
        -- simpl fst; simpl snd. counts.
        -- apply loop_head_inv; assumption.
    + destruct (s =? 404).
      * rewrite (after_loop_eq _ Ha). simpl fst; simpl snd. counts.
      * destruct (ok s); [| apply loop_head_inv; assumption].
        destruct (bool_decide (status statusData = Some "done")).
        -- simpl fst; simpl snd. counts.
        -- destruct (bool_decide (status statusData = Some "error")).
           ++ rewrite (after_loop_eq _ Ha). simpl fst; simpl snd. counts.
           ++ apply loop_head_inv; assumption.
  - (* PollLoadDocs, documents response *)
    destruct Hinv as (Ha & Hc & Ht & Hd).
    destruct (loadDocuments_resume_silent r) as (H1 & H2 & H3).
    simpl fst; simpl snd. unfold poll_inv. rewrite !count_app, H1, H2, H3.
    counts.
  - (* PollUpdatedDocs, documents response *)
    destruct Hinv as (Ha & Hc & Ht & Hd).
    destruct r as [msg | s [msg | data]].
    + simpl fst; simpl snd. counts.
    + destruct (ok s).
      * simpl fst; simpl snd. counts.
      * rewrite (after_loop_eq _ Ha). simpl fst; simpl snd. counts.
    + destruct (ok s); [| rewrite (after_loop_eq _ Ha); simpl fst; simpl snd; counts].
      destruct (List.find _ _).
      * simpl fst; simpl snd. counts.
      * rewrite (after_loop_eq _ Ha). simpl fst; simpl snd. counts.
Qed.

Lemma steps_inv (evs : list Event) (p : Proc) (es : list Effect) :
  poll_inv p es ->
  poll_inv (fst (steps fd docs0 p evs)) (es ++ snd (steps fd docs0 p evs)).
Proof.
  revert p es. induction evs as [| ev evs IH]; intros p es Hinv.
  - simpl. rewrite app_nil_r. exact Hinv.
  - simpl. pose proof (step_inv p ev es Hinv) as H1.
    destruct (step fd docs0 p ev) as [p1 es1]. simpl in H1.
    specialize (IH p1 (es ++ es1) H1).
    destruct (steps fd docs0 p1 evs) as [p2 es2]. simpl in *.
    rewrite app_assoc. exact IH.
Qed.

Lemma poll_inv_bounds (p : Proc) (es : list Effect) :
  poll_inv p es ->
  count is_status_check es <= maxAttempts
  /\ count is_terminal es <= 1
  /\ (p = Finished -> count is_documents_fetch es = 0 -> count is_terminal es = 1).
Proof.
  destruct p; simpl; try contradiction; intros H;
    repeat split; try lia; try discriminate.
Qed.

Lemma steps_cons (p : Proc) (ev : Event) (evs : list Event) :
  steps fd docs0 p (ev :: evs)
  = (fst (steps fd docs0 (fst (step fd docs0 p ev)) evs),
     snd (step fd docs0 p ev) ++ snd (steps fd docs0 (fst (step fd docs0 p ev)) evs)).
Proof.
  simpl. destruct (step fd docs0 p ev) as [p1 es1].
  simpl. destruct (steps fd docs0 p1 evs) as [p2 es2]. reflexivity.
Qed.

(** A 202 from the process endpoint starts the poll: the loop is entered
    with no attempt used and goes to sleep for a second. *)
Lemma accepted_starts_poll (body : string + ProcessData) (evs : list Event) :
  steps fd docs0 AwaitProcess (ProcessResponse (Resolved 202 body) :: evs)
  = (fst (steps fd docs0 (PollSleep 0) evs),
     SetTimeout 1000 :: snd (steps fd docs0 (PollSleep 0) evs)).
Proof. rewrite steps_cons. reflexivity. Qed.

(** A pending response sends the loop back to its head with one more
    attempt used. *)
Lemma pending_step (a : nat) (r : Response StatusData) :
  pending r = true ->
  step fd docs0 (PollStatus a) (StatusResponse r) = loop_head (S a).
Proof.
  destruct r as [msg | s body]; cbn [pending step]; [discriminate |].
  intros H. apply andb_true_iff in H as [H404 H].
  apply negb_true_iff in H404. rewrite H404.
  destruct (ok s); [| reflexivity].
  destruct body as [msg | statusData]; [discriminate |].
  simpl in H. apply andb_true_iff in H as [Hd He].
  apply negb_true_iff in Hd, He. rewrite Hd, He. reflexivity.
Qed.

Lemma round_pending (a : nat) (r : Response StatusData) (evs : list Event) :
  pending r = true ->
  steps fd docs0 (PollSleep a) (TimerFired :: StatusResponse r :: evs)
  = (fst (steps fd docs0 (fst (loop_head (S a))) evs),
     Fetch (GetProcessStatus (file_id fd))
       :: snd (loop_head (S a)) ++ snd (steps fd docs0 (fst (loop_head (S a))) evs)).
Proof.
  intros Hp. rewrite steps_cons. cbn [step fst snd].
  rewrite steps_cons, (pending_step a r Hp). reflexivity.
Qed.

(** Pending responses all the way: the run ends in the time-out. *)
Lemma all_pending_times_out (rs : list (Response StatusData)) :
  forall (r : Response StatusData) (a : nat),
    a + S (length rs) = maxAttempts ->
    Forall (fun r => pending r = true) (r :: rs) ->
    exists es,
      steps fd docs0 (PollSleep a) (rounds (r :: rs))
      = (Finished, es ++ [SetError (Some timeoutMessage); SetIsLoading false])
      /\ count is_status_check es = S (length rs)
      /\ count is_terminal es = 0.
Proof.
  induction rs as [| r' rs IH]; intros r a Ha Hall.
  - inversion Hall as [| ? ? Hr _]; subst.
    assert (Hlt : a < maxAttempts) by (simpl in Ha; lia).
    cbn [rounds flat_map app]. rewrite (round_pending a r [] Hr).
    destruct (loop_head_cases a Hlt) as [[_ Hc] | [-> _]]; [simpl in Ha; lia |].
    exists [Fetch (GetProcessStatus (file_id fd))]. simpl. auto.
  - inversion Hall as [| ? ? Hr Hrest]; subst.
    assert (Hlt : a < maxAttempts) by (simpl in Ha; lia).
    change (rounds (r :: r' :: rs))
      with (TimerFired :: StatusResponse r :: rounds (r' :: rs)).
    rewrite (round_pending a r _ Hr).
    destruct (loop_head_cases a Hlt) as [[-> _] | [_ Hc]]; [| simpl in Ha; lia].
    destruct (IH r' (S a)) as (es & Hes & Hc & Ht); [simpl in *; lia | exact Hrest |].
    cbn [fst snd]. rewrite Hes. cbn [fst snd].
    exists (Fetch (GetProcessStatus (file_id fd)) :: SetTimeout 1000 :: es).
    split; [reflexivity |].
    unfold count in *. simpl. rewrite Hc, Ht. auto.
Qed.

(** Once the poll's promise is rejected nothing resumes it: every later
    event is ignored and no further effect is produced. *)
Lemma unhandled_is_dead (msg : string) (evs : list Event) :
  steps fd docs0 (Unhandled msg) evs = (Unhandled msg, []).
Proof.
  induction evs as [| ev evs IH]; [reflexivity |].
  rewrite steps_cons. destruct ev; cbn [step fst snd]; rewrite IH; reflexivity.
Qed.

End PollForCompletion.

(** ** The interval poller of ProcessingStatus *)

Section IntervalPoller.
Import ProcessingStatus.

Lemma ps_steps_cons (st : State) (ev : Event) (evs : list Event) :
  steps st (ev :: evs)
  = (fst (steps (fst (step st ev)) evs),
     snd (step st ev) ++ snd (steps (fst (step st ev)) evs)).
Proof.
  simpl. destruct (step st ev) as [st1 es1].
  simpl. destruct (steps st1 evs) as [st2 es2]. reflexivity.
Qed.

Lemma ps_count_app (f : Effect -> bool) (es1 es2 : list Effect) :
  count f (es1 ++ es2) = count f es1 + count f es2.
Proof. unfold count. rewrite List.filter_app, length_app. reflexivity. Qed.

(** A settled request that does not report completion leaves the state
    alone, calls nothing back and issues nothing. *)
Lemma tick_resume_quiet (r : AxiosResult) (st : State) :
  completes r = false ->
  fst (tick_resume r st) = st
  /\ count is_callback (snd (tick_resume r st)) = 0
  /\ count is_status_check (snd (tick_resume r st)) = 0.
Proof.
  destruct r as [s data | resp msg]; cbn [completes tick_resume]; [| auto].
  destruct (prop data "status") as [status |]; [| auto].
  destruct (prop data "result") as [res |]; [| auto].
  intros ->. auto.
Qed.

(** One round of a live interval whose request does not complete: one
    status check, no callback, same state. *)
Lemma quiet_round (id : nat) (r : AxiosResult) (st : State) :
  id ∈ timers st -> completes r = false ->
  fst (steps st [Tick id; StatusSettled r]) = st
  /\ count is_status_check (snd (steps st [Tick id; StatusSettled r])) = 1
  /\ count is_callback (snd (steps st [Tick id; StatusSettled r])) = 0.
Proof.
  intros Hid Hr. destruct st as [c ref ts nxt pp n]. cbn [timers] in Hid.
  pose proof (tick_resume_quiet r (Build_State c ref ts nxt pp n) Hr) as Hq.
  unfold steps. cbn [step timers inflight set_inflight cancelled pollingRef
                     next_timer post_pending].
  rewrite bool_decide_eq_true_2 by exact Hid.
  unfold set_inflight.
  cbn [step timers inflight cancelled pollingRef next_timer post_pending].
  destruct (tick_resume r (Build_State c ref ts nxt pp n)) as [st' es'].
  cbn [fst snd] in *. destruct Hq as (-> & Hc & Hk).
  rewrite app_nil_r. change (AxiosGet :: es') with ([AxiosGet] ++ es').
  rewrite !ps_count_app, Hc, Hk. auto.
Qed.

Lemma steps_app (st : State) (evs1 evs2 : list Event) :
  steps st (evs1 ++ evs2)
  = (fst (steps (fst (steps st evs1)) evs2),
     snd (steps st evs1) ++ snd (steps (fst (steps st evs1)) evs2)).
Proof.
  revert st. induction evs1 as [| ev evs1 IH]; intros st.
  - simpl. destruct (steps st evs2); reflexivity.
  - rewrite <- app_comm_cons, !ps_steps_cons, IH. cbn [fst snd].
    rewrite app_assoc. reflexivity.
Qed.

(** However many rounds go by without a completing response, the interval
    keeps issuing one status check per round and never calls back. *)
Lemma quiet_rounds (id : nat) (rs : list AxiosResult) (st : State) :
  id ∈ timers st -> Forall (fun r => completes r = false) rs ->
  fst (steps st (rounds id rs)) = st
  /\ count is_status_check (snd (steps st (rounds id rs))) = length rs
  /\ count is_callback (snd (steps st (rounds id rs))) = 0.
Proof.
  intros Hid. induction 1 as [| r rs Hr _ IH]; [simpl; auto |].
  change (rounds id (r :: rs)) with ([Tick id; StatusSettled r] ++ rounds id rs).
  rewrite steps_app. cbn [fst snd].
  destruct (quiet_round id r st Hid Hr) as (Hs & Hc & Hk).
  rewrite Hs, !ps_count_app, Hc, Hk.
  destruct IH as (-> & -> & ->). auto.
Qed.

End IntervalPoller.

(** ** Job polling: budget, outcomes, failures, cancellation *)

Section JobPoller.

(** C3 (amended): a poll started by the upload handler issues at most
    [maxAttempts] = 60 status checks and produces at most one terminal
    outcome (an error message or a document selection); a finished poll that
    never fetched the document list (no done status seen) produced exactly
    one.  If every check is pending, the poll ends after exactly 60 checks
    with the time-out error as its only outcome.  The interval poller of
    ProcessingStatus has no attempt budget: as long as no response reports
    completion it issues one status check per round, never calls back, and
    stays as it was. *)
Theorem poll_budget_and_outcome (fd : App.FileData) (docs0 : list Document.t)
    (body : string + App.ProcessData) :
  (forall evs,
      let run := App.steps fd docs0 App.AwaitProcess
                   (App.ProcessResponse (Resolved 202 body) :: evs) in
      App.count App.is_status_check (snd run) <= App.maxAttempts
      /\ App.count App.is_terminal (snd run) <= 1
      /\ (fst run = App.Finished ->
          App.count App.is_documents_fetch (snd run) = 0 ->
          App.count App.is_terminal (snd run) = 1))
  /\ (forall rs,
        length rs = App.maxAttempts ->
        Forall (fun r => App.pending r = true) rs ->
        exists es,
          App.steps fd docs0 App.AwaitProcess
            (App.ProcessResponse (Resolved 202 body) :: App.rounds rs)
          = (App.Finished,
             es ++ [App.SetError (Some App.timeoutMessage); App.SetIsLoading false])
          /\ App.count App.is_status_check es = App.maxAttempts
          /\ App.count App.is_terminal es = 0)
  /\ (forall rs,
        Forall (fun r => ProcessingStatus.completes r = false) rs ->
        let run := ProcessingStatus.steps ProcessingStatus.polling
                     (ProcessingStatus.rounds 1 rs) in
        fst run = ProcessingStatus.polling
        /\ ProcessingStatus.count ProcessingStatus.is_status_check (snd run)
           = length rs
        /\ ProcessingStatus.count ProcessingStatus.is_callback (snd run) = 0).
Proof.
  split; [| split].
  - intros evs run. subst run. rewrite accepted_starts_poll. cbn [fst snd].
    apply poll_inv_bounds.
    apply (steps_inv fd docs0 evs (App.PollSleep 0) [App.SetTimeout 1000]).
    unfold App.poll_inv, App.maxAttempts, App.count. simpl. lia.
  - intros [| r rs] Hlen Hall; [discriminate |].
    destruct (all_pending_times_out fd docs0 rs r 0) as (es & Hes & Hc & Ht);
      [simpl in Hlen; simpl; lia | exact Hall |].
    exists (App.SetTimeout 1000 :: es).
    rewrite accepted_starts_poll, Hes. cbn [fst snd]. split; [reflexivity |].
    unfold App.count in *. simpl. rewrite Hc, Ht. simpl in Hlen. auto.
  - intros rs Hall run. subst run.
    apply quiet_rounds; [| exact Hall].
    vm_compute. apply list_elem_of_here.
Qed.

(** C3 (as stated, refuted): (1) the status is done but the refreshed
    collection holds no matching entry: the poll is over and has produced no
    terminal outcome; (2) the interval poller issues 61 status checks over 61
    pending rounds and calls nothing back; (3) two of its requests are in
    flight when both report done: the completion callback runs twice. *)
Lemma poll_outcomes_not_exactly_one :
  (let run := App.steps Scenario.f1 [] App.AwaitProcess
                [App.ProcessResponse (Resolved 202 (inl ""));
                 App.TimerFired;
                 App.StatusResponse (Scenario.status_ok "done" (Some "d1"));
                 App.DocumentsResponse (Scenario.docs_ok [Scenario.d2]);
                 App.DocumentsResponse (Scenario.docs_ok [Scenario.d2])] in
   fst run = App.Finished /\ App.count App.is_terminal (snd run) = 0)
  /\ (let run := ProcessingStatus.steps ProcessingStatus.polling
                   (ProcessingStatus.rounds 1 (repeat Scenario.pending_response 61)) in
      ProcessingStatus.count ProcessingStatus.is_status_check (snd run) = 61
      /\ ProcessingStatus.count ProcessingStatus.is_callback (snd run) = 0
      /\ ~ (61 <= App.maxAttempts))
  /\ (let run := ProcessingStatus.steps Scenario.mounted
                   [ProcessingStatus.PostSettled Scenario.accepted;
                    ProcessingStatus.Tick 1; ProcessingStatus.Tick 1;
                    ProcessingStatus.StatusSettled Scenario.done_response;
                    ProcessingStatus.StatusSettled Scenario.done_response] in
      ProcessingStatus.cancelled (fst run) = false
      /\ ProcessingStatus.count ProcessingStatus.is_callback (snd run) = 2).
Proof.
  split; [| split].
  - split; reflexivity.
  - split; [vm_compute; reflexivity | split; [vm_compute; reflexivity |]].
    unfold App.maxAttempts. lia.
  - split; reflexivity.
Qed.

(** C4 (the code at the failing input): a transport failure of a status
    request is not counted as an attempt and leads to no time-out.  In the
    upload handler the rejected request ends the poll for good, with no
    effect at all - no error, no [setIsLoading(false)] - whatever happens
    afterwards.  In the interval poller every failure is swallowed, and
    after any number of failed rounds the poller is where it started, having
    called nothing back. *)
Theorem network_failure_never_times_out :
  (forall fd docs0 a msg evs,
      App.steps fd docs0 (App.PollStatus a)
                (App.StatusResponse (Rejected msg) :: evs)
      = (App.Unhandled msg, []))
  /\ (forall fd docs0 msg evs st,
        let run := App.steps fd docs0 App.AwaitProcess
                     (App.ProcessResponse (Resolved 202 (inl ""))
                        :: App.TimerFired :: App.StatusResponse (Rejected msg) :: evs) in
        fst run = App.Unhandled msg
        /\ App.run (snd run) st = st
        /\ App.count App.is_status_check (snd run) = 1
        /\ App.count App.is_terminal (snd run) = 0)
  /\ (forall n,
        let run := ProcessingStatus.steps ProcessingStatus.polling
                     (ProcessingStatus.rounds 1 (repeat Scenario.network_error n)) in
        fst run = ProcessingStatus.polling
        /\ ProcessingStatus.count ProcessingStatus.is_status_check (snd run) = n
        /\ ProcessingStatus.count ProcessingStatus.is_callback (snd run) = 0).
Proof.
  assert (H1 : forall fd docs0 a msg evs,
      App.steps fd docs0 (App.PollStatus a)
                (App.StatusResponse (Rejected msg) :: evs)
      = (App.Unhandled msg, [])).
  { intros. rewrite steps_cons. cbn [App.step fst snd].
    rewrite unhandled_is_dead. reflexivity. }
  split; [exact H1 | split].
  - intros fd docs0 msg evs st run. subst run.
    rewrite accepted_starts_poll, steps_cons. cbn [App.step fst snd].
    rewrite H1. cbn [fst snd]. destruct st; simpl. auto.
  - intros n run. subst run.
    assert (Hall : Forall (fun r => ProcessingStatus.completes r = false)
                          (repeat Scenario.network_error n))
      by (induction n as [| n IH]; simpl; constructor; [reflexivity | exact IH]).
    pose proof (quiet_rounds 1 (repeat Scenario.network_error n)
                  ProcessingStatus.polling) as H.
    rewrite repeat_length in H. apply H; [| exact Hall].
    vm_compute. apply list_elem_of_here.
Qed.

(** C1 (the code at the failing input): the component is unmounted while a
    status request is in flight; the cleanup sets [cancelled] and clears the
    interval, yet when the request settles with done the completion
    callback is invoked.  And when the cleanup runs before the initial POST
    settles, a later 202 installs the interval all the same and status
    checks go on after the cancellation. *)
Theorem callback_fires_after_cancellation :
  (let st := fst (ProcessingStatus.steps Scenario.mounted
                    [ProcessingStatus.PostSettled Scenario.accepted;
                     ProcessingStatus.Tick 1;
                     ProcessingStatus.Cleanup]) in
   ProcessingStatus.cancelled st = true
   /\ ProcessingStatus.timers st = []
   /\ snd (ProcessingStatus.step st
             (ProcessingStatus.StatusSettled Scenario.done_response))
      = [ProcessingStatus.OnComplete Scenario.summary])
  /\ (let st := fst (ProcessingStatus.steps Scenario.mounted
                       [ProcessingStatus.Cleanup]) in
      ProcessingStatus.cancelled st = true
      /\ snd (ProcessingStatus.steps st
                [ProcessingStatus.PostSettled Scenario.accepted;
                 ProcessingStatus.Tick 1;
                 ProcessingStatus.StatusSettled Scenario.pending_response;
                 ProcessingStatus.Tick 1])
         = [ProcessingStatus.SetStatusMessage ProcessingStatus.startedMessage;
            ProcessingStatus.SetInterval 1 ProcessingStatus.POLL_INTERVAL_MS;
            ProcessingStatus.AxiosGet; ProcessingStatus.AxiosGet]).
Proof.
  split; (split; [reflexivity |]); [split |]; reflexivity.
Qed.

End JobPoller.

(** ** Clause enrichment *)

Section Enrichment.
Import ClauseVisualizer.

Lemma requests_app (ep : Endpoint) (i : string) (es1 es2 : list Effect) :
  requests ep i (es1 ++ es2) = requests ep i es1 + requests ep i es2.
Proof. unfold requests. rewrite List.filter_app, length_app. reflexivity. Qed.

Lemma sum_list_with_insert {A} (f : A -> nat) (l : list A) (j : nat) (x y : A) :
  l !! j = Some y ->
  sum_list_with f (<[j := x]> l) + f y = sum_list_with f l + f x.
Proof.
  revert j. induction l as [| a l IH]; intros [| j] H; simpl in *; try discriminate.
  - injection H as ->. lia.
  - specialize (IH j H). lia.
Qed.

Lemma sum_list_with_app' {A} (f : A -> nat) (l1 l2 : list A) :
  sum_list_with f (l1 ++ l2) = sum_list_with f l1 + sum_list_with f l2.
Proof. induction l1; simpl; lia. Qed.

(** The legal-reference half makes at most one request, and only to the
    legal endpoint; afterwards the call has no request ahead. *)
Lemma references_block_bound (ep : Endpoint) (i : string) (m : bool)
    (docType : string) (c : Clause.t) :
  requests ep i (snd (references_block m docType c))
  + may_request ep i (c, fst (references_block m docType c))
  <= may_request LegalKnowledgeGraph i (c, AwaitScenarios)
  /\ requests WhatIfScenarios i (snd (references_block m docType c)) = 0.
Proof.
  unfold references_block, may_request, requests.
  destruct (lacks (Clause.legal_references c) && nonempty (Clause.clause_text c)).
  - destruct ep; simpl; destruct (String.eqb i (Clause.id c)); simpl; lia.
  - destruct (present (Clause.legal_references c)); destruct m, ep; simpl;
      destruct (String.eqb i (Clause.id c)); simpl; lia.
Qed.

Lemma fetchForClause_start_bound (ep : Endpoint) (i : string) (docType : string)
    (c : Clause.t) :
  requests ep i (snd (fetchForClause_start true docType c))
  + may_request ep i (c, fst (fetchForClause_start true docType c))
  <= if String.eqb i (Clause.id c) then 1 else 0.
Proof.
  unfold fetchForClause_start.
  destruct (lacks (Clause.scenarios c) && nonempty (Clause.clause_text c)).
  - unfold may_request, requests.
    destruct ep; simpl; destruct (String.eqb i (Clause.id c)); simpl; lia.
  - destruct (references_block_bound ep i true docType c) as [Hb _].
    destruct (references_block true docType c) as [ph es]. cbn [fst snd] in *.
    rewrite requests_app.
    assert (requests ep i
              (if present (Clause.scenarios c) && true
               then [SetScenariosById (Clause.id c)
                       (JArr (default [] (Clause.scenarios c)))]
               else []) = 0) as ->
      by (destruct (present (Clause.scenarios c) && true); reflexivity).
    unfold may_request in Hb at 2. cbn [fst snd] in Hb.
    destruct (String.eqb i (Clause.id c)); lia.
Qed.

Lemma fetchForClause_resume_bound (ep : Endpoint) (i : string) (m : bool)
    (docType : string) (c : Clause.t) (ph : Phase) (resp : Response EnrichData) :
  requests ep i (snd (fetchForClause_resume m docType c ph resp))
  + may_request ep i (c, fst (fetchForClause_resume m docType c ph resp))
  <= may_request ep i (c, ph).
Proof.
  assert (Hwarn : requests ep i [ConsoleWarn] + may_request ep i (c, Returned) = 0)
    by (destruct ep; reflexivity).
  assert (Hnone : requests ep i [] + may_request ep i (c, Returned) = 0)
    by (destruct ep; reflexivity).
  destruct (references_block_bound ep i m docType c) as [Hb Hw].
  destruct ph; cbn [fetchForClause_resume].
  - (* waiting for the scenarios *)
    assert (Hle : requests ep i (snd (references_block m docType c))
                  + may_request ep i (c, fst (references_block m docType c))
                  <= may_request ep i (c, AwaitScenarios)).
    { destruct ep; [| exact Hb].
      rewrite Hw. destruct (references_block m docType c) as [[] ?]; simpl; lia. }
    destruct resp as [msg | s [msg | data]]; cbn [fst snd]; try lia;
      destruct (ok s); cbn [fst snd]; try lia.
    destruct (references_block m docType c) as [ph' es']. cbn [fst snd] in *.
    rewrite requests_app.
    assert (requests ep i
              (if m && truthy (data_scenarios data)
               then [SetScenariosById (Clause.id c) (data_scenarios data)]
               else []) = 0) as ->
      by (destruct (m && truthy (data_scenarios data)); reflexivity).
    lia.
  - (* waiting for the references *)
    destruct resp as [msg | s [msg | data]]; cbn [fst snd]; try lia;
      destruct (ok s); cbn [fst snd]; try lia.
    destruct (m && truthy (data_references data)); destruct ep; simpl; lia.
  - cbn [fst snd]. lia.
Qed.

Lemma start_all_bound (ep : Endpoint) (i : string) (docType : string)
    (clauses : list Clause.t) :
  requests ep i (snd (start_all docType clauses))
  + sum_list_with (may_request ep i) (fst (start_all docType clauses))
  <= occurrences i clauses.
Proof.
  induction clauses as [| c cs IH]; [simpl; lia |].
  pose proof (fetchForClause_start_bound ep i docType c) as Hc.
  cbn [start_all].
  destruct (fetchForClause_start true docType c) as [ph es].
  destruct (start_all docType cs) as [calls es']. cbn [fst snd] in *.
  rewrite requests_app. unfold occurrences in *. cbn [List.filter sum_list_with].
  destruct (String.eqb i (Clause.id c)); cbn [length]; lia.
Qed.

Lemma outstanding_unmount (ep : Endpoint) (i : string) (rs : list EffectRun) :
  sum_list_with (fun r => sum_list_with (may_request ep i) (calls r)) (map unmount rs)
  = sum_list_with (fun r => sum_list_with (may_request ep i) (calls r)) rs.
Proof. induction rs as [| r rs IH]; simpl; [reflexivity | rewrite IH; reflexivity]. Qed.

Lemma outstanding_apply (ep : Endpoint) (i : string) (es : list Effect)
    (k : Component) :
  runs (fold_left (fun k e => apply e k) es k) = runs k.
Proof.
  revert k. induction es as [| e es IH]; intros k; [reflexivity |].
  simpl. rewrite IH. destruct e; reflexivity.
Qed.

(** One event: what it requests plus what is still ahead never exceeds what
    was ahead plus, for a render, the entries carrying the id. *)
Lemma step_bound (ep : Endpoint) (i : string) (k : Component) (ev : Event) :
  requests ep i (snd (step k ev)) + outstanding ep i (fst (step k ev))
  <= outstanding ep i k + rendered i [ev].
Proof.
  unfold outstanding. destruct ev as [docType clauses | a j resp]; cbn [step rendered].
  - pose proof (start_all_bound ep i docType clauses) as Hs.
    unfold effect_run. destruct (start_all docType clauses) as [cs es].
    cbn [fst snd] in *. rewrite (outstanding_apply ep i).
    cbn [set_runs runs]. rewrite sum_list_with_app', outstanding_unmount.
    cbn [sum_list_with calls]. lia.
  - destruct (runs k !! a) as [r |] eqn:Hr; [| cbn [fst snd]; unfold requests; simpl; lia].
    unfold settle.
    destruct (calls r !! j) as [[c ph] |] eqn:Hj.
    + pose proof (fetchForClause_resume_bound ep i (mounted r) (run_documentType r)
                    c ph resp) as Hb.
      destruct (fetchForClause_resume (mounted r) (run_documentType r) c ph resp)
        as [ph' es].
      cbn [fst snd] in *. rewrite (outstanding_apply ep i). cbn [set_runs runs].
      pose proof (sum_list_with_insert (may_request ep i) (calls r) j (c, ph') (c, ph) Hj)
        as Hcalls.
      pose proof (sum_list_with_insert
                    (fun r => sum_list_with (may_request ep i) (calls r))
                    (runs k) a
                    (Build_EffectRun (mounted r) (run_documentType r)
                                     (<[j := (c, ph')]> (calls r)))
                    r Hr) as Hruns.
      cbn [calls] in Hruns. lia.
    + cbn [fst snd]. rewrite (outstanding_apply ep i). cbn [set_runs runs].
      rewrite list_insert_id by exact Hr. unfold requests. simpl. lia.
Qed.

Lemma cv_steps_cons (k : Component) (ev : Event) (evs : list Event) :
  steps k (ev :: evs)
  = (fst (steps (fst (step k ev)) evs),
     snd (step k ev) ++ snd (steps (fst (step k ev)) evs)).
Proof.
  simpl. destruct (step k ev) as [k1 es1].
  simpl. destruct (steps k1 evs) as [k2 es2]. reflexivity.
Qed.

Lemma steps_bound (ep : Endpoint) (i : string) (evs : list Event) (k : Component) :
  requests ep i (snd (steps k evs)) + outstanding ep i (fst (steps k evs))
  <= outstanding ep i k + rendered i evs.
Proof.
  revert k. induction evs as [| ev evs IH]; intros k.
  - simpl. unfold requests. simpl. lia.
  - rewrite cv_steps_cons. cbn [fst snd]. rewrite requests_app.
    pose proof (step_bound ep i k ev) as H1.
    pose proof (IH (fst (step k ev))) as H2.
    assert (rendered i (ev :: evs) = rendered i [ev] + rendered i evs) as ->
      by (destruct ev; simpl; lia).
    lia.
Qed.

(** C5 (amended): enrichment requests are bounded per run of the effect, not
    per mount.  Over any sequence of renders and settled requests of a
    mounted visualizer, the what-if requests (and likewise the
    legal-reference requests) made for a clause id never exceed the number
    of entries with that id summed over the runs of the effect: each run
    asks at most once per entry of its clause list.  Nothing consults the
    caches or the requests already in flight. *)
Theorem enrichment_once_per_entry_per_run (ep : Endpoint) (i : string)
    (evs : list Event) :
  requests ep i (snd (steps initial evs)) <= rendered i evs.
Proof.
  pose proof (steps_bound ep i evs initial) as H.
  unfold outstanding at 2 in H. simpl in H. lia.
Qed.

(** C5 (as stated, refuted): the visualizer renders clause c1, and renders
    again with a new clause array while the first what-if request is still
    in flight; two what-if requests are made for c1 within one mount. *)
Lemma rerender_repeats_enrichment_request :
  requests WhatIfScenarios "c1"
    (snd (steps initial
            [Render "Contract" [Scenario.c1]; Render "Contract" [Scenario.c1]]))
  = 2
  /\ scenariosById
       (fst (steps initial
               [Render "Contract" [Scenario.c1]; Render "Contract" [Scenario.c1]]))
     !! "c1" = None.
Proof. split; vm_compute; reflexivity. Qed.

End Enrichment.

(** ** Persist and undo *)

Section PersistUndo.
Import ChatInterface.

(** C8: undo sends the clause ids to the backend.  Exactly when the
    response is OK, the clauses carrying one of those ids - and no others
    - leave the local list and the document's persisted flag becomes false
    (the flags of other documents are untouched); when the request fails in
    any way, the state is left as it was. *)
Theorem undo_all_or_nothing (st : State) (documentId : string) (ids : list string)
    (r : Response unit) :
  onAction_start documentId ids = [FetchUndo documentId ids]
  /\ (undone r = true ->
      let st' := run (onAction_resume documentId ids r) st in
      (forall c, c ∈ clauses st' <-> c ∈ clauses st /\ Clause.id c ∉ ids)
      /\ clauses st' = without ids (clauses st)
      /\ persistedByDocument st' !! documentId = Some false
      /\ (forall d, d <> documentId ->
            persistedByDocument st' !! d = persistedByDocument st !! d))
  /\ (undone r = false -> run (onAction_resume documentId ids r) st = st).
Proof.
  split; [reflexivity | split].
  - destruct r as [msg | s body]; cbn [undone onAction_resume]; [discriminate |].
    intros ->. cbv zeta. cbn [run fold_left apply clauses persistedByDocument].
    split; [| split; [reflexivity | split]].
    + intros c. unfold without.
      rewrite (list_elem_of_In (clauses st) c).
      rewrite (list_elem_of_In (List.filter _ (clauses st)) c), List.filter_In.
      rewrite negb_true_iff, bool_decide_eq_false. reflexivity.
    + apply lookup_insert_eq.
    + intros d Hd. apply lookup_insert_ne. congruence.
  - destruct r as [msg | s body]; cbn [undone onAction_resume].
    + intros _. destruct st; reflexivity.
    + intros ->. destruct st; reflexivity.
Qed.

End PersistUndo.

(** ** The theorems at concrete inputs *)

Lemma sendMessage_without_document_witness :
  App.selectedDocument Scenario.waiting = None
  /\ App.handleSendMessage "summarize this" Scenario.noon Scenario.noon
       (Rejected "offline") Scenario.waiting = []
  /\ App.run (App.handleSendMessage "summarize this" Scenario.noon Scenario.noon
                (Rejected "offline") Scenario.waiting) Scenario.waiting
     = Scenario.waiting.
Proof.
  split; [reflexivity |].
  apply (sendMessage_without_document Scenario.waiting "summarize this"
           Scenario.noon Scenario.noon (Rejected "offline")).
  reflexivity.
Defined.




Lemma poll_result_applied_unconditionally_witness :
  App.system_step Scenario.f1 []
    (App.apply (App.SetSelectedDocument (Some Scenario.d2)) Scenario.waiting,
     App.PollUpdatedDocs 0 (Some "d1"))
    (App.Upload (App.DocumentsResponse (Scenario.docs_ok [Scenario.d2; Scenario.d1])))
  = ({| App.documents := [Scenario.d2; Scenario.d1];
        App.selectedDocument := Some Scenario.d1;
        App.chatHistory := [];
        App.isLoading := false;
        App.error := None |}, App.Finished).
Proof.
  apply (poll_result_applied_unconditionally Scenario.f1 []
           (App.apply (App.SetSelectedDocument (Some Scenario.d2)) Scenario.waiting)
           0 (Some "d1") 200
           {| App.data_documents := Some [Scenario.d2; Scenario.d1] |} Scenario.d1);
    reflexivity.
Defined.

Lemma poll_budget_and_outcome_witness :
  length (repeat (Scenario.status_ok "pending" None) 60) = App.maxAttempts
  /\ exists es,
      App.steps Scenario.f1 [] App.AwaitProcess
        (App.ProcessResponse (Resolved 202 (inl ""))
           :: App.rounds (repeat (Scenario.status_ok "pending" None) 60))
      = (App.Finished,
         es ++ [App.SetError (Some App.timeoutMessage); App.SetIsLoading false])
      /\ App.count App.is_status_check es = App.maxAttempts
      /\ App.count App.is_terminal es = 0.
Proof.
  split; [reflexivity |].
  destruct (poll_budget_and_outcome Scenario.f1 [] (inl "")) as (_ & H & _).
  apply H; [reflexivity |].
  repeat constructor.
Defined.

Lemma undo_all_or_nothing_witness :
  ChatInterface.undone (Resolved 200 (inr tt)) = true
  /\ ChatInterface.clauses
       (ChatInterface.run
          (ChatInterface.onPersist "d1" [Scenario.c1]
             ++ ChatInterface.onAction_resume "d1" ["c1"] (Resolved 200 (inr tt)))
          Scenario.persisted)
     = [Scenario.c2]
  /\ ChatInterface.undone (Resolved 500 (inr tt)) = false
  /\ ChatInterface.run (ChatInterface.onAction_resume "d1" ["c1"] (Resolved 500 (inr tt)))
       Scenario.persisted
     = Scenario.persisted.
Proof.
  split; [reflexivity | split; [| split; [reflexivity |]]].
  - destruct (undo_all_or_nothing
                (ChatInterface.run (ChatInterface.onPersist "d1" [Scenario.c1])
                                   Scenario.persisted)
                "d1" ["c1"] (Resolved 200 (inr tt))) as (_ & H & _).
    destruct (H eq_refl) as (_ & Hc & _). exact Hc.
  - destruct (undo_all_or_nothing Scenario.persisted "d1" ["c1"] (Resolved 500 (inr tt)))
      as (_ & _ & H).
    exact (H eq_refl).
Defined.

(** * Further properties of the code *)

(** ** App: documents, deletion, the upload handler beyond the poll *)

Section AppMore.
Import App.

Variables (fd : FileData) (docs0 : list Document.t).

Lemma run_inert (es : list Effect) (st : State) :
  forallb is_inert es = true -> run es st = st.
Proof.
  revert st. induction es as [| e es IH]; intros st H; [reflexivity |].
  simpl in H. apply andb_true_iff in H as [He Hes].
  simpl. rewrite <- (IH st Hes) at 2. f_equal.
  destruct e; try discriminate; reflexivity.
Qed.

Lemma app_steps_app (p : Proc) (evs1 evs2 : list Event) :
  steps fd docs0 p (evs1 ++ evs2)
  = (fst (steps fd docs0 (fst (steps fd docs0 p evs1)) evs2),
     snd (steps fd docs0 p evs1)
       ++ snd (steps fd docs0 (fst (steps fd docs0 p evs1)) evs2)).
Proof.
  revert p. induction evs1 as [| ev evs1 IH]; intros p.
  - simpl. destruct (steps fd docs0 p evs2); reflexivity.
  - rewrite <- app_comm_cons, !steps_cons, IH. cbn [fst snd].
    rewrite app_assoc. reflexivity.
Qed.

(** Once the handler has returned, no event makes it do anything. *)
Lemma finished_is_dead (evs : list Event) :
  steps fd docs0 Finished evs = (Finished, []).
Proof.
  induction evs as [| ev evs IH]; [reflexivity |].
  rewrite steps_cons. destruct ev; cbn [step fst snd]; rewrite IH; reflexivity.
Qed.

Lemma loadDocuments_resume_keeps (r : Response DocumentsData) (st : State) :
  selectedDocument (run (loadDocuments_resume r) st) = selectedDocument st
  /\ chatHistory (run (loadDocuments_resume r) st) = chatHistory st
  /\ isLoading (run (loadDocuments_resume r) st) = isLoading st
  /\ error (run (loadDocuments_resume r) st) = error st.
Proof.
  destruct st as [ds sel h l e].
  destruct r as [msg | s [msg | data]]; simpl; try destruct (ok s); simpl; auto.
Qed.

(** loadDocuments only ever writes the document list, and only on success:
    selection, chat history, loading flag and error stay as they are for
    every response, and a rejected, non-OK or undecodable response leaves
    the list itself untouched. *)
Theorem loadDocuments_frame (r : Response DocumentsData) (st : State) :
  let st' := run (loadDocuments_resume r) st in
  selectedDocument st' = selectedDocument st
  /\ chatHistory st' = chatHistory st
  /\ isLoading st' = isLoading st
  /\ error st' = error st
  /\ (succeeded r = false -> st' = st)
  /\ (forall s data, r = Resolved s (inr data) -> ok s = true ->
        documents st' = or_nil (data_documents data)).
Proof.
  destruct st as [ds sel h l e].
  destruct r as [msg | s [msg | data]]; cbn [loadDocuments_resume succeeded].
  - simpl. repeat split; auto. intros; discriminate.
  - destruct (ok s); simpl; repeat split; auto; intros; discriminate.
  - destruct (ok s) eqn:Hok; simpl; repeat split; auto; try discriminate.
    + intros s' data' H _. injection H as _ <-. reflexivity.
    + intros s' data' H Hok'. injection H as <- _. congruence.
Qed.

(** Deleting a chat is all-or-nothing: if the DELETE is rejected or answered
    with a non-OK status, documents, selection, chat history and error are
    unchanged and no document refresh is requested; if it is answered OK,
    then once the refresh settles - however it settles - the selection is
    cleared and the history is empty.  Either way the loading flag ends
    cleared. *)
Theorem handleDeleteChat_all_or_nothing (r : Response unit)
    (rd : Response DocumentsData) (st : State) :
  (failed r = true ->
    let out := handleDeleteChat_step DeleteAwaitResponse (DeleteSettled r) in
    fst out = DeleteReturned
    /\ count is_documents_fetch (snd out) = 0
    /\ run (snd out) st
       = Build_State (documents st) (selectedDocument st) (chatHistory st) false
                     (error st))
  /\ (failed r = false ->
      let out1 := handleDeleteChat_step DeleteAwaitResponse (DeleteSettled r) in
      let out2 := handleDeleteChat_step (fst out1) (DeleteDocuments rd) in
      let st' := run (snd out1 ++ snd out2) st in
      fst out2 = DeleteReturned
      /\ selectedDocument st' = None
      /\ chatHistory st' = []
      /\ isLoading st' = false
      /\ error st' = error st).
Proof.
  split.
  - destruct r as [msg | s body]; simpl.
    + intros _. auto.
    + intros H. apply negb_true_iff in H. rewrite H.
      destruct body; simpl; auto.
  - destruct r as [msg | s body]; simpl; [discriminate |].
    intros H. apply negb_false_iff in H. rewrite H. cbn [fst snd].
    destruct rd as [msg | s' [msg | data]]; simpl; try destruct (ok s'); simpl; auto.
Qed.

Lemma ok_not_404 (s : nat) : ok s = true -> (s =? 404) = false.
Proof.
  unfold ok. intros H. apply andb_true_iff in H as [_ H].
  apply Nat.leb_le in H. apply Nat.eqb_neq. lia.
Qed.

(** Pending rounds that stay within the budget use one status check each,
    change no state, and leave the loop asleep with that many attempts
    used. *)
Lemma pending_rounds (rs : list (Response StatusData)) :
  forall (a : nat) (evs : list Event),
    a + length rs < maxAttempts ->
    Forall (fun r => pending r = true) rs ->
    exists T,
      steps fd docs0 (PollSleep a) (rounds rs ++ evs)
      = (fst (steps fd docs0 (PollSleep (a + length rs)) evs),
         T ++ snd (steps fd docs0 (PollSleep (a + length rs)) evs))
      /\ forallb is_inert T = true
      /\ count is_status_check T = length rs.
Proof.
  induction rs as [| r rs IH]; intros a evs Ha Hall.
  - exists []. simpl. rewrite Nat.add_0_r.
    destruct (steps fd docs0 (PollSleep a) evs); auto.
  - inversion Hall as [| ? ? Hr Hrest]; subst.
    change (rounds (r :: rs) ++ evs)
      with (TimerFired :: StatusResponse r :: (rounds rs ++ evs)).
    rewrite (round_pending fd docs0 a r _ Hr).
    assert (Hlt : a < maxAttempts) by (simpl in Ha; lia).
    destruct (loop_head_cases a Hlt) as [[-> _] | [_ Hc]]; [| simpl in Ha; lia].
    destruct (IH (S a) evs) as (T & HT & Hi & Hc); [simpl in *; lia | exact Hrest |].
    cbn [fst snd]. rewrite HT. cbn [fst snd length].
    replace (a + S (length rs)) with (S a + length rs) by lia.
    exists (Fetch (GetProcessStatus (file_id fd)) :: SetTimeout 1000 :: T).
    split; [reflexivity | split].
    + simpl. exact Hi.
    + unfold count in *. simpl. rewrite Hc. reflexivity.
Qed.

(** The happy path of the poll: after any number of pending answers within
    the budget, a done status followed by a refresh that contains a
    matching entry selects that entry.  The run has then made one status
    check per pending answer plus one, the collection is the refreshed one,
    the loading flag is off, and chat history and error are untouched. *)
Theorem poll_done_selects (rs : list (Response StatusData)) (sd : StatusData)
    (s1 s2 : nat) (r1 : Response DocumentsData) (data : DocumentsData)
    (newDoc : Document.t) (body : string + ProcessData) (st : State) :
  length rs < maxAttempts ->
  Forall (fun r => pending r = true) rs ->
  ok s1 = true -> status sd = Some "done" -> ok s2 = true ->
  List.find (matches_polled fd (document_id sd)) (or_nil (data_documents data))
  = Some newDoc ->
  let out :=
    steps fd docs0 AwaitProcess
      (ProcessResponse (Resolved 202 body)
         :: rounds rs
         ++ [TimerFired; StatusResponse (Resolved s1 (inr sd));
             DocumentsResponse r1; DocumentsResponse (Resolved s2 (inr data))]) in
  fst out = Finished
  /\ count is_status_check (snd out) = S (length rs)
  /\ run (snd out) st
     = Build_State (or_nil (data_documents data)) (Some newDoc) (chatHistory st)
                   false (error st).
Proof.
  intros Hlen Hall Hok1 Hdone Hok2 Hfind out. subst out.
  rewrite accepted_starts_poll.
  destruct (pending_rounds rs 0
              [TimerFired; StatusResponse (Resolved s1 (inr sd));
               DocumentsResponse r1; DocumentsResponse (Resolved s2 (inr data))])
    as (T & HT & Hi & Hc); [simpl; lia | exact Hall |].
  rewrite HT. cbn [fst snd Nat.add].
  set (k := length rs) in *.
  assert (Hlast :
    steps fd docs0 (PollSleep k)
      [TimerFired; StatusResponse (Resolved s1 (inr sd));
       DocumentsResponse r1; DocumentsResponse (Resolved s2 (inr data))]
    = (Finished,
       [Fetch (GetProcessStatus (file_id fd)); Fetch GetDocuments]
         ++ loadDocuments_resume r1
         ++ [Fetch GetDocuments; SetDocuments (or_nil (data_documents data));
             SetSelectedDocument (Some newDoc); SetIsLoading false])).
  { rewrite !steps_cons. cbn [step fst snd steps].
    rewrite (ok_not_404 s1 Hok1), Hok1, Hdone.
    rewrite bool_decide_eq_true_2 by reflexivity.
    cbn [step fst snd loadDocuments_start]. rewrite Hok2, Hfind.
    cbn [fst snd]. rewrite app_nil_r, <- !app_assoc. reflexivity. }
  rewrite Hlast. cbn [fst snd]. split; [reflexivity | split].
  - change (SetTimeout 1000 :: T ++ ?x) with ([SetTimeout 1000] ++ T ++ x).
    destruct (loadDocuments_resume_silent r1) as (H1 & _ & _).
    rewrite !count_app, Hc, H1. unfold count. simpl. lia.
  - change (SetTimeout 1000 :: T ++ ?x) with ((SetTimeout 1000 :: T) ++ x).
    rewrite run_app, (run_inert (SetTimeout 1000 :: T)) by exact Hi.
    rewrite !run_app.
    destruct (loadDocuments_resume_keeps r1
                (run [Fetch (GetProcessStatus (file_id fd)); Fetch GetDocuments] st))
      as (_ & Hh & _ & He).
    destruct (run (loadDocuments_resume r1) _) as [ds sel h l e].
    simpl in *. subst. destruct st; reflexivity.
Qed.

(** Fatal answers end the poll at once: a 404, or an OK answer whose status
    is error, makes the handler report the matching message, clear the
    loading flag and return; documents, selection and chat history are
    untouched, and whatever arrives later no further request is made. *)
Theorem poll_fatal_answer_stops (a : nat) (r : Response StatusData)
    (evs : list Event) (st : State) (m : string) :
  a < maxAttempts ->
  ((exists body, r = Resolved 404 body) /\ m = notFoundMessage
   \/ (exists s sd, r = Resolved s (inr sd) /\ ok s = true
                    /\ status sd = Some "error") /\ m = failedMessage) ->
  let out := steps fd docs0 (PollStatus a) (StatusResponse r :: evs) in
  fst out = Finished
  /\ snd out = [SetError (Some m); SetIsLoading false]
  /\ run (snd out) st
     = Build_State (documents st) (selectedDocument st) (chatHistory st) false (Some m).
Proof.
  intros Ha Hr out. subst out. rewrite steps_cons.
  assert (Hstep : step fd docs0 (PollStatus a) (StatusResponse r)
                  = (Finished, [SetError (Some m); SetIsLoading false])).
  { destruct Hr as [[[body ->] ->] | [(s & sd & -> & Hok & Hst) ->]]; cbn [step].
    - change (404 =? 404) with true. cbv iota. rewrite (after_loop_eq a Ha). reflexivity.
    - rewrite (ok_not_404 s Hok), Hok, Hst.
      rewrite bool_decide_eq_false_2 by discriminate.
      rewrite bool_decide_eq_true_2 by reflexivity.
      rewrite (after_loop_eq a Ha). reflexivity. }
  rewrite Hstep. cbn [fst snd]. rewrite finished_is_dead. cbn [fst snd].
  rewrite app_nil_r. auto.
Qed.

(** Whenever a resumption of the upload handler makes it return, the
    loading flag is off afterwards - on every path: match found or not,
    error or time-out. *)
Theorem upload_return_clears_loading (p : Proc) (ev : Event) (st : State) :
  p <> Finished ->
  fst (step fd docs0 p ev) = Finished ->
  isLoading (run (snd (step fd docs0 p ev)) st) = false.
Proof.
  assert (Hend : forall es st', isLoading (run (es ++ [SetIsLoading false]) st') = false)
    by (intros; rewrite run_app; reflexivity).
  assert (Hafter : forall a pre st',
             isLoading (run (pre ++ snd (after_loop a)) st') = false).
  { intros a pre st'. unfold after_loop. cbn [snd]. rewrite app_assoc. apply Hend. }
  assert (Hhead : forall a st', fst (loop_head a) = Finished ->
             isLoading (run (snd (loop_head a)) st') = false).
  { intros a st'. unfold loop_head. destruct (a <? maxAttempts); [discriminate |].
    intros _. apply (Hafter a []). }
  intros Hp.
  destruct p as [| | | a | a | a i | a i | | | msg]; try contradiction;
    destruct ev as [| r | r | r]; cbn [step fst snd]; try discriminate.
  - (* ImmUpdatedDocs *)
    destruct r as [msg | s [msg | data]]; try destruct (ok s);
      try destruct (List.find _ _); reflexivity.
  - (* AwaitProcess *)
    destruct r as [msg | s [msg | pd]]; try reflexivity.
    + destruct (s =? 202); [apply Hhead |]. destruct (ok s); reflexivity.
    + destruct (s =? 202); [apply Hhead |]. destruct (ok s); [| reflexivity].
      destruct (truthy (result pd)); [discriminate | reflexivity].
  - (* PollStatus *)
    destruct r as [msg | s [msg | sd]]; try discriminate.
    + destruct (s =? 404).
      * intros _. destruct (after_loop a) as [p' es] eqn:E. cbn [snd].
        change es with (snd (p', es)). rewrite <- E.
        apply (Hafter a [SetError (Some notFoundMessage)]).
      * destruct (ok s); [discriminate | apply Hhead].
    + destruct (s =? 404).
      * intros _. destruct (after_loop a) as [p' es] eqn:E. cbn [snd].
        change es with (snd (p', es)). rewrite <- E.
        apply (Hafter a [SetError (Some notFoundMessage)]).
      * destruct (ok s); [| apply Hhead].
        destruct (bool_decide (status sd = Some "done")); [discriminate |].
        destruct (bool_decide (status sd = Some "error")); [| apply Hhead].
        intros _. destruct (after_loop a) as [p' es] eqn:E. cbn [snd].
        change es with (snd (p', es)). rewrite <- E.
        apply (Hafter a [SetError (Some failedMessage)]).
  - (* PollUpdatedDocs *)
    destruct r as [msg | s [msg | data]]; try discriminate.
    + destruct (ok s); [discriminate |]. intros _. apply (Hafter a []).
    + destruct (ok s); [| intros _; apply (Hafter a [])].
      destruct (List.find _ _); [reflexivity | intros _; apply (Hafter a [])].
  - (* ProcLoadDocs *)
    intros _. rewrite app_assoc. apply Hend.
Qed.

Lemma loadDocuments_resume_no_process_call (r : Response DocumentsData) :
  count is_process_call (loadDocuments_resume r) = 0.
Proof. destruct r as [msg | s [msg | data]]; simpl; try destruct (ok s); reflexivity. Qed.

Lemma sync_states_quiet (evs : list Event) (p : Proc) :
  p = ImmLoadDocs \/ p = ImmUpdatedDocs \/ p = Finished ->
  count is_process_call (snd (steps fd docs0 p evs)) = 0.
Proof.
  revert p. induction evs as [| ev evs IH]; intros p Hp; [reflexivity |].
  rewrite steps_cons. cbn [snd]. rewrite count_app.
  destruct Hp as [-> | [-> | ->]].
  - destruct ev as [| r | r | r]; cbn [step fst snd];
      try (rewrite IH by auto; reflexivity).
    rewrite count_app, loadDocuments_resume_no_process_call, IH by auto. reflexivity.
  - destruct ev as [| r | r | r]; cbn [step fst snd];
      try (rewrite IH by auto; reflexivity).
    destruct r as [msg | s [msg | data]]; try destruct (ok s);
      try destruct (List.find _ _); cbn [upload_catch fst snd];
      rewrite IH by auto; reflexivity.
  - rewrite finished_is_dead. destruct ev; reflexivity.
Qed.

(** When the upload response already carries a result, the handler never
    talks to the processing endpoints: whatever the document refreshes
    answer, no process request and no status check is ever made. *)
Theorem synchronous_upload_never_processes (raw : RawResponse) (evs : list Event) :
  rawResponse fd = Some raw ->
  truthy (raw_result raw) = true ->
  let start := handleFileUploaded_start fd in
  count is_process_call (snd start ++ snd (steps fd docs0 (fst start) evs)) = 0.
Proof.
  intros Hraw Htruthy start. subst start. unfold handleFileUploaded_start.
  rewrite Hraw, Htruthy. cbn [fst snd]. rewrite count_app, sync_states_quiet by auto.
  reflexivity.
Qed.

(** When the process endpoint answers 200 with a result, the document to
    select is looked up by file name in the list the handler closed over
    when it was called, not in the list the refresh delivers: the selection
    afterwards is the first such entry of the old list, or stays as it was
    when the old list has none - whatever the refresh returned. *)
Theorem immediate_completion_selects_from_old_list (s : nat) (pd : ProcessData)
    (r : Response DocumentsData) (st : State) :
  (s =? 202) = false -> ok s = true -> truthy (result pd) = true ->
  let out := steps fd docs0 AwaitProcess
               [ProcessResponse (Resolved s (inr pd)); DocumentsResponse r] in
  let st' := run (snd out) st in
  fst out = Finished
  /\ isLoading st' = false
  /\ selectedDocument st'
     = match List.find (fun d => String.eqb (Document.file_name d) (filename fd)) docs0 with
       | Some d => Some d
       | None => selectedDocument st
       end.
Proof.
  intros H202 Hok Hres out st'. subst st' out.
  rewrite !steps_cons. cbn [step steps fst snd]. rewrite H202, Hok, Hres.
  cbn [step fst snd loadDocuments_start]. split; [reflexivity |].
  rewrite app_nil_r.
  change ([Fetch GetDocuments] ++ ?x) with (Fetch GetDocuments :: x).
  destruct (List.find _ docs0);
    destruct r as [msg | s' [msg | data]]; simpl; try destruct (ok s'); auto.
Qed.

End AppMore.

(** ** Chat messages *)

Section ChatMore.
Import App.

(** The assistant reply never gets the id of the user message it answers,
    provided the clock did not go backwards between the two readings: the
    ids are the decimal renderings of the first reading and of the second
    plus one. *)
Theorem reply_id_differs (text : string) (data : ChatData) (c1 c2 : Clock) :
  (now c1 <= now c2)%Z ->
  ChatMessage.id (assistantMessage data c2) <> ChatMessage.id (userMessage text c1).
Proof.
  intros Hle Heq. simpl in Heq. apply (inj pretty) in Heq. lia.
Qed.

(** Sending a message never changes the document list or the selection, and
    with a document selected the loading flag is off when the call is over,
    whether the request succeeded, failed or was rejected. *)
Theorem sendMessage_frame (st : State) (text : string) (c1 c2 : Clock)
    (r : Response ChatData) :
  let st' := run (handleSendMessage text c1 c2 r st) st in
  documents st' = documents st
  /\ selectedDocument st' = selectedDocument st
  /\ isLoading st' = match selectedDocument st with
                     | Some _ => false
                     | None => isLoading st
                     end.
Proof.
  destruct st as [ds [d |] h l e]; unfold handleSendMessage; simpl; [| auto].
  destruct r as [msg | s [msg | data]]; simpl; try destruct (ok s); simpl; auto.
Qed.

End ChatMore.

(** ** ProcessingStatus: intervals, callbacks, cleanup *)

Section IntervalMore.
Import ProcessingStatus.

Lemma clearInterval_single (id : nat) : clearInterval id [id] = [].
Proof. unfold clearInterval. simpl. rewrite Nat.eqb_refl. reflexivity. Qed.

Lemma pollStatus_consistent (st : State) :
  consistent st -> consistent (fst (pollStatus st)).
Proof.
  intros (Hn & Href). unfold pollStatus, consistent.
  destruct (pollingRef st) as [old |] eqn:E.
  - destruct Href as (Ht & Ho1 & Ho2). unfold ref_truthy.
    assert ((old =? 0) = false) as -> by (apply Nat.eqb_neq; lia).
    cbn. rewrite Ht, clearInterval_single. simpl. split; [lia | split; [reflexivity | lia]].
  - cbn. rewrite Href. simpl. split; [lia | split; [reflexivity | lia]].
Qed.

Lemma stop_polling_consistent (st : State) :
  consistent st -> consistent (fst (stop_polling st)).
Proof.
  intros (Hn & Href). unfold stop_polling, consistent.
  destruct (pollingRef st) as [old |] eqn:E.
  - destruct Href as (Ht & Ho1 & Ho2). unfold ref_truthy.
    assert ((old =? 0) = false) as -> by (apply Nat.eqb_neq; lia).
    cbn. rewrite Ht, clearInterval_single. auto.
  - cbn. rewrite E. auto.
Qed.

(** What startProcessing does when the POST settles, by kind of outcome. *)
Lemma rejected_with_response (n : nat) (data : Json) (msg : string) (st : State) :
  startProcessing_resume (AxRejected (Some (n, data)) msg) st
  = if n =? 202
    then (let '(st', es) := pollStatus st in
          (st', SetStatusMessage startedMessage :: es))
    else (st, if cancelled st then [] else [OnError (errorMessage (Some (n, data)))]).
Proof.
  unfold startProcessing_resume.
  do 203 (destruct n as [| n]; [reflexivity |]). reflexivity.
Qed.

Lemma startProcessing_accepted (r : AxiosResult) (st : State) :
  accepted_202 r = true ->
  startProcessing_resume r st
  = (fst (pollStatus st), SetStatusMessage startedMessage :: snd (pollStatus st)).
Proof.
  destruct r as [s payload | [[n data] |] msg]; cbn [accepted_202].
  - intros H. apply andb_true_iff in H as [H1 H2]. apply negb_true_iff in H1.
    unfold startProcessing_resume. rewrite H1, H2. destruct (pollStatus st); reflexivity.
  - intros H. rewrite rejected_with_response.
    assert ((n =? 202) = true) as ->.
    { destruct (n =? 202) eqn:E; [reflexivity |].
      exfalso. revert H. do 203 (destruct n as [| n]; [discriminate |]). discriminate. }
    destruct (pollStatus st); reflexivity.
  - discriminate.
Qed.

Lemma startProcessing_settled (r : AxiosResult) (st : State) :
  accepted_202 r = false ->
  startProcessing_resume r st
  = (st,
     if cancelled st then []
     else match r with
          | AxResolved _ payload => [OnComplete (unwrap_result payload)]
          | AxRejected response _ => [OnError (errorMessage response)]
          end).
Proof.
  destruct r as [s payload | [[n data] |] msg]; cbn [accepted_202].
  - intros H. unfold startProcessing_resume.
    destruct (s =? 200); [reflexivity |]. simpl in H. rewrite H. reflexivity.
  - intros H. rewrite rejected_with_response.
    assert ((n =? 202) = false) as ->; [| reflexivity].
    destruct (n =? 202) eqn:E; [| reflexivity].
    apply Nat.eqb_eq in E. subst n. discriminate.
  - reflexivity.
Qed.

Lemma step_consistent (st : State) (ev : Event) :
  consistent st -> consistent (fst (step st ev)).
Proof.
  intros H. destruct ev as [r | id | r |]; cbn [step].
  - destruct (post_pending st); [| exact H].
    assert (H' : consistent (set_post_pending false st)) by exact H.
    destruct (accepted_202 r) eqn:E.
    + rewrite (startProcessing_accepted r _ E). cbn [fst].
      apply pollStatus_consistent, H'.
    + rewrite (startProcessing_settled r _ E). exact H'.
  - destruct (bool_decide (id ∈ timers st)); exact H.
  - destruct (inflight st) as [| n]; [exact H |].
    assert (H' : consistent (set_inflight n st)) by exact H.
    revert H'. generalize (set_inflight n st). intros st' H'.
    unfold tick_resume. destruct r as [s data | resp msg]; [| exact H'].
    destruct (prop data "status"); [| exact H'].
    destruct (prop data "result"); [| exact H'].
    destruct (is_done _ && _); [| exact H'].
    pose proof (stop_polling_consistent st' H') as Hp.
    destruct (stop_polling st'); exact Hp.
  - unfold cleanup. apply stop_polling_consistent. exact H.
Qed.


Lemma view_consistent (k : Component) (x y : Run) :
  consistent (view k x) -> consistent (view k y).
Proof. intros H. exact H. Qed.

Lemma store_consistent (k : Component) (j : nat) (st : State) (x : Run) :
  consistent st -> consistent (view (store k j st) x).
Proof. intros H. exact H. Qed.

Lemma component_step_consistent (k : Component) (ev : ComponentEvent) (x : Run) :
  consistent (view k x) -> consistent (view (fst (component_step k ev)) x).
Proof.
  intros H. destruct ev as [j e |]; cbn [component_step].
  - destruct (effect_runs k !! j) as [y |]; [| exact H].
    pose proof (step_consistent (view k y) e (view_consistent k x y H)) as Hs.
    destruct (step (view k y) e) as [st es]. cbn [fst] in *.
    apply store_consistent. exact Hs.
  - assert (H1 : consistent
                   (view (fst (match effect_runs k !! pred (length (effect_runs k)) with
                               | Some y =>
                                   let '(st, es) := cleanup (view k y) in
                                   (store k (pred (length (effect_runs k))) st, es)
                               | None => (k, [])
                               end)) x)).
    { destruct (effect_runs k !! pred (length (effect_runs k))) as [y |]; [| exact H].
      pose proof (step_consistent (view k y) Cleanup (view_consistent k x y H)) as Hs.
      cbn [step] in Hs. destruct (cleanup (view k y)) as [st es]. cbn [fst] in *.
      apply store_consistent. exact Hs. }
    destruct (match effect_runs k !! pred (length (effect_runs k)) with
              | Some y => _
              | None => _
              end) as [k1 es1].
    cbn [fst] in *. exact H1.
Qed.

Lemma component_steps_consistent (evs : list ComponentEvent) (k : Component) (x : Run) :
  consistent (view k x) -> consistent (view (fst (component_steps k evs)) x).
Proof.
  revert k. induction evs as [| ev evs IH]; intros k H; [exact H |].
  cbn [component_steps].
  pose proof (component_step_consistent k ev x H) as H1.
  destruct (component_step k ev) as [k1 es1]. cbn [fst] in H1.
  specialize (IH k1 H1). destruct (component_steps k1 evs) as [k2 es2]. exact IH.
Qed.

(** A mounted ProcessingStatus never has two intervals running, however
    often its effect is re-run: over any sequence of re-runs, cleanups,
    ticks and settled requests - requests of earlier runs that settle late
    included - at most one interval is live, and it is the one
    [pollingRef] points to. *)
Theorem at_most_one_interval (evs : list ComponentEvent) :
  let k := fst (component_steps first_mount evs) in
  length (live k) <= 1
  /\ (forall id, id ∈ live k -> ref k = Some id).
Proof.
  intros k.
  assert (H : consistent (view k (Build_Run false false 0))).
  { apply component_steps_consistent. unfold consistent. simpl. auto. }
  destruct H as (_ & H). cbn [view pollingRef timers next_timer] in H.
  destruct (ref k) as [id |].
  - destruct H as (-> & _). split; [simpl; lia |].
    intros id' Hin. apply list_elem_of_singleton in Hin. congruence.
  - rewrite H. split; [simpl; lia |]. intros id Hin. inversion Hin.
Qed.

(** When the initial POST settles with anything but a 202, the caller
    hears back exactly once unless the effect was cancelled, in which case
    it hears nothing; either way no interval is installed and no status
    check is made.  A resolved POST reports completion, a rejected one an
    error. *)
Theorem startProcessing_reports_once (st : State) (r : AxiosResult) :
  post_pending st = true ->
  accepted_202 r = false ->
  let out := step st (PostSettled r) in
  snd out
  = (if cancelled st then []
     else match r with
          | AxResolved _ payload => [OnComplete (unwrap_result payload)]
          | AxRejected response _ => [OnError (errorMessage response)]
          end)
  /\ count is_callback (snd out) = (if cancelled st then 0 else 1)
  /\ timers (fst out) = timers st
  /\ pollingRef (fst out) = pollingRef st.
Proof.
  intros Hp Hr out. subst out. cbn [step]. rewrite Hp.
  rewrite (startProcessing_settled r _ Hr). cbn [fst snd].
  destruct st as [c ref ts nxt pp n]. cbn.
  destruct c; [auto |]. destruct r; auto.
Qed.




End IntervalMore.

(** ** ClauseVisualizer: isolation, unmounting, persisting *)

Section EnrichmentMore.
Import ClauseVisualizer.

Lemma references_block_keys (m : bool) (docType : string) (c : Clause.t) :
  Forall (fun e => effect_key e = Some (Clause.id c))
         (snd (references_block m docType c))
  /\ (m = false ->
      forallb (fun e => negb (is_cache_write e)) (snd (references_block m docType c))
      = true).
Proof.
  unfold references_block.
  destruct (lacks (Clause.legal_references c) && nonempty (Clause.clause_text c)).
  - split; [repeat constructor | reflexivity].
  - destruct (present (Clause.legal_references c)); destruct m;
      split; try (repeat constructor); try reflexivity; discriminate.
Qed.

Lemma resume_keys (m : bool) (docType : string) (c : Clause.t) (ph : Phase)
    (resp : Response EnrichData) :
  Forall (fun e => effect_key e = Some (Clause.id c) \/ e = ConsoleWarn)
         (snd (fetchForClause_resume m docType c ph resp))
  /\ (m = false ->
      forallb (fun e => negb (is_cache_write e))
              (snd (fetchForClause_resume m docType c ph resp)) = true).
Proof.
  destruct (references_block_keys m docType c) as [Hk Hw].
  assert (Hk' : Forall (fun e => effect_key e = Some (Clause.id c) \/ e = ConsoleWarn)
                       (snd (references_block m docType c)))
    by (eapply Forall_impl; [exact Hk | auto]).
  assert (Hwarn : Forall (fun e => effect_key e = Some (Clause.id c) \/ e = ConsoleWarn)
                         [ConsoleWarn]
                  /\ (m = false ->
                      forallb (fun e => negb (is_cache_write e)) [ConsoleWarn] = true))
    by (split; [constructor; [right; reflexivity | constructor] | reflexivity]).
  destruct ph; cbn [fetchForClause_resume].
  - destruct resp as [msg | s [msg | data]]; [exact Hwarn | |].
    + destruct (ok s); [exact Hwarn | split; [exact Hk' | exact Hw]].
    + destruct (ok s); [| split; [exact Hk' | exact Hw]].
      destruct (references_block m docType c) as [ph' es']. cbn [fst snd] in *.
      split.
      * apply Forall_app. split; [| exact Hk'].
        destruct (m && truthy (data_scenarios data)); repeat constructor.
      * intros ->. cbn. apply Hw. reflexivity.
  - destruct resp as [msg | s [msg | data]]; [exact Hwarn | |].
    + destruct (ok s); [exact Hwarn | split; [constructor | reflexivity]].
    + destruct (ok s); [| split; [constructor | reflexivity]].
      cbn [fst snd]. split.
      * destruct (m && truthy (data_references data)); repeat constructor.
      * intros ->. reflexivity.
  - split; [constructor | reflexivity].
Qed.

(** Enrichment is isolated per clause: when a request of one call settles -
    with a result, a non-OK status or a failure - every other call of the
    run stays exactly where it was, the run's flag and document type are
    unchanged, and every effect produced is about that call's clause id
    (or is the warning). *)
Theorem settle_is_isolated (r : EffectRun) (j : nat) (resp : Response EnrichData)
    (c : Clause.t) (ph : Phase) :
  calls r !! j = Some (c, ph) ->
  let out := settle r j resp in
  (forall j', j' <> j -> calls (fst out) !! j' = calls r !! j')
  /\ (exists ph', calls (fst out) !! j = Some (c, ph'))
  /\ mounted (fst out) = mounted r
  /\ length (calls (fst out)) = length (calls r)
  /\ Forall (fun e => effect_key e = Some (Clause.id c) \/ e = ConsoleWarn) (snd out).
Proof.
  intros Hj out. subst out. unfold settle. rewrite Hj.
  destruct (resume_keys (mounted r) (run_documentType r) c ph resp) as [Hk _].
  destruct (fetchForClause_resume (mounted r) (run_documentType r) c ph resp)
    as [ph' es].
  cbn [fst snd calls mounted] in *.
  split; [| split; [| split; [| split]]].
  - intros j' Hne. apply list_lookup_insert_ne. congruence.
  - exists ph'. apply list_lookup_insert_eq. apply lookup_lt_Some in Hj. exact Hj.
  - reflexivity.
  - apply length_insert.
  - exact Hk.
Qed.

Lemma fold_apply_no_write (es : list Effect) (k : Component) :
  forallb (fun e => negb (is_cache_write e)) es = true ->
  scenariosById (fold_left (fun k e => apply e k) es k) = scenariosById k
  /\ referencesById (fold_left (fun k e => apply e k) es k) = referencesById k.
Proof.
  revert k. induction es as [| e es IH]; intros k H; [auto |].
  simpl in H. apply andb_true_iff in H as [He Hes].
  simpl. destruct (IH (apply e k) Hes) as [-> ->].
  destruct e; try discriminate; auto.
Qed.

(** The stale-response guard of the visualizer: once a run of the effect
    has been cleaned up, a request of that run that settles afterwards
    never writes to the scenario or reference cache, whatever it
    returns. *)
Theorem unmounted_run_never_writes (k : Component) (i j : nat)
    (resp : Response EnrichData) (r : EffectRun) :
  runs k !! i = Some r ->
  mounted r = false ->
  let out := step k (Settle i j resp) in
  scenariosById (fst out) = scenariosById k
  /\ referencesById (fst out) = referencesById k
  /\ forallb (fun e => negb (is_cache_write e)) (snd out) = true.
Proof.
  intros Hr Hm out. subst out. cbn [step]. rewrite Hr. unfold settle.
  destruct (calls r !! j) as [[c ph] |]; [| cbn; auto].
  destruct (resume_keys (mounted r) (run_documentType r) c ph resp) as [_ Hw].
  specialize (Hw Hm).
  destruct (fetchForClause_resume (mounted r) (run_documentType r) c ph resp)
    as [ph' es].
  cbn [fst snd] in *.
  destruct (fold_apply_no_write es
              (set_runs (<[i := Build_EffectRun (mounted r) (run_documentType r)
                                                (<[j := (c, ph')]> (calls r))]>
                           (runs k)) k) Hw) as [-> ->].
  auto.
Qed.

(** A what-if request that is rejected, or whose body cannot be decoded,
    ends the call: the legal-reference request for that clause is never
    made.  A what-if response that merely has a non-OK status does not: for
    a clause with text and no references the legal-reference request
    follows. *)
Theorem rejected_scenarios_skip_references (m : bool) (docType : string)
    (c : Clause.t) (msg : string) (s : nat) :
  lacks (Clause.legal_references c) = true ->
  nonempty (Clause.clause_text c) = true ->
  fetchForClause_resume m docType c AwaitScenarios (Rejected msg)
  = (Returned, [ConsoleWarn])
  /\ (ok s = true ->
      fetchForClause_resume m docType c AwaitScenarios (Resolved s (inl msg))
      = (Returned, [ConsoleWarn]))
  /\ (ok s = false ->
      forall body,
        fetchForClause_resume m docType c AwaitScenarios (Resolved s body)
        = (AwaitReferences,
           [Fetch LegalKnowledgeGraph (Clause.id c) (body_of docType c)])).
Proof.
  intros Hl Hn. split; [reflexivity | split].
  - intros Hok. cbn. rewrite Hok. reflexivity.
  - intros Hok body. cbn. rewrite Hok. unfold references_block.
    rewrite Hl, Hn. reflexivity.
Qed.

(** Persisting fails quietly: without a document id nothing happens at all;
    when the request is rejected, answered with a non-OK status or with an
    undecodable body, the parent is told nothing (neither onPersist nor
    onClose), the saved count is not set, and the saving flag is reset;
    only an OK answer reaches the parent, first onPersist with the inserted
    clauses, then onClose. *)
Theorem handlePersist_failure_is_silent (k : Component) (clauses : list Clause.t)
    (hp hc : bool) (r : Response PersistData) :
  handlePersist_start None k clauses = (false, [])
  /\ handlePersist_start (Some EmptyString) k clauses = (false, [])
  /\ (App.succeeded r = false ->
      Forall (fun e => e = PersistWarn \/ e = SetSaving false)
             (handlePersist_resume hp hc r)
      /\ last (handlePersist_resume hp hc r) = Some (SetSaving false))
  /\ (forall s data, r = Resolved s (inr data) -> ok s = true ->
        handlePersist_resume true true r
        = [SetSavedCount (default 0%Z (data_count data));
           OnPersist (default [] (data_inserted data)); OnClose; SetSaving false]).
Proof.
  split; [reflexivity | split; [reflexivity | split]].
  - assert (H2 : Forall (fun e => e = PersistWarn \/ e = SetSaving false)
                        [PersistWarn; SetSaving false])
      by (constructor; [left; reflexivity |];
          constructor; [right; reflexivity | constructor]).
    assert (H1 : Forall (fun e => e = PersistWarn \/ e = SetSaving false)
                        [SetSaving false])
      by (constructor; [right; reflexivity | constructor]).
    destruct r as [msg | s [msg | data]]; cbn [App.succeeded handlePersist_resume].
    + intros _. split; [exact H2 | reflexivity].
    + intros _. destruct (ok s); (split; [assumption | reflexivity]).
    + intros ->. split; [exact H1 | reflexivity].
  - intros s data -> Hok. cbn. rewrite Hok. reflexivity.
Qed.

Lemma references_block_not_scenarios (m : bool) (docType : string) (c : Clause.t)
    (k : Component) :
  scenariosById (fold_left (fun k e => apply e k) (snd (references_block m docType c)) k)
  = scenariosById k.
Proof.
  unfold references_block.
  destruct (lacks (Clause.legal_references c) && nonempty (Clause.clause_text c));
    [reflexivity |].
  destruct (present (Clause.legal_references c)); destruct m; reflexivity.
Qed.

Lemma start_keys (docType : string) (c : Clause.t) :
  Forall (fun e => effect_key e = Some (Clause.id c))
         (snd (fetchForClause_start true docType c)).
Proof.
  unfold fetchForClause_start.
  destruct (lacks (Clause.scenarios c) && nonempty (Clause.clause_text c));
    [repeat constructor |].
  destruct (references_block_keys true docType c) as [Hk _].
  destruct (references_block true docType c) as [ph es]. cbn [fst snd] in *.
  apply Forall_app. split; [| exact Hk].
  destruct (present (Clause.scenarios c) && true); repeat constructor.
Qed.

Lemma start_all_keys (docType : string) (clauses : list Clause.t) :
  Forall (fun e => exists c, c ∈ clauses /\ effect_key e = Some (Clause.id c))
         (snd (start_all docType clauses)).
Proof.
  induction clauses as [| c cs IH]; [constructor |].
  cbn [start_all]. pose proof (start_keys docType c) as Hc.
  destruct (fetchForClause_start true docType c) as [ph es].
  destruct (start_all docType cs) as [calls es']. cbn [fst snd] in *.
  apply Forall_app. split.
  - eapply Forall_impl; [exact Hc |]. intros e He. exists c. split; [left | exact He].
  - eapply Forall_impl; [exact IH |]. intros e (c' & Hin & He).
    exists c'. split; [right; exact Hin | exact He].
Qed.

Lemma fold_apply_other_keys (i : string) (es : list Effect) (k : Component) :
  Forall (fun e => effect_key e <> Some i) es ->
  scenariosById (fold_left (fun k e => apply e k) es k) !! i = scenariosById k !! i.
Proof.
  revert k. induction es as [| e es IH]; intros k H; [reflexivity |].
  inversion H as [| ? ? He Hes]; subst. simpl. rewrite (IH _ Hes).
  destruct e; cbn in *; try reflexivity.
  apply lookup_insert_ne. congruence.
Qed.

Lemma start_writes_scenarios (docType : string) (c : Clause.t) (l : list Json)
    (k : Component) :
  Clause.scenarios c = Some l -> l <> [] ->
  scenariosById (fold_left (fun k e => apply e k)
                           (snd (fetchForClause_start true docType c)) k)
  !! Clause.id c = Some (JArr l).
Proof.
  intros Hs Hl. unfold fetchForClause_start, lacks, present, lacks. rewrite Hs.
  destruct l as [| x l]; [congruence |]. cbn [andb negb].
  pose proof (references_block_not_scenarios true docType c) as Hr.
  destruct (references_block true docType c) as [ph es]. cbn [fst snd] in *.
  rewrite fold_left_app, Hr. cbn. apply lookup_insert_eq.
Qed.

Lemma start_all_writes_scenarios (docType : string) (clauses : list Clause.t)
    (c : Clause.t) (l : list Json) :
  forall k,
    NoDup (map Clause.id clauses) -> c ∈ clauses ->
    Clause.scenarios c = Some l -> l <> [] ->
    scenariosById (fold_left (fun k e => apply e k) (snd (start_all docType clauses)) k)
    !! Clause.id c = Some (JArr l).
Proof.
  induction clauses as [| c' cs IH]; intros k Hnd Hin Hs Hl; [inversion Hin |].
  cbn [map] in Hnd. apply NoDup_cons in Hnd as [Hni Hnd].
  cbn [start_all].
  pose proof (start_writes_scenarios docType c l k Hs Hl) as Hw.
  pose proof (start_all_keys docType cs) as Hk.
  destruct (fetchForClause_start true docType c') as [ph es] eqn:E.
  destruct (start_all docType cs) as [calls es']. cbn [fst snd] in *.
  rewrite fold_left_app.
  apply elem_of_cons in Hin as [-> | Hin].
  - rewrite E in Hw. cbn [snd] in Hw. rewrite fold_apply_other_keys; [exact Hw |].
    eapply Forall_impl; [exact Hk |]. intros e (c'' & Hc'' & He) Heq.
    rewrite He in Heq. injection Heq as Heq. apply Hni.
    rewrite <- Heq. apply list_elem_of_fmap. exists c''. auto.
  - apply IH; assumption.
Qed.

(** Scenarios a clause arrives with reach the backend when the clauses are
    persisted: after the visualizer's first render of a clause list with
    distinct ids, the cache holds the scenarios of every clause that came
    with a non-empty list, and the persist payload carries them for that
    clause. *)
Theorem arriving_scenarios_are_persisted (docType : string)
    (clauses : list Clause.t) (c : Clause.t) (l : list Json) :
  NoDup (map Clause.id clauses) -> c ∈ clauses ->
  Clause.scenarios c = Some l -> l <> [] ->
  let k := fst (step initial (Render docType clauses)) in
  scenariosById k !! Clause.id c = Some (JArr l)
  /\ exists p, p ∈ payloadClauses k clauses
              /\ p_clause_text p = Clause.clause_text c
              /\ p_scenarios p = Some (JArr l).
Proof.
  intros Hnd Hin Hs Hl k.
  assert (Hk : scenariosById k !! Clause.id c = Some (JArr l)).
  { subst k. cbn [step]. unfold effect_run.
    pose proof (start_all_writes_scenarios docType clauses c l) as H.
    destruct (start_all docType clauses) as [cs es]. cbn [fst snd] in *.
    apply H; assumption. }
  split; [exact Hk |].
  eexists. split.
  - unfold payloadClauses. apply list_elem_of_fmap. exists c. split; [reflexivity | exact Hin].
  - cbn. unfold cached. rewrite Hk. auto.
Qed.

End EnrichmentMore.

(** ** ChatInterface: the persisted flag *)

Section PersistedFlag.
Import ChatInterface.

(** The existence check fails open: the document's flag becomes true exactly
    when the answer is OK, decodable and carries a non-empty clause array,
    and false in every other case; the flags of other documents, the clause
    list and the toast are untouched; and if the effect was cleaned up
    before the answer arrived nothing is written at all. *)
Theorem checkPersisted_fails_open (st : State) (documentId : string)
    (r : Response PersistedData) :
  (let st' := run (checkPersisted_resume true documentId r) st in
   persistedByDocument st' !! documentId = Some (stored r)
   /\ (forall d, d <> documentId ->
         persistedByDocument st' !! d = persistedByDocument st !! d)
   /\ clauses st' = clauses st /\ toast st' = toast st)
  /\ run (checkPersisted_resume false documentId r) st = st.
Proof.
  split; [| destruct r as [msg | s [msg | data]]; cbn; try destruct (ok s); reflexivity].
  assert (H : forall b,
    let st' := run [SetPersisted documentId b] st in
    persistedByDocument st' !! documentId = Some b
    /\ (forall d, d <> documentId ->
          persistedByDocument st' !! d = persistedByDocument st !! d)
    /\ clauses st' = clauses st /\ toast st' = toast st).
  { intros b. cbn. split; [apply lookup_insert_eq | split; [| auto]].
    intros d Hd. apply lookup_insert_ne. congruence. }
  destruct r as [msg | s [msg | data]]; cbn [checkPersisted_resume stored].
  - apply H.
  - destruct (ok s); apply H.
  - destruct (ok s); cbn [andb]; apply H.
Qed.

(** Persist followed by undo of the ids that were inserted: whatever the
    flag was before, it is true after the persist callback and false after
    the undo succeeded; the undo removes exactly the clauses with those ids;
    and the Undo toast is offered if and only if some inserted clause has a
    non-empty id. *)
Theorem persist_then_undo (st : State) (documentId : string)
    (inserted : list Clause.t) (s : nat) (body : string + unit) :
  ok s = true ->
  let ids := inserted_ids inserted in
  let st1 := run (onPersist documentId inserted) st in
  let st2 := run (onAction_resume documentId ids (Resolved s body)) st1 in
  persistedByDocument st1 !! documentId = Some true
  /\ clauses st1 = clauses st
  /\ (ids = [] -> toast st1 = toast st)
  /\ (ids <> [] -> exists msg, toast st1 = Some (msg, ids))
  /\ persistedByDocument st2 !! documentId = Some false
  /\ clauses st2 = without ids (clauses st)
  /\ (forall d, d <> documentId ->
        persistedByDocument st2 !! d = persistedByDocument st !! d).
Proof.
  intros Hok ids st1 st2. subst st2 st1. unfold onAction_resume. rewrite Hok.
  unfold onPersist. fold ids. destruct ids as [| i ids'] eqn:E.
  - cbn. repeat split; auto; try apply lookup_insert_eq.
    + congruence.
    + intros d Hd. rewrite !lookup_insert_ne by congruence. reflexivity.
  - cbn. repeat split; auto; try apply lookup_insert_eq.
    + discriminate.
    + intros _. eexists. reflexivity.
    + intros d Hd. rewrite !lookup_insert_ne by congruence. reflexivity.
Qed.

End PersistedFlag.

(** ** ChatInterface: the visualize button and its retry poll *)

Section RetryPoll.
Import Visualize.

Variables (documentId file_name : string).

Lemma vz_count_app (f : Effect -> bool) (es1 es2 : list Effect) :
  count f (es1 ++ es2) = count f es1 + count f es2.
Proof. unfold count. rewrite List.filter_app, length_app. reflexivity. Qed.

Lemma vz_steps_cons (p : Proc) (ev : Event) (evs : list Event) :
  steps documentId file_name p (ev :: evs)
  = (fst (steps documentId file_name (fst (step documentId file_name p ev)) evs),
     snd (step documentId file_name p ev)
       ++ snd (steps documentId file_name (fst (step documentId file_name p ev)) evs)).
Proof.
  simpl. destruct (step documentId file_name p ev) as [p1 es1].
  simpl. destruct (steps documentId file_name p1 evs) as [p2 es2]. reflexivity.
Qed.

Lemma next_cases (i : nat) :
  i < maxPolls ->
  next i = (Sleep (S i), [SetTimeout 2000]) /\ S i < maxPolls
  \/ next i = (Returned, [SetToast (Some timeoutToast)]) /\ S i = maxPolls.
Proof.
  intros Hi. unfold next.
  destruct (Nat.ltb_spec (S i) maxPolls); [left; auto | right; split; [reflexivity | lia]].
Qed.

Ltac vz_counts :=
  unfold poll_inv; rewrite ?vz_count_app; unfold count, maxPolls in *; simpl; lia.

Lemma next_inv (i : nat) (es : list Effect) :
  i < maxPolls -> count is_status_check es = S i ->
  count is_analysis es <= S i -> count is_outcome es = 0 ->
  poll_inv (fst (next i)) (es ++ snd (next i)).
Proof.
  intros Hi Hc Ha Ho.
  destruct (next_cases i Hi) as [[-> Hlt] | [-> Heq]]; cbn [fst snd]; vz_counts.
Qed.

#[local] Arguments next : simpl never.

Lemma vz_step_inv (p : Proc) (ev : Event) (es : list Effect) :
  poll_inv p es ->
  poll_inv (fst (step documentId file_name p ev))
           (es ++ snd (step documentId file_name p ev)).
Proof.
  intros Hinv.
  destruct p as [| i | i | i | | msg]; try contradiction;
    destruct ev as [r | | r | r]; cbn [step];
    try (cbn [fst snd]; rewrite app_nil_r; exact Hinv).
  - destruct Hinv as (Hi & Hc & Ha & Ho). cbn [fst snd]. vz_counts.
  - destruct Hinv as (Hi & Hc & Ha & Ho).
    destruct r as [msg | s [msg | b]].
    + cbn [fst snd]. vz_counts.
    + destruct (s =? 404); [cbn [fst snd]; vz_counts |].
      destruct (ok s); [cbn [fst snd]; vz_counts |].
      apply next_inv; [assumption | assumption | lia | assumption].
    + destruct (s =? 404); [cbn [fst snd]; vz_counts |].
      destruct (ok s); [| apply next_inv; [assumption | assumption | lia | assumption]].
      destruct (bool_decide (body_status b = Some "done"%string));
        [cbn [fst snd]; vz_counts |].
      destruct (bool_decide (body_status b = Some "error"%string));
        [cbn [fst snd]; vz_counts |].
      apply next_inv; [assumption | assumption | lia | assumption].
  - destruct Hinv as (Hi & Hc & Ha & Ho).
    destruct r as [msg | s [msg | data]].
    + cbn [fst snd]. vz_counts.
    + destruct (ok s); [cbn [fst snd]; vz_counts | apply next_inv; assumption].
    + destruct (ok s); [cbn [fst snd]; vz_counts | apply next_inv; assumption].
Qed.

Lemma vz_steps_inv (evs : list Event) (p : Proc) (es : list Effect) :
  poll_inv p es ->
  poll_inv (fst (steps documentId file_name p evs))
           (es ++ snd (steps documentId file_name p evs)).
Proof.
  revert p es. induction evs as [| ev evs IH]; intros p es Hinv.
  - simpl. rewrite app_nil_r. exact Hinv.
  - rewrite vz_steps_cons. cbn [fst snd]. rewrite app_assoc.
    apply IH, vz_step_inv, Hinv.
Qed.

(** The retry poll behind the "Start processing" toast action is bounded
    and ends with one outcome: once processing was accepted, it makes at
    most 60 status checks and at most 60 analysis requests over any
    sequence of events, and whenever it returns it has produced exactly one
    outcome - one toast, or the visualizer opening. *)
Theorem retry_poll_is_bounded (s : nat) (body : string + string) (evs : list Event) :
  ok s || (s =? 202) = true ->
  let out := steps documentId file_name AwaitStart
               (StartResponse (Resolved s body) :: evs) in
  count is_status_check (snd out) <= maxPolls
  /\ count is_analysis (snd out) <= maxPolls
  /\ count is_outcome (snd out) <= 1
  /\ (fst out = Returned -> count is_outcome (snd out) = 1).
Proof.
  intros Hs out. subst out. rewrite vz_steps_cons. cbn [step]. rewrite Hs.
  cbn [fst snd].
  pose proof (vz_steps_inv evs (Sleep 0) [SetTimeout 2000]) as H.
  destruct (steps documentId file_name (Sleep 0) evs) as [p es]. cbn [fst snd] in *.
  assert (H0 : poll_inv (Sleep 0) [SetTimeout 2000])
    by (unfold poll_inv, count, maxPolls; simpl; lia).
  specialize (H H0). destruct p; cbn [poll_inv] in H; try contradiction;
    repeat split; try lia; try discriminate.
Qed.

Lemma vz_pending_step (i : nat) (r : Response StatusBody) :
  pending r = true ->
  step documentId file_name (AwaitStatus i) (StatusResponse r) = next i.
Proof.
  destruct r as [msg | s body]; cbn [pending step]; [discriminate |].
  intros H. apply andb_true_iff in H as [H404 H].
  apply negb_true_iff in H404. rewrite H404.
  destruct (ok s); [| reflexivity].
  destruct body as [msg | b]; [discriminate |].
  simpl in H. apply andb_true_iff in H as [Hd He].
  apply negb_true_iff in Hd, He. rewrite Hd, He. reflexivity.
Qed.

Lemma vz_all_pending (rs : list (Response StatusBody)) :
  forall (r : Response StatusBody) (i : nat),
    i + S (length rs) = maxPolls ->
    Forall (fun r => pending r = true) (r :: rs) ->
    exists es,
      steps documentId file_name (Sleep i) (rounds (r :: rs))
      = (Returned, es ++ [SetToast (Some timeoutToast)])
      /\ count is_status_check es = S (length rs)
      /\ count is_analysis es = 0
      /\ count is_outcome es = 0.
Proof.
  induction rs as [| r' rs IH]; intros r i Hi Hall;
    inversion Hall as [| ? ? Hr Hrest]; subst;
    assert (Hlt : i < maxPolls) by (simpl in Hi; lia).
  - cbn [rounds flat_map app]. rewrite vz_steps_cons. cbn [step fst snd].
    rewrite vz_steps_cons, (vz_pending_step i r Hr).
    destruct (next_cases i Hlt) as [[_ Hc] | [-> _]]; [simpl in Hi; lia |].
    exists [Fetch (GetStatus file_name)]. cbn. auto.
  - change (rounds (r :: r' :: rs))
      with (TimerFired :: StatusResponse r :: rounds (r' :: rs)).
    rewrite vz_steps_cons. cbn [step fst snd]. rewrite vz_steps_cons.
    rewrite (vz_pending_step i r Hr).
    destruct (next_cases i Hlt) as [[-> _] | [_ Hc]]; [| simpl in Hi; lia].
    destruct (IH r' (S i)) as (es & Hes & Hc & Ha & Ho);
      [simpl in *; lia | exact Hrest |].
    cbn [fst snd]. rewrite Hes. cbn [fst snd].
    exists (Fetch (GetStatus file_name) :: SetTimeout 2000 :: es).
    split; [reflexivity |]. unfold count in *. simpl. rewrite Hc, Ha, Ho. auto.
Qed.

(** If every one of the 60 status checks of the retry poll is pending, the
    poll gives up with the time-out toast as its only outcome, having asked
    exactly 60 times and never for an analysis. *)
Theorem retry_poll_times_out (s : nat) (body : string + string)
    (rs : list (Response StatusBody)) :
  ok s || (s =? 202) = true ->
  length rs = maxPolls ->
  Forall (fun r => pending r = true) rs ->
  exists es,
    steps documentId file_name AwaitStart
      (StartResponse (Resolved s body) :: rounds rs)
    = (Returned, es ++ [SetToast (Some timeoutToast)])
    /\ count is_status_check es = maxPolls
    /\ count is_analysis es = 0
    /\ count is_outcome es = 0.
Proof.
  intros Hs Hlen Hall. destruct rs as [| r rs]; [discriminate |].
  destruct (vz_all_pending rs r 0) as (es & Hes & Hc & Ha & Ho);
    [simpl in Hlen; simpl; lia | exact Hall |].
  rewrite vz_steps_cons. cbn [step]. rewrite Hs. cbn [fst snd]. rewrite Hes.
  cbn [fst snd]. exists (SetTimeout 2000 :: es). split; [reflexivity |].
  unfold count in *. simpl. rewrite Hc, Ha, Ho. simpl in Hlen. auto.
Qed.

End RetryPoll.

Section VisualizeClick.
Import Visualize.

Lemma checkPersisted_flag (st : ChatInterface.State) (documentId : string)
    (r : Response ChatInterface.PersistedData) :
  ChatInterface.persistedByDocument
    (ChatInterface.run (ChatInterface.checkPersisted_resume true documentId r) st)
  !! documentId = Some (ChatInterface.stored r).
Proof.
  destruct r as [msg | s [msg | data]]; cbn; try destruct (ok s); cbn;
    apply lookup_insert_eq.
Qed.

(** Which analysis the button asks for follows the existence check: after a
    check that found stored analyses the stored set is loaded; after a
    check that failed in any way, or found none, and equally while no check
    has answered for the document, a fresh analysis is requested. *)
Theorem visualize_follows_check (st : ChatInterface.State) (documentId : string)
    (r : Response ChatInterface.PersistedData) :
  click_start
    (ChatInterface.persistedByDocument
       (ChatInterface.run (ChatInterface.checkPersisted_resume true documentId r) st))
    documentId
  = [SetVisualizerLoading true;
     Fetch (if ChatInterface.stored r then GetPersisted documentId
            else GetAnalysis documentId)]
  /\ (ChatInterface.persistedByDocument st !! documentId = None ->
      click_start (ChatInterface.persistedByDocument st) documentId
      = [SetVisualizerLoading true; Fetch (GetAnalysis documentId)]).
Proof.
  split.
  - unfold click_start, flagged. rewrite checkPersisted_flag. reflexivity.
  - intros H. unfold click_start, flagged. rewrite H. reflexivity.
Qed.

End VisualizeClick.

(** ** Text helpers *)

Section Text.

Lemma length_append (s1 s2 : string) :
  String.length (s1 +:+ s2) = String.length s1 + String.length s2.
Proof. induction s1 as [| c s1 IH]; simpl; [reflexivity | rewrite IH; reflexivity]. Qed.

Lemma length_prefix (n : nat) (s : string) :
  String.length (String.substring 0 n s) = Nat.min n (String.length s).
Proof.
  revert s. induction n as [| n IH]; intros [| c s]; simpl; try reflexivity.
  rewrite IH. reflexivity.
Qed.

Lemma length_substring_le (a n : nat) (s : string) :
  String.length (String.substring a n s) <= n.
Proof.
  revert a n. induction s as [| c s IH]; intros [| a] [| n]; simpl; try lia.
  - specialize (IH 0 n). lia.
  - apply (IH a 0).
  - apply (IH a (S n)).
Qed.

Lemma prefix_all (s : string) (n : nat) :
  String.length s <= n -> String.substring 0 n s = s.
Proof.
  revert n. induction s as [| c s IH]; intros [| n] H; simpl in *; try reflexivity; try lia.
  rewrite IH by lia. reflexivity.
Qed.

Lemma prefix_snoc (n : nat) (s : string) :
  n < String.length s ->
  exists c, String.get n s = Some c
            /\ String.substring 0 n s +:+ String c EmptyString
               = String.substring 0 (S n) s.
Proof.
  revert s. induction n as [| n IH]; intros [| c s] H; simpl in *; try lia.
  - exists c. split; [reflexivity |]. destruct s; reflexivity.
  - destruct (IH s) as (c' & Hg & He); [lia |].
    exists c'. split; [exact Hg |].
    change (String.substring 0 (S (S n)) (String c s))
      with (String c (String.substring 0 (S n) s)).
    rewrite <- He. reflexivity.
Qed.

End Text.

Section Typing.
Import TypingAnimation.

Variables (text : string) (has_onComplete : bool).

Lemma tick_shown (k : nat) :
  k < String.length text ->
  tick text has_onComplete (shown text k)
  = (shown text (S k),
     if S k <? String.length text then []
     else if has_onComplete then [OnComplete] else []).
Proof.
  intros Hk. unfold tick, shown. cbn [timer displayedText currentIndex].
  destruct (Nat.ltb_spec k (String.length text)); [| lia].
  destruct (prefix_snoc k text Hk) as (c & Hg & He).
  unfold append_unit. rewrite Hg, He. unfold effect.
  cbn [currentIndex displayedText].
  destruct (S k <? String.length text); reflexivity.
Qed.

Lemma tick_done (k : nat) :
  String.length text <= k ->
  tick text has_onComplete (shown text k) = (shown text k, []).
Proof.
  intros Hk. unfold tick, shown. cbn [timer].
  destruct (Nat.ltb_spec k (String.length text)); [lia | reflexivity].
Qed.

Lemma ticks_shown (n : nat) :
  forall k, k <= String.length text ->
    fst (ticks text has_onComplete n (shown text k))
    = shown text (Nat.min (k + n) (String.length text))
    /\ length (snd (ticks text has_onComplete n (shown text k)))
       = if has_onComplete && (k <? String.length text)
            && (String.length text <=? k + n)
         then 1 else 0.
Proof.
  induction n as [| n IH]; intros k Hk.
  - simpl. rewrite Nat.add_0_r, Nat.min_l by exact Hk.
    destruct (Nat.ltb_spec k (String.length text));
      destruct (Nat.leb_spec (String.length text) k);
      try lia; rewrite ?andb_false_r; auto.
  - cbn [ticks].
    destruct (Nat.eq_dec k (String.length text)) as [-> | Hne].
    + rewrite tick_done by lia.
      destruct (IH (String.length text)) as [H1 H2]; [lia |].
      destruct (ticks text has_onComplete n (shown text (String.length text)))
        as [st es]. cbn [fst snd] in *.
      rewrite Nat.ltb_irrefl, andb_false_r in *. cbn [andb] in *.
      split; [| exact H2].
      rewrite H1. f_equal. lia.
    + assert (Hlt : k < String.length text) by lia.
      rewrite (tick_shown k Hlt).
      destruct (IH (S k)) as [H1 H2]; [lia |].
      destruct (ticks text has_onComplete n (shown text (S k))) as [st es].
      cbn [fst snd] in *. split.
      * rewrite H1. f_equal. lia.
      * rewrite length_app, H2.
        destruct (Nat.ltb_spec k (String.length text)); [| lia].
        destruct (Nat.ltb_spec (S k) (String.length text));
          destruct (Nat.leb_spec (String.length text) (S k + n));
          destruct (Nat.leb_spec (String.length text) (k + S n));
          destruct has_onComplete; simpl; lia.
Qed.

(** The typing animation reveals the text one code unit per timeout: after
    [n] timeouts it shows exactly the first [n] units (all of the text once
    [n] reaches its length), the index is the number shown, and later
    timeouts change nothing.  The completion callback, if given, has been
    called exactly once when the whole text is shown and not at all
    before. *)
Theorem typing_reveals_prefix (n : nat) :
  let out := animate text has_onComplete n in
  displayedText (fst out) = String.substring 0 n text
  /\ currentIndex (fst out) = Nat.min n (String.length text)
  /\ (String.length text <= n -> displayedText (fst out) = text)
  /\ length (snd out)
     = if has_onComplete && (String.length text <=? n) then 1 else 0.
Proof.
  intros out. subst out. unfold animate, mount.
  assert (Hm : effect text has_onComplete (Build_State EmptyString 0 None)
               = (shown text 0,
                  if 0 <? String.length text then []
                  else if has_onComplete then [OnComplete] else [])).
  { unfold effect, shown. cbn [currentIndex displayedText].
    destruct (0 <? String.length text); destruct text; reflexivity. }
  rewrite Hm.
  destruct (ticks_shown n 0) as [H1 H2]; [lia |].
  destruct (ticks text has_onComplete n (shown text 0)) as [st es].
  cbn [fst snd] in *. subst st. cbn [Nat.add] in *.
  assert (Hd : displayedText (shown text (Nat.min n (String.length text)))
               = String.substring 0 n text).
  { unfold shown. cbn [displayedText].
    destruct (Nat.le_ge_cases n (String.length text)) as [Hle | Hge].
    - rewrite Nat.min_l by exact Hle. reflexivity.
    - rewrite Nat.min_r by exact Hge. rewrite !prefix_all by lia. reflexivity. }
  split; [exact Hd | split; [reflexivity | split]].
  - intros Hle. rewrite Hd. apply prefix_all. exact Hle.
  - rewrite length_app, H2.
    destruct (Nat.ltb_spec 0 (String.length text));
      destruct (Nat.leb_spec (String.length text) n);
      destruct has_onComplete; simpl; lia.
Qed.

End Typing.

Section Truncation.

(** The preview of a long text: at most [maxLength] units of it followed by
    three dots, so never longer than [maxLength + 3]; a text within the
    limit (the empty one included) is shown unchanged. *)
Theorem truncateText_bound (text : string) (maxLength : nat) :
  String.length (ResultsDisplay.truncateText text maxLength) <= maxLength + 3
  /\ (String.length text <= maxLength ->
      ResultsDisplay.truncateText text maxLength = text)
  /\ (maxLength < String.length text ->
      ResultsDisplay.truncateText text maxLength
      = String.substring 0 maxLength text +:+ "..."
      /\ String.length (ResultsDisplay.truncateText text maxLength) = maxLength + 3).
Proof.
  unfold ResultsDisplay.truncateText.
  destruct (String.eqb_spec text EmptyString) as [-> | Hne].
  - simpl. repeat split; lia.
  - destruct (Nat.leb_spec (String.length text) maxLength) as [Hle | Hgt].
    + repeat split; try lia.
    + assert (Hl : String.length (String.substring 0 maxLength text +:+ "...")
                   = maxLength + 3).
      { rewrite length_append, length_prefix. simpl. lia. }
      repeat split; lia.
Qed.

Import ChatSidebar.

Lemma clamp_le (len : nat) (z : Z) : clamp len z <= Z.to_nat z.
Proof. unfold clamp. lia. Qed.

Lemma clamp_zero (len : nat) : clamp len 0 = 0.
Proof. unfold clamp. lia. Qed.

Lemma clamp_negative (len : nat) (z : Z) : (z <= 0)%Z -> clamp len z = 0.
Proof. unfold clamp. lia. Qed.

Lemma js_substring_from_zero (s : string) (b : Z) :
  js_substring s 0 b = String.substring 0 (clamp (String.length s) b) s.
Proof.
  unfold js_substring. rewrite clamp_zero, Nat.min_0_l, Nat.max_0_l, Nat.sub_0_r.
  reflexivity.
Qed.

Lemma substring_zero (s : string) : String.substring 0 0 s = EmptyString.
Proof. destruct s; reflexivity. Qed.

Lemma split_dot_nonempty (s : string) : split_dot s <> [].
Proof.
  induction s as [| c s IH]; simpl; [discriminate |].
  destruct (Ascii.eqb c dot); [discriminate |].
  destruct (split_dot s); discriminate.
Qed.

Lemma without_dot (s : string) :
  has_dot s = false -> split_dot s = [s] /\ lastIndexOf_dot s = (-1)%Z.
Proof.
  induction s as [| c s IH]; simpl; [auto |].
  intros H. apply orb_false_iff in H as [Hc Hs].
  destruct (IH Hs) as [-> ->]. rewrite Hc. auto.
Qed.

(** The sidebar label of a long file name is short when the extension is:
    if the part after the last dot plus the three dots fit in [maxLength],
    the label has at most [maxLength + 1] units. *)
Theorem truncateFileName_bound (fileName : string) (maxLength : nat) :
  String.length (default EmptyString (last (split_dot fileName))) + 3 <= maxLength ->
  String.length (truncateFileName fileName maxLength) <= maxLength + 1.
Proof.
  intros Hext. unfold truncateFileName.
  destruct (Nat.leb_spec (String.length fileName) maxLength) as [Hle | Hgt]; [lia |].
  destruct (last (split_dot fileName)) as [e |] eqn:El; cbn [default] in Hext.
  - change (String.length e + 3 <= maxLength) in Hext.
    rewrite !length_append, js_substring_from_zero, length_prefix.
    pose proof (clamp_le
                  (String.length (js_substring fileName 0 (lastIndexOf_dot fileName)))
                  (Z.of_nat maxLength - 3 - Z.of_nat (String.length e))) as Hc.
    destruct (String.eqb e EmptyString); simpl; rewrite ?length_append; simpl; lia.
  - rewrite !length_append, js_substring_from_zero, length_prefix.
    pose proof (clamp_le
                  (String.length (js_substring fileName 0 (lastIndexOf_dot fileName)))
                  (Z.of_nat maxLength - 3 - Z.of_nat 0)) as Hc.
    simpl. lia.
Qed.

(** A long file name without any dot is not shortened at all: the whole
    name is taken for the extension, and the label is the name with four
    dots in front - four units longer than the name itself. *)
Theorem truncateFileName_without_dot (fileName : string) (maxLength : nat) :
  has_dot fileName = false ->
  maxLength < String.length fileName ->
  truncateFileName fileName maxLength = "...." +:+ fileName
  /\ String.length (truncateFileName fileName maxLength)
     = String.length fileName + 4.
Proof.
  intros Hd Hlen.
  assert (He : truncateFileName fileName maxLength = "...." +:+ fileName).
  { unfold truncateFileName.
    destruct (Nat.leb_spec (String.length fileName) maxLength); [lia |].
    destruct (without_dot fileName Hd) as [-> ->]. cbn [last].
    rewrite !js_substring_from_zero.
    rewrite (clamp_negative _ (-1)) by lia. rewrite substring_zero.
    cbn [String.length]. unfold clamp at 1.
    replace (Z.to_nat (Z.max 0 (Z.min _ (Z.of_nat 0)))) with 0 by lia.
    rewrite substring_zero.
    destruct (String.eqb_spec fileName EmptyString) as [-> | _];
      [simpl in Hlen; lia | reflexivity]. }
  split; [exact He |]. rewrite He, length_append. simpl. lia.
Qed.

(** Deleting a chat from the sidebar touches the selection only when the
    deleted document is the selected one and the DELETE was answered OK;
    in every other case the selection is kept.  The document list is
    refreshed only after an OK answer and only if the parent passed
    [onDocumentsChange]: it then becomes the list the refresh request
    returns, and stays as it was when that request fails.  The chat
    history, the loading flag and the error are never changed by it, and
    the delete spinner is always reset at the end. *)
Theorem sidebar_delete_scope (selected : option Document.t) (cb : bool)
    (doc : Document.t) (r : Response unit) (rd : Response App.DocumentsData)
    (st : App.State) :
  let es := delete_resume selected cb doc r in
  let st' := App.run (flat_map (in_app rd) es) st in
  App.selectedDocument st'
  = (if deleted r && is_selected selected doc then None else App.selectedDocument st)
  /\ App.documents st'
     = (if deleted r && cb then
          match rd with
          | Resolved s (inr data) =>
              if ok s then App.or_nil (App.data_documents data) else App.documents st
          | _ => App.documents st
          end
        else App.documents st)
  /\ App.chatHistory st' = App.chatHistory st
  /\ App.isLoading st' = App.isLoading st
  /\ App.error st' = App.error st
  /\ last es = Some (SetDeletingId None).
Proof.
  destruct st as [ds sel h l e].
  destruct r as [msg | s body]; cbn [delete_resume deleted].
  - cbn. auto 10.
  - destruct (ok s); [| cbn; auto 10].
    unfold is_selected.
    destruct selected as [d |]; [destruct (String.eqb _ _) |]; destruct cb;
      try (cbn; auto 10; fail);
      (destruct rd as [m | s' [m | data]]; [| destruct (ok s') eqn:E | destruct (ok s') eqn:E];
       cbn; rewrite ?E; cbn; auto 10).
Qed.

End Truncation.

(** ** Upload and the scenario panel *)

Section UploadAndPanel.

(** An upload answers the parent at most once and never both ways: the
    callback is issued exactly when the response resolved with a truthy
    file id, and then carries the response body itself as raw response; an
    error is never shown together with the callback; a resolved response
    whose file id is falsy gives neither - the upload just stops.  The
    uploading flag is reset in every case. *)
Theorem upload_answers_once (r : ProcessingStatus.AxiosResult) :
  let es := FileUpload.uploadFile_resume r in
  length (List.filter FileUpload.is_callback es)
  = (if FileUpload.has_file_id r then 1 else 0)
  /\ length (List.filter FileUpload.is_callback es)
     + length (List.filter FileUpload.is_error es) <= 1
  /\ (forall fid fname raw, FileUpload.OnFileUploaded fid fname raw ∈ es ->
        exists s, r = ProcessingStatus.AxResolved s raw)
  /\ (forall s data fid, r = ProcessingStatus.AxResolved s data ->
        prop data "file_id" = Some fid -> truthy fid = false ->
        es = [FileUpload.SetUploading false])
  /\ last es = Some (FileUpload.SetUploading false).
Proof.
  destruct r as [s data | resp msg]; cbn [FileUpload.uploadFile_resume FileUpload.has_file_id].
  - destruct (prop data "file_id") as [fid |] eqn:Ef.
    + assert (Hn : exists fname, prop data "filename" = Some fname).
      { destruct data; try discriminate; eexists; reflexivity. }
      destruct Hn as [fname ->].
      destruct (truthy fid) eqn:Et; cbn; repeat split; try lia.
      * intros f n raw H. apply list_elem_of_In in H.
        destruct H as [H | [H | []]]; [| discriminate].
        injection H as _ _ <-. eexists; reflexivity.
      * intros s' d' f' H Hp Ht. injection H as <- <-.
        rewrite Ef in Hp. injection Hp as <-. congruence.
      * intros f n raw H. apply list_elem_of_In in H.
        destruct H as [H | []]. discriminate.
    + cbn. repeat split; try lia.
      * intros f n raw H. apply list_elem_of_In in H.
        destruct H as [H | [H | []]]; discriminate.
      * intros s' d' f' H Hp. injection H as <- <-. congruence.
  - cbn. repeat split; try lia.
    + intros f n raw H. apply list_elem_of_In in H.
      destruct H as [H | [H | []]]; discriminate.
    + intros; discriminate.
Qed.

(** Dropping files starts an upload only when there is something to upload
    and nothing is going on: with no accepted file, or while a document is
    being processed or another upload is running, nothing happens. *)
Theorem onDrop_guard (n : nat) (isProcessing uploading : bool) :
  (n = 0 \/ isProcessing = true \/ uploading = true ->
   FileUpload.onDrop n isProcessing uploading = [])
  /\ (0 < n -> isProcessing = false -> uploading = false ->
      FileUpload.onDrop n isProcessing uploading = FileUpload.uploadFile_start).
Proof.
  unfold FileUpload.onDrop. split.
  - intros [-> | [-> | ->]]; [reflexivity | |].
    + destruct (0 <? n); reflexivity.
    + destruct (0 <? n), isProcessing; reflexivity.
  - intros Hn -> ->. destruct (Nat.ltb_spec 0 n); [reflexivity | lia].
Qed.

Import WhatIf.

(** The scenario panel and the visualizer's cache: a clause that came
    without a scenarios field gets the cached scenarios as initial value,
    and the expanded panel shows them without asking the backend; a clause
    that came with an empty scenarios array hides the cache - the empty
    array is passed down instead, and the expanded panel asks the backend
    again. *)
Theorem empty_scenarios_hide_cache (c : Clause.t) (cache : gmap string Json)
    (x : Json) (xs : list Json) (cb : bool) :
  cache !! Clause.id c = Some (JArr (x :: xs)) ->
  Clause.clause_text c <> EmptyString ->
  (Clause.scenarios c = None ->
   fetchScenarios_start (initialScenarios c cache) (Clause.clause_text c) true cb
                        (Some (Clause.id c))
   = (false, SetScenarios (JArr (x :: xs))
               :: notify cb (Some (Clause.id c)) (JArr (x :: xs))))
  /\ (Clause.scenarios c = Some [] ->
      fetchScenarios_start (initialScenarios c cache) (Clause.clause_text c) true cb
                           (Some (Clause.id c))
      = (true, [SetLoading true; FetchScenarios])).
Proof.
  intros Hc Ht. apply String.eqb_neq in Ht.
  unfold initialScenarios, ClauseVisualizer.cached. split; intros ->.
  - rewrite Hc. reflexivity.
  - cbn. rewrite Ht. reflexivity.
Qed.

(** Whatever the backend answers, the panel shows one list and hands the
    very same list to its parent, once; any failure - rejection, non-OK
    status, undecodable body - shows the mock scenarios; and the loading
    flag is reset at the end. *)
Theorem panel_shows_what_it_reports (mock : Json) (clauseId : option string)
    (r : Response ScenarioData) :
  exists shown,
    fetchScenarios_resume mock true clauseId r
    = [SetScenarios shown; OnScenariosGenerated clauseId shown; SetLoading false]
    /\ (App.succeeded r = false -> shown = mock)
    /\ fetchScenarios_resume mock false clauseId r
       = [SetScenarios shown; SetLoading false].
Proof.
  unfold fetchScenarios_resume.
  destruct r as [msg | s [msg | data]]; cbn [App.succeeded].
  - exists mock. auto.
  - exists mock. auto.
  - destruct (ok s).
    + eexists. split; [reflexivity | split; [discriminate | reflexivity]].
    + exists mock. auto.
Qed.

End UploadAndPanel.

(** ** The further properties at concrete inputs *)

Lemma loadDocuments_frame_witness :
  App.succeeded (Rejected "offline" : Response App.DocumentsData) = false
  /\ App.run (App.loadDocuments_resume (Rejected "offline")) Scenario.chatting
     = Scenario.chatting.
Proof.
  split; [reflexivity |].
  destruct (loadDocuments_frame (Rejected "offline") Scenario.chatting)
    as (_ & _ & _ & _ & H & _).
  apply H. reflexivity.
Defined.

Lemma handleDeleteChat_all_or_nothing_witness :
  App.failed (Resolved 500 (inr tt) : Response unit) = true
  /\ App.run (snd (App.handleDeleteChat_step App.DeleteAwaitResponse
                     (App.DeleteSettled (Resolved 500 (inr tt)))))
             Scenario.chatting
     = Scenario.chatting.
Proof.
  split; [reflexivity |].
  destruct (handleDeleteChat_all_or_nothing (Resolved 500 (inr tt))
              (Rejected "offline") Scenario.chatting) as (H & _).
  destruct (H eq_refl) as (_ & _ & Hr). exact Hr.
Defined.

Lemma poll_done_selects_witness :
  let pending3 := repeat (Scenario.status_ok "pending" None) 3 in
  length pending3 < App.maxAttempts
  /\ App.count App.is_status_check
       (snd (App.steps Scenario.f1 [] App.AwaitProcess
               (App.ProcessResponse (Resolved 202 (inl ""))
                  :: App.rounds pending3
                  ++ [App.TimerFired;
                      App.StatusResponse (Scenario.status_ok "done" (Some "d1"));
                      App.DocumentsResponse (Scenario.docs_ok [Scenario.d1]);
                      App.DocumentsResponse (Scenario.docs_ok [Scenario.d1])])))
     = 4.
Proof.
  intros pending3. split; [unfold App.maxAttempts; simpl; lia |].
  refine (proj1 (proj2 (poll_done_selects Scenario.f1 [] pending3
                          {| App.status := Some "done"; App.document_id := Some "d1" |}
                          200 200 (Scenario.docs_ok [Scenario.d1])
                          {| App.data_documents := Some [Scenario.d1] |}
                          Scenario.d1 (inl "") Scenario.waiting _ _ _ _ _ _))).
  - unfold App.maxAttempts. simpl. lia.
  - repeat constructor.
  - reflexivity.
  - reflexivity.
  - reflexivity.
  - reflexivity.
Defined.

Lemma poll_fatal_answer_stops_witness :
  0 < App.maxAttempts
  /\ snd (App.steps Scenario.f1 [] (App.PollStatus 0)
            [App.StatusResponse (Resolved 404 (inl "")); App.TimerFired])
     = [App.SetError (Some App.notFoundMessage); App.SetIsLoading false].
Proof.
  split; [unfold App.maxAttempts; lia |].
  refine (proj1 (proj2 (poll_fatal_answer_stops Scenario.f1 [] 0
                          (Resolved 404 (inl "")) [App.TimerFired] Scenario.waiting
                          App.notFoundMessage _ _))).
  - unfold App.maxAttempts. lia.
  - left. split; [eexists; reflexivity | reflexivity].
Defined.

Lemma upload_return_clears_loading_witness :
  App.AwaitProcess <> App.Finished
  /\ App.isLoading
       (App.run (snd (App.step Scenario.f1 [] App.AwaitProcess
                        (App.ProcessResponse (Resolved 500 (inl "")))))
                Scenario.waiting)
     = false.
Proof.
  split; [discriminate |].
  apply (upload_return_clears_loading Scenario.f1 [] App.AwaitProcess
           (App.ProcessResponse (Resolved 500 (inl ""))) Scenario.waiting);
    [discriminate | reflexivity].
Defined.

Lemma synchronous_upload_never_processes_witness :
  App.rawResponse Scenario.f2
  = Some {| App.raw_result := JObj [("summary", JStr "ok")];
            App.raw_document_id := Some "d1" |}
  /\ App.count App.is_process_call
       (snd (App.handleFileUploaded_start Scenario.f2)
          ++ snd (App.steps Scenario.f2 [] (fst (App.handleFileUploaded_start Scenario.f2))
                    [App.DocumentsResponse (Scenario.docs_ok [Scenario.d1]);
                     App.DocumentsResponse (Scenario.docs_ok [Scenario.d1])]))
     = 0.
Proof.
  split; [reflexivity |].
  apply (synchronous_upload_never_processes Scenario.f2 []
           {| App.raw_result := JObj [("summary", JStr "ok")];
              App.raw_document_id := Some "d1" |});
    reflexivity.
Defined.

Lemma immediate_completion_selects_from_old_list_witness :
  ok 200 = true
  /\ App.selectedDocument
       (App.run (snd (App.steps Scenario.f1 [] App.AwaitProcess
                        [App.ProcessResponse
                           (Resolved 200 (inr {| App.result := JBool true |}));
                         App.DocumentsResponse (Scenario.docs_ok [Scenario.d1])]))
                Scenario.waiting)
     = None.
Proof.
  split; [reflexivity |].
  refine (proj2 (proj2 (immediate_completion_selects_from_old_list Scenario.f1 [] 200
                          {| App.result := JBool true |}
                          (Scenario.docs_ok [Scenario.d1]) Scenario.waiting _ _ _)));
    reflexivity.
Defined.

Lemma reply_id_differs_witness :
  (now Scenario.noon <= now Scenario.noon)%Z
  /\ ChatMessage.id (App.assistantMessage {| App.data_message := "A lease." |}
                                          Scenario.noon)
     <> ChatMessage.id (App.userMessage "summarize this" Scenario.noon).
Proof.
  split; [lia |].
  apply (reply_id_differs "summarize this" {| App.data_message := "A lease." |}
           Scenario.noon Scenario.noon). lia.
Defined.

Lemma at_most_one_interval_witness :
  let late := [ProcessingStatus.Rerun;
               ProcessingStatus.Of 1 (ProcessingStatus.PostSettled Scenario.accepted);
               ProcessingStatus.Of 0 (ProcessingStatus.PostSettled Scenario.accepted)] in
  let k := fst (ProcessingStatus.component_steps ProcessingStatus.first_mount late) in
  ProcessingStatus.live k = [2]
  /\ ProcessingStatus.ref k = Some 2.
Proof.
  intros late k.
  assert (H : ProcessingStatus.live k = [2]) by reflexivity.
  split; [exact H |].
  apply (proj2 (at_most_one_interval late) 2).
  fold k. rewrite H. apply list_elem_of_here.
Defined.

Lemma startProcessing_reports_once_witness :
  ProcessingStatus.post_pending Scenario.mounted = true
  /\ snd (ProcessingStatus.step Scenario.mounted
            (ProcessingStatus.PostSettled
               (ProcessingStatus.AxResolved 200 (JObj [("result", Scenario.summary)]))))
     = [ProcessingStatus.OnComplete Scenario.summary].
Proof.
  split; [reflexivity |].
  refine (proj1 (startProcessing_reports_once Scenario.mounted
                   (ProcessingStatus.AxResolved 200 (JObj [("result", Scenario.summary)]))
                   _ _)); reflexivity.
Defined.


Lemma settle_is_isolated_witness :
  let r := fst (ClauseVisualizer.effect_run "Contract" [Scenario.c1; Scenario.c2]) in
  ClauseVisualizer.calls r !! 0 = Some (Scenario.c1, ClauseVisualizer.AwaitScenarios)
  /\ ClauseVisualizer.calls (fst (ClauseVisualizer.settle r 0 (Rejected "offline"))) !! 1
     = ClauseVisualizer.calls r !! 1.
Proof.
  intros r. split; [reflexivity |].
  refine (proj1 (settle_is_isolated r 0 (Rejected "offline") Scenario.c1
                   ClauseVisualizer.AwaitScenarios _) 1 _);
    [reflexivity | discriminate].
Defined.

Lemma unmounted_run_never_writes_witness :
  let k := fst (ClauseVisualizer.steps ClauseVisualizer.initial
                  [ClauseVisualizer.Render "Contract" [Scenario.c1];
                   ClauseVisualizer.Render "Contract" [Scenario.c1]]) in
  let old := ClauseVisualizer.unmount
               (fst (ClauseVisualizer.effect_run "Contract" [Scenario.c1])) in
  ClauseVisualizer.runs k !! 0 = Some old
  /\ ClauseVisualizer.mounted old = false
  /\ ClauseVisualizer.scenariosById
       (fst (ClauseVisualizer.step k
               (ClauseVisualizer.Settle 0 0
                  (Resolved 200
                     (inr {| ClauseVisualizer.data_scenarios := JArr [JStr "late"];
                             ClauseVisualizer.data_references := JUndefined |})))))
     = ClauseVisualizer.scenariosById k.
Proof.
  intros k old.
  assert (H : ClauseVisualizer.runs k !! 0 = Some old) by reflexivity.
  split; [exact H | split; [reflexivity |]].
  exact (proj1 (unmounted_run_never_writes k 0 0 _ old H eq_refl)).
Defined.

Lemma rejected_scenarios_skip_references_witness :
  ClauseVisualizer.lacks (Clause.legal_references Scenario.c1) = true
  /\ ClauseVisualizer.fetchForClause_resume true "Contract" Scenario.c1
       ClauseVisualizer.AwaitScenarios (Rejected "offline")
     = (ClauseVisualizer.Returned, [ClauseVisualizer.ConsoleWarn])
  /\ ClauseVisualizer.fetchForClause_resume true "Contract" Scenario.c1
       ClauseVisualizer.AwaitScenarios (Resolved 500 (inl "oops"))
     = (ClauseVisualizer.AwaitReferences,
        [ClauseVisualizer.Fetch ClauseVisualizer.LegalKnowledgeGraph "c1"
           (ClauseVisualizer.body_of "Contract" Scenario.c1)]).
Proof.
  split; [reflexivity |].
  destruct (rejected_scenarios_skip_references true "Contract" Scenario.c1 "offline" 500
              eq_refl eq_refl) as (H1 & _ & H3).
  split; [exact H1 | exact (H3 eq_refl (inl "oops"))].
Defined.

Lemma handlePersist_failure_is_silent_witness :
  App.succeeded (Resolved 500 (inl "oops") : Response ClauseVisualizer.PersistData) = false
  /\ last (ClauseVisualizer.handlePersist_resume true true (Resolved 500 (inl "oops")))
     = Some (ClauseVisualizer.SetSaving false).
Proof.
  split; [reflexivity |].
  destruct (handlePersist_failure_is_silent ClauseVisualizer.initial [Scenario.c1]
              true true (Resolved 500 (inl "oops"))) as (_ & _ & H & _).
  exact (proj2 (H eq_refl)).
Defined.

Lemma arriving_scenarios_are_persisted_witness :
  Clause.scenarios Scenario.c3 = Some [JStr "breach"]
  /\ ClauseVisualizer.scenariosById
       (fst (ClauseVisualizer.step ClauseVisualizer.initial
               (ClauseVisualizer.Render "Contract" [Scenario.c1; Scenario.c3])))
     !! "c3" = Some (JArr [JStr "breach"]).
Proof.
  split; [reflexivity |].
  refine (proj1 (arriving_scenarios_are_persisted "Contract" [Scenario.c1; Scenario.c3]
                   Scenario.c3 [JStr "breach"] _ _ eq_refl _)).
  - cbn. apply NoDup_cons. split; [| apply NoDup_singleton].
    intros H. apply list_elem_of_singleton in H. discriminate.
  - apply list_elem_of_further, list_elem_of_here.
  - discriminate.
Defined.

Lemma checkPersisted_fails_open_witness :
  ("d2" : string) <> "d1"
  /\ ChatInterface.persistedByDocument
       (ChatInterface.run (ChatInterface.checkPersisted_resume true "d1" (Rejected "offline"))
                          Scenario.persisted)
     !! "d2"
     = ChatInterface.persistedByDocument Scenario.persisted !! "d2".
Proof.
  split; [discriminate |].
  destruct (checkPersisted_fails_open Scenario.persisted "d1" (Rejected "offline"))
    as ((_ & H & _) & _).
  apply H. discriminate.
Defined.

Lemma persist_then_undo_witness :
  ok 200 = true
  /\ ChatInterface.clauses
       (ChatInterface.run
          (ChatInterface.onAction_resume "d1"
             (ChatInterface.inserted_ids [Scenario.c1]) (Resolved 200 (inr tt)))
          (ChatInterface.run (ChatInterface.onPersist "d1" [Scenario.c1])
                             Scenario.persisted))
     = [Scenario.c2].
Proof.
  split; [reflexivity |].
  destruct (persist_then_undo Scenario.persisted "d1" [Scenario.c1] 200 (inr tt) eq_refl)
    as (_ & _ & _ & _ & _ & H & _).
  exact H.
Defined.

Lemma retry_poll_is_bounded_witness :
  ok 202 || (202 =? 202) = true
  /\ Visualize.count Visualize.is_status_check
       (snd (Visualize.steps "d1" "a.pdf" Visualize.AwaitStart
               [Visualize.StartResponse (Resolved 202 (inr "")); Visualize.TimerFired]))
     <= Visualize.maxPolls.
Proof.
  split; [reflexivity |].
  refine (proj1 (retry_poll_is_bounded "d1" "a.pdf" 202 (inr "")
                   [Visualize.TimerFired] _)).
  reflexivity.
Defined.

Lemma retry_poll_times_out_witness :
  let rs := repeat (Resolved 200 (inr {| Visualize.body_status := Some "pending" |})) 60 in
  length rs = Visualize.maxPolls
  /\ exists es,
      Visualize.steps "d1" "a.pdf" Visualize.AwaitStart
        (Visualize.StartResponse (Resolved 202 (inr "")) :: Visualize.rounds rs)
      = (Visualize.Returned, es ++ [Visualize.SetToast (Some Visualize.timeoutToast)])
      /\ Visualize.count Visualize.is_status_check es = Visualize.maxPolls
      /\ Visualize.count Visualize.is_analysis es = 0
      /\ Visualize.count Visualize.is_outcome es = 0.
Proof.
  intros rs. split; [reflexivity |].
  apply (retry_poll_times_out "d1" "a.pdf" 202 (inr "") rs);
    [reflexivity | reflexivity | repeat constructor].
Defined.

Lemma visualize_follows_check_witness :
  ChatInterface.persistedByDocument Scenario.persisted !! "d9" = None
  /\ Visualize.click_start (ChatInterface.persistedByDocument Scenario.persisted) "d9"
     = [Visualize.SetVisualizerLoading true; Visualize.Fetch (Visualize.GetAnalysis "d9")].
Proof.
  assert (H : ChatInterface.persistedByDocument Scenario.persisted !! "d9" = None)
    by (vm_compute; reflexivity).
  split; [exact H |].
  exact (proj2 (visualize_follows_check Scenario.persisted "d9" (Rejected "offline")) H).
Defined.

Lemma typing_reveals_prefix_witness :
  String.length "Hello" <= 5
  /\ TypingAnimation.displayedText (fst (TypingAnimation.animate "Hello" true 5))
     = "Hello".
Proof.
  split; [simpl; lia |].
  destruct (typing_reveals_prefix "Hello" true 5) as (_ & _ & H & _).
  apply H. simpl. lia.
Defined.

Lemma truncateText_bound_witness :
  3 < String.length "abcdef"
  /\ ResultsDisplay.truncateText "abcdef" 3 = "abc...".
Proof.
  split; [simpl; lia |].
  destruct (truncateText_bound "abcdef" 3) as (_ & _ & H).
  refine (proj1 (H _)). simpl. lia.
Defined.

Lemma truncateFileName_bound_witness :
  String.length
    (default EmptyString
       (last (ChatSidebar.split_dot "employment_agreement_final_v2.pdf"))) + 3 <= 25
  /\ String.length
       (ChatSidebar.truncateFileName "employment_agreement_final_v2.pdf" 25) <= 25 + 1.
Proof.
  split; [vm_compute; lia |].
  apply (truncateFileName_bound "employment_agreement_final_v2.pdf" 25).
  vm_compute. lia.
Defined.

Lemma truncateFileName_without_dot_witness :
  ChatSidebar.has_dot "employment_agreement_final_v2" = false
  /\ ChatSidebar.truncateFileName "employment_agreement_final_v2" 25
     = "....employment_agreement_final_v2".
Proof.
  split; [reflexivity |].
  refine (proj1 (truncateFileName_without_dot "employment_agreement_final_v2" 25 _ _));
    [reflexivity | simpl; lia].
Defined.

Lemma sidebar_delete_scope_witness :
  let st' := App.run (flat_map (ChatSidebar.in_app (Scenario.docs_ok [Scenario.d2]))
                        (ChatSidebar.delete_resume (Some Scenario.d1) true Scenario.d1
                           (Resolved 200 (inr tt))))
                     Scenario.reading in
  App.selectedDocument st' = None
  /\ App.documents st' = [Scenario.d2]
  /\ App.chatHistory st' = [Scenario.m1].
Proof.
  pose proof (sidebar_delete_scope (Some Scenario.d1) true Scenario.d1
                (Resolved 200 (inr tt)) (Scenario.docs_ok [Scenario.d2])
                Scenario.reading) as (Hs & Hd & Hh & _).
  split; [exact Hs | split; [exact Hd | exact Hh]].
Defined.

Lemma upload_answers_once_witness :
  prop (JObj [("message", JStr "stored")]) "file_id" = Some JUndefined
  /\ FileUpload.uploadFile_resume
       (ProcessingStatus.AxResolved 200 (JObj [("message", JStr "stored")]))
     = [FileUpload.SetUploading false].
Proof.
  split; [reflexivity |].
  destruct (upload_answers_once
              (ProcessingStatus.AxResolved 200 (JObj [("message", JStr "stored")])))
    as (_ & _ & _ & H & _).
  apply (H 200 (JObj [("message", JStr "stored")]) JUndefined); reflexivity.
Defined.

Lemma empty_scenarios_hide_cache_witness :
  Clause.scenarios Scenario.c4 = Some []
  /\ WhatIf.fetchScenarios_start
       (WhatIf.initialScenarios Scenario.c4 {["c4" := JArr [JStr "breach"]]})
       (Clause.clause_text Scenario.c4) true true (Some "c4")
     = (true, [WhatIf.SetLoading true; WhatIf.FetchScenarios]).
Proof.
  split; [reflexivity |].
  refine (proj2 (empty_scenarios_hide_cache Scenario.c4 {["c4" := JArr [JStr "breach"]]}
                   (JStr "breach") [] true _ _) eq_refl).
  - apply lookup_singleton_eq.
  - discriminate.
Defined.
